(** * xgen: the Go emitter and the facet handlers of the XSD parser

    A shallow embedding of [genGo.go] (the code emitter for the Go target)
    and of the restriction handlers of the parser ([xmlSimpleType.go],
    [xmlRestriction.go], [xmlPattern.go], [xmlMinInclusive.go] and the
    handlers of [maxInclusive], [minLength] and [maxLength]), together with
    the properties of the emitter and of the parser that the design
    document states about them.

    Go strings are byte strings: [string] with [ascii] as the byte.  Go [int]
    is [Z]; [float64] is the IEEE-754 binary64 datum of [SpecFloat].  Go maps
    are [gmap]s, the mutable generator is threaded explicitly. *)

From Stdlib Require Import ZArith Ascii String DecimalString List Bool Lia.
From Stdlib Require Import Floats.SpecFloat.
From Stdlib Require Import DecimalZ DecimalPos.
From stdpp Require Import gmap strings list sorting.

Set Warnings "-register-all".
Local Open Scope Z_scope.

(** ** The fragments of Go's standard library the sources use *)

Module strings.

(** [strings.Join]. *)
Definition Join (elems : list string) (sep : string) : string :=
  String.concat sep elems.

(** Membership of a byte in a string. *)
Fixpoint IndexByte (c : ascii) (s : string) : bool :=
  match s with
  | EmptyString => false
  | String d s' => if Ascii.eqb c d then true else IndexByte c s'
  end.

(** [strings.ContainsAny], for a set [chars] of one-byte characters. *)
Fixpoint ContainsAny (s chars : string) : bool :=
  match s with
  | EmptyString => false
  | String c s' => if IndexByte c chars then true else ContainsAny s' chars
  end.

(** [strings.HasPrefix]. *)
Definition HasPrefix (s pre : string) : bool := String.prefix pre s.

(** [strings.Contains]. *)
Fixpoint Contains (s substr : string) : bool :=
  if HasPrefix s substr then true
  else match s with
       | EmptyString => false
       | String _ s' => Contains s' substr
       end.

(** [strings.HasSuffix]. *)
Definition HasSuffix (s suf : string) : bool :=
  let n := String.length s in
  let k := String.length suf in
  if (k <=? n)%nat then String.eqb (String.substring (n - k) k s) suf
  else false.

(** [strings.TrimPrefix]. *)
Definition TrimPrefix (s pre : string) : string :=
  if HasPrefix s pre
  then String.substring (String.length pre)
                        (String.length s - String.length pre) s
  else s.

(** [strings.FieldsFunc] for a separator predicate that is decided byte by
    byte: the maximal runs of non-separator bytes, in order, none empty.
    [cur] is the run being read. *)
Fixpoint fieldsAux (sep : ascii -> bool) (s cur : string) : list string :=
  match s with
  | EmptyString => if String.eqb cur "" then [] else [cur]
  | String c s' =>
      if sep c
      then (if String.eqb cur "" then fieldsAux sep s' ""
            else cur :: fieldsAux sep s' "")
      else fieldsAux sep s' (cur +:+ String c "")
  end.

Definition FieldsFunc (s : string) (sep : ascii -> bool) : list string :=
  fieldsAux sep s "".

(** ASCII lower-casing of one byte. *)
Definition lowerByte (c : ascii) : ascii :=
  let n := nat_of_ascii c in
  if ((65 <=? n) && (n <=? 90))%nat then ascii_of_nat (n + 32) else c.

(** [strings.ToLower] on a string of at most one byte, as in
    [strings.ToLower(name[:1])]: an ASCII byte is lower-cased; a lone byte
    above 0x7f is not valid UTF-8 and comes back as U+FFFD. *)
Definition ToLower1 (s : string) : string :=
  match s with
  | EmptyString => ""
  | String c _ =>
      if (nat_of_ascii c <? 128)%nat then String (lowerByte c) ""
      else String (ascii_of_nat 239)
             (String (ascii_of_nat 191) (String (ascii_of_nat 189) ""))
  end.

End strings.

(** [%d] of [fmt.Sprintf]: the decimal numeral, with [-] for negatives. *)
Definition FormatD (n : Z) : string := NilZero.string_of_int (Z.to_int n).

(** The digits of a decimal numeral, most significant first. *)
Fixpoint digitsValue (s : string) (acc : Z) : option Z :=
  match s with
  | EmptyString => Some acc
  | String c s' =>
      let n := Z.of_nat (nat_of_ascii c) in
      if (48 <=? n) && (n <=? 57) then digitsValue s' (10 * acc + (n - 48))
      else None
  end.

(** [strconv.Atoi]: an optional sign, then one or more decimal digits; a
    value outside the 64-bit [int] is an error.  [None] is the error. *)
Definition Atoi (s : string) : option Z :=
  let signed (neg : bool) (ds : string) : option Z :=
    match ds with
    | EmptyString => None
    | _ => match digitsValue ds 0 with
           | Some v =>
               let v' := if neg then - v else v in
               if (- 2 ^ 63 <=? v') && (v' <=? 2 ^ 63 - 1) then Some v'
               else None
           | None => None
           end
    end in
  match s with
  | EmptyString => None
  | String c s' =>
      if Ascii.eqb c "-" then signed true s'
      else if Ascii.eqb c "+" then signed false s'
      else signed false s
  end.

(** A Go [error] is represented by its message. *)
Definition error : Type := string.

(** [float64]. *)
Definition float64 : Type := spec_float.

(** The library functions whose definition is outside the repository and
    is not reproduced here: number parsing and printing for [float64], Go
    string quoting, Unicode space trimming and the source formatter. *)
Class GoLib := {
  (** [strconv.ParseFloat(s, 64)]; [None] when it returns an error. *)
  ParseFloat : string -> option float64;
  (** [%g] of [fmt.Sprintf]. *)
  FormatG : float64 -> string;
  (** [%q] of [fmt.Sprintf] on a string ([strconv.Quote]). *)
  Quote : string -> string;
  (** [strings.TrimSpace]. *)
  TrimSpace : string -> string;
  (** [go/format.Source]: the formatted text, or the formatter's error. *)
  formatSource : string -> string + error
}.

(** ** The data model ([proto.go]), as the sources use it *)

(** Facet rules of a simple type, or of an element or attribute that
    carries them inline. *)
Record Restriction := mkRestriction {
  Enum : list string;
  PatternStr : string;
  Length : Z;
  MinLength : Z;
  MaxLength : Z;
  HasLength : bool;
  HasMinLength : bool;
  HasMaxLength : bool;
  Min : float64;
  Max : float64;
  HasMin : bool;
  HasMax : bool;
  MinExclusive : bool;
  MaxExclusive : bool
}.

(** The zero value of [Restriction]. *)
Definition emptyRestriction : Restriction :=
  mkRestriction [] "" 0 0 0 false false false
                (S754_zero false) (S754_zero false) false false false false.

Module SimpleType.
Record t := mk {
  Doc : string;
  Name : string;
  Base : string;
  List : bool;
  Union : bool;
  MemberTypes : gmap string string;
  Restriction : Restriction
}.
(** [&SimpleType{}]. *)
Definition zero : t := mk "" "" "" false false ∅ emptyRestriction.
Definition setName (n : string) (v : t) : t :=
  mk (Doc v) n (Base v) (List v) (Union v) (MemberTypes v) (Restriction v).
Definition setBase (b : string) (v : t) : t :=
  mk (Doc v) (Name v) b (List v) (Union v) (MemberTypes v) (Restriction v).
Definition setRestriction r (v : t) : t :=
  mk (Doc v) (Name v) (Base v) (List v) (Union v) (MemberTypes v) r.
End SimpleType.

Module Element.
Record t := mk {
  Doc : string;
  Name : string;
  Type_ : string;
  TypeRef : string;
  Plural : bool;
  Optional : bool;
  Restriction : Restriction
}.
Definition setType (ty : string) (v : t) : t :=
  mk (Doc v) (Name v) ty (TypeRef v) (Plural v) (Optional v) (Restriction v).
Definition setRestriction r (v : t) : t :=
  mk (Doc v) (Name v) (Type_ v) (TypeRef v) (Plural v) (Optional v) r.
End Element.

Module Attribute.
Record t := mk {
  Doc : string;
  Name : string;
  Type_ : string;
  TypeRef : string;
  Plural : bool;
  Optional : bool;
  Restriction : Restriction
}.
Definition setType (ty : string) (v : t) : t :=
  mk (Doc v) (Name v) ty (TypeRef v) (Plural v) (Optional v) (Restriction v).
Definition setRestriction r (v : t) : t :=
  mk (Doc v) (Name v) (Type_ v) (TypeRef v) (Plural v) (Optional v) r.
End Attribute.

Module Group.
Inductive t := mk {
  Doc : string;
  Name : string;
  Elements : list Element.t;
  Groups : list t;
  Plural : bool;
  Ref : string
}.
End Group.

Module AttributeGroup.
Record t := mk {
  Doc : string;
  Name : string;
  Ref : string;
  Attributes : list Attribute.t
}.
End AttributeGroup.

Module ComplexType.
Record t := mk {
  Doc : string;
  Name : string;
  Base : string;
  Elements : list Element.t;
  Attributes : list Attribute.t;
  Groups : list Group.t;
  AttributeGroup : list AttributeGroup.t
}.
Definition setElements (es : list Element.t) (v : t) : t :=
  mk (Doc v) (Name v) (Base v) es (Attributes v) (Groups v) (AttributeGroup v).
End ComplexType.

(** An entry of [ProtoTree []interface{}]: a pointer to one of the schema
    entities, or [nil]. *)
Inductive ProtoEntry :=
| PSimpleType (v : SimpleType.t)
| PComplexType (v : ComplexType.t)
| PGroup (v : Group.t)
| PAttributeGroup (v : AttributeGroup.t)
| PElement (v : Element.t)
| PAttribute (v : Attribute.t)
| PNil.

(** ** The generator ([genGo.go]) *)

(** [CodeGenerator]: the overrides and the run-time data of one emission. *)
Record CodeGenerator := mkCodeGenerator {
  Lang : string;
  File : string;
  Field : string;
  Package : string;
  ImportTime : bool;
  ImportEncodingXML : bool;
  ImportFmt : bool;
  ImportRegexp : bool;
  ProtoTree : list ProtoEntry;
  StructAST : gmap string string;
  TypeNameMap : gmap string string;
  ValidatedTypes : gmap string bool
}.

Definition setField (f : string) (g : CodeGenerator) : CodeGenerator :=
  mkCodeGenerator (Lang g) (File g) f (Package g) (ImportTime g)
    (ImportEncodingXML g) (ImportFmt g) (ImportRegexp g) (ProtoTree g)
    (StructAST g) (TypeNameMap g) (ValidatedTypes g).

Definition setStructAST (m : gmap string string) (g : CodeGenerator)
  : CodeGenerator :=
  mkCodeGenerator (Lang g) (File g) (Field g) (Package g) (ImportTime g)
    (ImportEncodingXML g) (ImportFmt g) (ImportRegexp g) (ProtoTree g)
    m (TypeNameMap g) (ValidatedTypes g).

Definition setImportTime (b : bool) (g : CodeGenerator) : CodeGenerator :=
  mkCodeGenerator (Lang g) (File g) (Field g) (Package g) b
    (ImportEncodingXML g) (ImportFmt g) (ImportRegexp g) (ProtoTree g)
    (StructAST g) (TypeNameMap g) (ValidatedTypes g).

Definition setImportEncodingXML (b : bool) (g : CodeGenerator)
  : CodeGenerator :=
  mkCodeGenerator (Lang g) (File g) (Field g) (Package g) (ImportTime g)
    b (ImportFmt g) (ImportRegexp g) (ProtoTree g)
    (StructAST g) (TypeNameMap g) (ValidatedTypes g).

Definition setImportFmt (b : bool) (g : CodeGenerator) : CodeGenerator :=
  mkCodeGenerator (Lang g) (File g) (Field g) (Package g) (ImportTime g)
    (ImportEncodingXML g) b (ImportRegexp g) (ProtoTree g)
    (StructAST g) (TypeNameMap g) (ValidatedTypes g).

Definition setImportRegexp (b : bool) (g : CodeGenerator) : CodeGenerator :=
  mkCodeGenerator (Lang g) (File g) (Field g) (Package g) (ImportTime g)
    (ImportEncodingXML g) (ImportFmt g) b (ProtoTree g)
    (StructAST g) (TypeNameMap g) (ValidatedTypes g).

(** The functions and constants of the package that the emitter calls and
    whose definitions ([utils.go], [parser.go]) are not among the sources
    embedded here. *)
Class XgenLib := {
  trimNSPrefix : string -> string;
  getBasefromSimpleType : string -> list ProtoEntry -> string;
  (** [getBuildInTypeByLang(value, lang)]: the mapped name and the [ok]
      flag. *)
  getBuildInTypeByLang : string -> string -> string * bool;
  MakeFirstUpperCase : string -> string;
  genFieldComment : string -> string -> string -> string;
  copyright : string;
  (** [toSortedPairs]: the entries of a map as key/value pairs, in the
      order the helper puts them. *)
  toSortedPairs : gmap string string -> list (string * string)
}.

(** [isNumericGoType]. *)
Definition isNumericGoType (t : string) : bool :=
  bool_decide (t ∈ ["int"; "int8"; "int16"; "int32"; "int64"; "uint";
                     "uint8"; "uint16"; "uint32"; "uint64"; "float32";
                     "float64"]).

(** [hasRestrictions]: whether the restriction contains any rule. *)
Definition hasRestrictions (r : Restriction) : bool :=
  (0 <? length (Enum r))%nat
  || negb (String.eqb (PatternStr r) "")
  || HasLength r || HasMinLength r || HasMaxLength r || HasMin r || HasMax r.

(** The loop of [buildValidateTag] over [r.Enum]: the values collected so
    far and the [ok] flag, which the first value with a blank clears. *)
Fixpoint enumValsLoop (enum : list string) (enumVals : list string)
  : bool * list string :=
  match enum with
  | [] => (true, enumVals)
  | ev :: rest =>
      if strings.ContainsAny ev (" " +:+ String (ascii_of_nat 9)
                                   (String (ascii_of_nat 10)
                                      (String (ascii_of_nat 13) "")))
      then (false, enumVals)
      else enumValsLoop rest (enumVals ++ [ev])
  end.

Section Tag.
Context `{GoLib}.

(** The rules [buildValidateTag] appends for a [string] base. *)
Definition stringRules (r : Restriction) : list string :=
  (if HasLength r then ["len=" +:+ FormatD (Length r)]
   else (if HasMinLength r then ["min=" +:+ FormatD (MinLength r)] else [])
        ++ (if HasMaxLength r then ["max=" +:+ FormatD (MaxLength r)]
            else []))
  ++ (if negb (String.eqb (PatternStr r) "")
      then
        let pattern := PatternStr r in
        let pattern :=
          if (0 <? String.length pattern)%nat
          then "^" +:+ pattern +:+ "$" else pattern in
        ["matches=" +:+ pattern]
      else [])
  ++ (if (0 <? length (Enum r))%nat
      then
        let '(ok, enumVals) := enumValsLoop (Enum r) [] in
        if ok then ["oneof=" +:+ strings.Join enumVals " "] else []
      else []).

(** The rules [buildValidateTag] appends for a numeric base. *)
Definition numericRules (r : Restriction) : list string :=
  (if HasMin r
   then (if MinExclusive r then ["gt=" +:+ FormatG (Min r)]
         else ["gte=" +:+ FormatG (Min r)])
   else [])
  ++ (if HasMax r
      then (if MaxExclusive r then ["lt=" +:+ FormatG (Max r)]
            else ["lte=" +:+ FormatG (Max r)])
      else []).

(** The slice [rules] of [buildValidateTag] just before the final
    [len(rules) == 0] test. *)
Definition tagRules (base : string) (r : Restriction) (optional : bool)
  : list string :=
  (if optional then ["omitempty"] else [])
  ++ (if String.eqb base "string" then stringRules r else [])
  ++ (if isNumericGoType base then numericRules r else []).

(** [buildValidateTag]: the go-playground/validator tag for a restriction
    and a base type; empty when there is no rule.  [r] is [None] for the
    nil pointer. *)
Definition buildValidateTag (base : string) (r : option Restriction)
           (optional isSlice : bool) : string :=
  match r with
  | None => ""
  | Some r =>
      if negb (hasRestrictions r) then ""
      else
        let rules := tagRules base r optional in
        if (length rules =? 0)%nat then ""
        else
          let rules := if isSlice then "dive" :: rules else rules in
          strings.Join rules ","
  end.

End Tag.

(** ** State threading *)

(** The mutable state of an emission: the generator and the package-level
    counter [fieldNameCount]. *)
Record World := mkWorld {
  gen : CodeGenerator;
  fieldNameCount : gmap string Z
}.

(** A computation over the emission state. *)
Definition M (A : Type) : Type := World -> A * World.

#[global] Instance M_ret : MRet M := fun A (x : A) w => (x, w).
#[global] Instance M_bind : MBind M :=
  fun A B (f : A -> M B) (m : M A) w => let '(x, w') := m w in f x w'.

Definition getGen : M CodeGenerator := fun w => (gen w, w).
Definition modifyGen (f : CodeGenerator -> CodeGenerator) : M unit :=
  fun w => (tt, mkWorld (f (gen w)) (fieldNameCount w)).

(** [when b m]: an [if] statement without [else]. *)
Definition when (b : bool) (m : M unit) : M unit :=
  if b then m else mret tt.

(** [for _, x := range xs { body }]. *)
Fixpoint forEach {A : Type} (xs : list A) (body : A -> M unit) : M unit :=
  match xs with
  | [] => mret tt
  | x :: rest => body x ;; forEach rest body
  end.

(** A loop that accumulates text in a local variable. *)
Fixpoint forEachAcc {A : Type} (xs : list A) (body : A -> M string)
  : M string :=
  match xs with
  | [] => mret ""
  | x :: rest =>
      s ← body x; t ← forEachAcc rest body; mret (s +:+ t)
  end.

(** Characters that a Go string literal writes as escapes. *)
Definition TAB : string := String (ascii_of_nat 9) "".
Definition NL : string := String (ascii_of_nat 10) "".
Definition DQ : string := String (ascii_of_nat 34) "".

(** ** Names *)

Definition goBuildinType : list string :=
  ["xml.Name"; "byte"; "[]byte"; "bool"; "[]bool"; "complex64";
   "complex128"; "float32"; "float64"; "int"; "int8"; "int16"; "int32";
   "int64"; "interface"; "[]interface{}"; "string"; "[]string";
   "time.Time"; "uint"; "uint8"; "uint16"; "uint32"; "uint64"].

(** [isGoBuiltInType], and the lookups [goBuildinType[name]]. *)
Definition isGoBuiltInType (typeName : string) : bool :=
  bool_decide (typeName ∈ goBuildinType).

(** [splitter]: the runes [:.-_]. *)
Definition splitter (r : ascii) : bool := strings.IndexByte r ":.-_".

Section Emitter.
Context `{GoLib} `{XgenLib}.

(** The loop of [genGoFieldName] and of [genGoFieldType]: the words of
    [name], each with its first letter in upper case. *)
Definition upperWords (name : string) : string :=
  foldl (fun acc str => acc +:+ MakeFirstUpperCase str) ""
        (strings.FieldsFunc name splitter).

(** [genGoFieldName]. With [unique] the name is counted, and a name met
    before gets its count appended. *)
Definition genGoFieldName (name : string) (unique : bool) : M string :=
  fun w =>
    let fieldName := upperWords name in
    if unique then
      let count := default 0 (fieldNameCount w !! fieldName) + 1 in
      let w' := mkWorld (gen w) (<[fieldName := count]> (fieldNameCount w)) in
      if negb (count =? 1) then (fieldName +:+ FormatD count, w')
      else (fieldName, w')
    else (fieldName, w).

(** [genGoFieldType]. *)
Definition genGoFieldType (name : string) : string :=
  if isGoBuiltInType name then name
  else
    let fieldType := upperWords name in
    if negb (String.eqb fieldType "") then "*" +:+ fieldType
    else "interface{}".

(** [findSimpleType]: the first simple type of [ProtoTree] with that
    name. *)
Definition findSimpleType (g : CodeGenerator) (name : string)
  : option SimpleType.t :=
  let name := trimNSPrefix name in
  let fix go (tree : list ProtoEntry) : option SimpleType.t :=
    match tree with
    | [] => None
    | PSimpleType st :: rest =>
        if String.eqb (SimpleType.Name st) name then Some st else go rest
    | _ :: rest => go rest
    end in
  go (ProtoTree g).

(** [findSimpleTypeByGoName]. *)
Definition findSimpleTypeByGoName (g : CodeGenerator) (goName : string)
  : option SimpleType.t :=
  let fix go (tree : list ProtoEntry) : option SimpleType.t :=
    match tree with
    | [] => None
    | PSimpleType st :: rest =>
        if String.eqb (upperWords (SimpleType.Name st)) goName then Some st
        else go rest
    | _ :: rest => go rest
    end in
  go (ProtoTree g).

(** The declaration text [fmt.Sprintf("%stype %s%s", comment, name,
    content)]. *)
Definition typeDecl (fieldName doc content : string) : string :=
  genFieldComment fieldName doc "//" +:+ "type " +:+ fieldName +:+ content.

Definition appendField (s : string) : M unit :=
  modifyGen (fun g => setField (Field g +:+ s) g).

Definition putStructAST (key content : string) : M unit :=
  modifyGen (fun g => setStructAST (<[key := content]> (StructAST g)) g).

(** *** Method-form validators *)

(** The length checks on the expression [varExpr], reported under the
    name [subject]. *)
Definition lengthChecks (varExpr subject : string) (r : Restriction)
  : string :=
  if HasLength r then
    TAB +:+ "if len(string(" +:+ varExpr +:+ ")) != " +:+ FormatD (Length r)
    +:+ " { return fmt.Errorf(" +:+ DQ +:+ subject
    +:+ " length must be exactly " +:+ FormatD (Length r) +:+ DQ +:+ ") }"
    +:+ NL
  else
    (if HasMinLength r then
       TAB +:+ "if len(string(" +:+ varExpr +:+ ")) < "
       +:+ FormatD (MinLength r) +:+ " { return fmt.Errorf(" +:+ DQ
       +:+ subject +:+ " length must be >= " +:+ FormatD (MinLength r)
       +:+ DQ +:+ ") }" +:+ NL
     else "")
    +:+ (if HasMaxLength r then
           TAB +:+ "if len(string(" +:+ varExpr +:+ ")) > "
           +:+ FormatD (MaxLength r) +:+ " { return fmt.Errorf(" +:+ DQ
           +:+ subject +:+ " length must be <= " +:+ FormatD (MaxLength r)
           +:+ DQ +:+ ") }" +:+ NL
         else "").

(** The set-membership check over all the values of [r.Enum]. *)
Definition enumCheck (varExpr subject : string) (r : Restriction)
  : string :=
  TAB +:+ "{"
  +:+ NL +:+ TAB +:+ TAB +:+ "allowed := map[string]struct{}{" +:+ NL
  +:+ foldl (fun acc ev =>
               acc +:+ TAB +:+ TAB +:+ TAB +:+ Quote ev +:+ ": {}," +:+ NL)
            "" (Enum r)
  +:+ TAB +:+ TAB +:+ "}" +:+ NL
  +:+ TAB +:+ TAB +:+ "if _, ok := allowed[string(" +:+ varExpr
  +:+ ")]; !ok { return fmt.Errorf(" +:+ DQ +:+ subject
  +:+ " must be one of enum values" +:+ DQ +:+ ") }" +:+ NL
  +:+ TAB +:+ "}" +:+ NL.

(** The bound checks that follow [vv := float64(...)]. *)
Definition boundChecks (subject : string) (r : Restriction) : string :=
  (if HasMin r then
     if MinExclusive r then
       TAB +:+ "if vv <= " +:+ FormatG (Min r) +:+ " { return fmt.Errorf("
       +:+ DQ +:+ subject +:+ " must be > " +:+ FormatG (Min r) +:+ DQ
       +:+ ") }" +:+ NL
     else
       TAB +:+ "if vv < " +:+ FormatG (Min r) +:+ " { return fmt.Errorf("
       +:+ DQ +:+ subject +:+ " must be >= " +:+ FormatG (Min r) +:+ DQ
       +:+ ") }" +:+ NL
   else "")
  +:+ (if HasMax r then
         if MaxExclusive r then
           TAB +:+ "if vv >= " +:+ FormatG (Max r)
           +:+ " { return fmt.Errorf(" +:+ DQ +:+ subject +:+ " must be < "
           +:+ FormatG (Max r) +:+ DQ +:+ ") }" +:+ NL
         else
           TAB +:+ "if vv > " +:+ FormatG (Max r)
           +:+ " { return fmt.Errorf(" +:+ DQ +:+ subject +:+ " must be <= "
           +:+ FormatG (Max r) +:+ DQ +:+ ") }" +:+ NL
       else "").

(** The pattern check of [generateSimpleTypeValidator]: the regular
    expression handed to [regexp.MustCompile] is the literal
    [%q] of [r.PatternStr]. *)
Definition simplePatternCheck (typeName : string) (r : Restriction)
  : string :=
  TAB +:+ "if ok := regexp.MustCompile(" +:+ Quote (PatternStr r)
  +:+ ").MatchString(string(v)); !ok { return fmt.Errorf(" +:+ DQ
  +:+ "%s does not match pattern: %q" +:+ DQ +:+ ", " +:+ Quote typeName
  +:+ ", " +:+ Quote (PatternStr r) +:+ ") }" +:+ NL.

(** The body that [generateSimpleTypeValidator] writes between the
    method header and [return nil]. *)
Definition simpleValidatorBody (typeName base : string) (r : Restriction)
  : string :=
  (if String.eqb base "string" then
     lengthChecks "v" typeName r
     +:+ (if negb (String.eqb (PatternStr r) "")
          then simplePatternCheck typeName r else "")
     +:+ (if (0 <? length (Enum r))%nat then enumCheck "v" typeName r
          else "")
   else "")
  +:+ (if isNumericGoType base && (HasMin r || HasMax r) then
         TAB +:+ "vv := float64(v)" +:+ NL +:+ boundChecks typeName r
       else "").

(** [needsFmt] at the end of [generateSimpleTypeValidator]. *)
Definition simpleNeedsFmt (base : string) (r : Restriction) : bool :=
  (String.eqb base "string"
   && ((if HasLength r then true else HasMinLength r || HasMaxLength r)
       || negb (String.eqb (PatternStr r) "")
       || (0 <? length (Enum r))%nat))
  || (isNumericGoType base && (HasMin r || HasMax r)).

(** [generateSimpleTypeValidator]: emits a [Validate] method for a named
    simple type according to its restriction. *)
Definition generateSimpleTypeValidator (typeName base : string)
           (r : option Restriction) : M unit :=
  match r with
  | None => mret tt
  | Some r =>
      if negb (hasRestrictions r) then mret tt
      else
        let isString := String.eqb base "string" in
        when (isString && negb (String.eqb (PatternStr r) ""))
             (modifyGen (setImportRegexp true)) ;;
        let b := NL +:+ "func (v " +:+ typeName +:+ ") Validate() error {"
                 +:+ NL +:+ simpleValidatorBody typeName base r
                 +:+ TAB +:+ "return nil" +:+ NL +:+ "}" in
        when (simpleNeedsFmt base r) (modifyGen (setImportFmt true)) ;;
        appendField (b +:+ NL)
  end.

(** [generateRestrictionChecks]: the snippet that enforces a restriction
    on the expression [varExpr] inside a complex type's [Validate]. *)
Definition generateRestrictionChecks (varExpr base subjectName : string)
           (r : Restriction) : M string :=
  let isString := String.eqb base "string" in
  let isNumeric := isNumericGoType base in
  when (isString && negb (String.eqb (PatternStr r) ""))
       (modifyGen (setImportRegexp true)) ;;
  mret
    ((if isString then
        lengthChecks varExpr subjectName r
        +:+ (if negb (String.eqb (PatternStr r) "") then
               TAB +:+ "if ok := regexp.MustCompile("
               +:+ Quote (PatternStr r) +:+ ").MatchString(string("
               +:+ varExpr +:+ ")); !ok { return fmt.Errorf(" +:+ DQ
               +:+ subjectName +:+ " does not match pattern: %q" +:+ DQ
               +:+ ", " +:+ Quote (PatternStr r) +:+ ") }" +:+ NL
             else "")
        +:+ (if (0 <? length (Enum r))%nat
             then enumCheck varExpr subjectName r else "")
      else "")
     +:+ (if isNumeric then
            if HasMin r || HasMax r then
              TAB +:+ "vv := float64(" +:+ varExpr +:+ ")" +:+ NL
              +:+ boundChecks subjectName r
            else ""
          else "")).

(** *** Named types on demand *)

(** [ensureNamedType]: emits the declaration (and the validator) of the
    named simple type a field refers to, once; when the type is not in
    [ProtoTree], the two known output files get a placeholder alias. *)
Definition ensureNamedType (xsdOrGoName : string) : M unit :=
  let name := trimNSPrefix xsdOrGoName in
  if String.eqb name "" then mret tt
  else
    let '(bt, ok) := getBuildInTypeByLang name "Go" in
    if ok && negb (String.eqb bt "") then mret tt
    else
      g ← getGen;
      let st := findSimpleType g name in
      let st := match st with
                | None => findSimpleTypeByGoName g name
                | Some _ => st
                end in
      let st :=
        match st with
        | None =>
            if (0 <? String.length name)%nat then
              let lower :=
                strings.ToLower1 (String.substring 0 1 name)
                +:+ String.substring 1 (String.length name - 1) name in
              findSimpleType g lower
            else None
        | Some _ => st
        end in
      match st with
      | None =>
          if strings.Contains (File g) "commonTypes.go" then
            let key := name in
            if bool_decide (is_Some (StructAST g !! key)) then mret tt
            else
              let base := getBasefromSimpleType name (ProtoTree g) in
              let base :=
                if String.eqb base name || String.eqb base "" then
                  let '(bt, ok) := getBuildInTypeByLang name "Go" in
                  if ok && negb (String.eqb bt "") then bt else "string"
                else base in
              let declType := genGoFieldType base in
              let declType :=
                if strings.HasPrefix declType "*"
                then strings.TrimPrefix declType "*" else declType in
              let content := " " +:+ declType +:+ NL in
              putStructAST key content ;;
              fieldName ← genGoFieldName name true;
              appendField (typeDecl fieldName "" content)
          else if strings.Contains (File g) "trainOperation.go" then
            goName ← genGoFieldName name false;
            if String.eqb goName "TSendingType"
               || String.eqb goName "TSendingTypeSpecial" then
              let key := goName in
              if bool_decide (is_Some (StructAST g !! key)) then mret tt
              else
                let content := " int" +:+ NL in
                putStructAST key content ;;
                appendField (typeDecl key "" content)
            else mret tt
          else mret tt
      | Some st =>
          let key := SimpleType.Name st in
          if bool_decide (is_Some (StructAST g !! key)) then mret tt
          else
            let base :=
              getBasefromSimpleType (trimNSPrefix (SimpleType.Base st))
                                    (ProtoTree g) in
            let content := " " +:+ genGoFieldType base +:+ NL in
            putStructAST key content ;;
            fieldName ← genGoFieldName (SimpleType.Name st) true;
            appendField (typeDecl fieldName (SimpleType.Doc st) content) ;;
            generateSimpleTypeValidator fieldName base
                                        (Some (SimpleType.Restriction st))
      end.

(** *** Validators of complex types *)

(** The checks [generateComplexTypeValidator] writes for one attribute. *)
Definition attributeChecks (a : Attribute.t) : M string :=
  let r := Attribute.Restriction a in
  if negb (hasRestrictions r) then mret ""
  else
    fieldName ← genGoFieldName (Attribute.Name a) false;
    let fieldName := fieldName +:+ "Attr" in
    g ← getGen;
    let base :=
      getBasefromSimpleType (trimNSPrefix (Attribute.Type_ a))
                            (ProtoTree g) in
    if Attribute.Optional a then
      checks ← generateRestrictionChecks ("*m." +:+ fieldName) base
                                         fieldName r;
      mret (TAB +:+ "if m." +:+ fieldName +:+ " != nil {" +:+ NL
            +:+ checks +:+ TAB +:+ "}" +:+ NL)
    else
      generateRestrictionChecks ("m." +:+ fieldName) base fieldName r.

(** The checks [generateComplexTypeValidator] writes for one element. *)
Definition elementChecks (e : Element.t) : M string :=
  let r := Element.Restriction e in
  if negb (hasRestrictions r) then mret ""
  else
    fieldName ← genGoFieldName (Element.Name e) false;
    g ← getGen;
    let base :=
      getBasefromSimpleType (trimNSPrefix (Element.Type_ e))
                            (ProtoTree g) in
    if Element.Plural e then
      checks ← generateRestrictionChecks "it" base fieldName r;
      mret (TAB +:+ "for _, it := range m." +:+ fieldName +:+ " {" +:+ NL
            +:+ checks +:+ TAB +:+ "}" +:+ NL)
    else if Element.Optional e then
      checks ← generateRestrictionChecks ("*m." +:+ fieldName) base
                                         fieldName r;
      mret (TAB +:+ "if m." +:+ fieldName +:+ " != nil {" +:+ NL
            +:+ checks +:+ TAB +:+ "}" +:+ NL)
    else
      generateRestrictionChecks ("m." +:+ fieldName) base fieldName r.

(** The scan at the head of [generateComplexTypeValidator]: whether any
    attribute or element carries an inline restriction with a rule. *)
Definition anyInlineRestriction (v : ComplexType.t) : bool :=
  existsb (fun a => hasRestrictions (Attribute.Restriction a))
          (ComplexType.Attributes v)
  || existsb (fun e => hasRestrictions (Element.Restriction e))
             (ComplexType.Elements v).

(** [generateComplexTypeValidator]: emits a [Validate] method for a
    complex type that has inline restrictions on its attributes or
    elements. *)
Definition generateComplexTypeValidator (typeName : string)
           (v : ComplexType.t) : M unit :=
  if negb (anyInlineRestriction v) then mret tt
  else
    modifyGen (setImportFmt true) ;;
    let b := NL +:+ "func (m *" +:+ typeName +:+ ") Validate() error {"
             +:+ NL +:+ TAB +:+ "if m == nil { return nil }" +:+ NL in
    attrs ← forEachAcc (ComplexType.Attributes v) attributeChecks;
    elems ← forEachAcc (ComplexType.Elements v) elementChecks;
    let b := b +:+ attrs +:+ elems +:+ TAB +:+ "return nil" +:+ NL +:+ "}" in
    appendField (b +:+ NL).

(** *** Declarations *)

(** The [XMLName] line of a struct whose Go name differs from the XSD
    name. *)
Definition xmlNameLine (name : string) : string :=
  TAB +:+ "XMLName" +:+ TAB +:+ "xml.Name" +:+ TAB +:+ "`xml:" +:+ DQ
  +:+ name +:+ DQ +:+ "`" +:+ NL.

(** The opening of a struct declaration: the unique Go name and the
    first lines of [content]. *)
Definition structHead (name : string) : M (string * string) :=
  let content := " struct {" +:+ NL in
  fieldName ← genGoFieldName name true;
  if negb (String.eqb fieldName name) then
    modifyGen (setImportEncodingXML true) ;;
    mret (fieldName, content +:+ xmlNameLine name)
  else mret (fieldName, content).

(** [GoSimpleType]: the code of a simple type. *)
Definition GoSimpleType (v : SimpleType.t) : M unit :=
  let name := SimpleType.Name v in
  g ← getGen;
  let declared := bool_decide (is_Some (StructAST g !! name)) in
  if SimpleType.List v && negb declared then
    let fieldType :=
      genGoFieldType
        (getBasefromSimpleType (trimNSPrefix (SimpleType.Base v))
                               (ProtoTree g)) in
    when (String.eqb fieldType "time.Time") (modifyGen (setImportTime true)) ;;
    let content := " []" +:+ genGoFieldType fieldType +:+ NL in
    putStructAST name content ;;
    fieldName ← genGoFieldName name true;
    appendField (typeDecl fieldName (SimpleType.Doc v) content)
  else if SimpleType.Union v
          && bool_decide (size (SimpleType.MemberTypes v) ≠ 0%nat) then
    if negb declared then
      '(fieldName, content) ← structHead name;
      members ←
        forEachAcc (toSortedPairs (SimpleType.MemberTypes v))
          (fun member =>
             let memberName := member.1 in
             let memberType := member.2 in
             ensureNamedType memberName ;;
             g' ← getGen;
             let memberType :=
               if String.eqb memberType ""
               then getBasefromSimpleType memberName (ProtoTree g')
               else memberType in
             fn ← genGoFieldName memberName false;
             mret (TAB +:+ fn +:+ TAB +:+ genGoFieldType memberType
                   +:+ NL));
      let content := content +:+ members +:+ "}" +:+ NL in
      putStructAST name content ;;
      appendField (typeDecl fieldName (SimpleType.Doc v) content)
    else mret tt
  else if negb declared then
    let base :=
      getBasefromSimpleType (trimNSPrefix (SimpleType.Base v))
                            (ProtoTree g) in
    let content := " " +:+ genGoFieldType base +:+ NL in
    putStructAST name content ;;
    fieldName ← genGoFieldName name true;
    appendField (typeDecl fieldName (SimpleType.Doc v) content) ;;
    generateSimpleTypeValidator fieldName base
                                (Some (SimpleType.Restriction v))
  else mret tt.

(** The choice of the Go type of a field, and of the base its rules are
    checked against: the named simple type [TypeRef] refers to when
    [ProtoTree] has it (its Go name is [genGoFieldName(st.Name, false)]),
    else the resolved type. *)
Definition fieldTypeOf (g : CodeGenerator) (typeRef type_ : string)
  : string * string :=
  match findSimpleType g (trimNSPrefix typeRef) with
  | Some st =>
      (getBasefromSimpleType (trimNSPrefix (SimpleType.Base st))
                             (ProtoTree g),
       upperWords (SimpleType.Name st))
  | None =>
      let resolved := TrimSpace type_ in
      let resolved :=
        if String.eqb resolved "" && negb (String.eqb typeRef "") then
          let '(bt, ok) :=
            getBuildInTypeByLang (trimNSPrefix typeRef) "Go" in
          if ok && negb (String.eqb bt "") then bt
          else getBasefromSimpleType (trimNSPrefix typeRef) (ProtoTree g)
        else resolved in
      let resolved :=
        if String.eqb resolved ""
        then getBasefromSimpleType (trimNSPrefix type_) (ProtoTree g)
        else resolved in
      (resolved, genGoFieldType resolved)
  end.

(** The restriction applied to a field, with the base that goes with it:
    the inline one when it has a rule, else that of the simple type
    named by [TypeRef], else that of the simple type named by [Type]. *)
Definition fieldRestriction (g : CodeGenerator) (inline : Restriction)
           (typeRef type_ base : string) : Restriction * string :=
  let r := inline in
  if negb (hasRestrictions r) then
    match findSimpleType g (trimNSPrefix typeRef) with
    | Some st =>
        (SimpleType.Restriction st,
         getBasefromSimpleType (trimNSPrefix (SimpleType.Base st))
                               (ProtoTree g))
    | None =>
        match findSimpleType g (trimNSPrefix type_) with
        | Some st2 =>
            (SimpleType.Restriction st2,
             getBasefromSimpleType (trimNSPrefix (SimpleType.Base st2))
                                   (ProtoTree g))
        | None => (r, base)
        end
    end
  else (r, base).

(** The struct tag of a field: the [xml] key, then the [validate] key
    when there is a rule. *)
Definition fieldTag (xmlPart vtag : string) : string :=
  let tag := "xml:" +:+ DQ +:+ xmlPart +:+ DQ in
  if negb (String.eqb vtag "")
  then tag +:+ " validate:" +:+ DQ +:+ vtag +:+ DQ
  else tag.

(** The type of an attribute field: an optional attribute is a pointer,
    unless its type already is one. *)
Definition attributeFieldType (a : Attribute.t) (fieldType : string)
  : string * string :=
  if Attribute.Optional a then
    if negb (strings.HasPrefix fieldType "*") then ("*" +:+ fieldType, "")
    else (fieldType, ",omitempty")
  else (fieldType, "").

(** The type of an element field: a plural element is a slice, an
    optional one that is not plural is a pointer unless its type already
    is one. *)
Definition elementFieldType (e : Element.t) (fieldType : string)
  : string * string :=
  let fieldType := if Element.Plural e then "[]" +:+ fieldType
                   else fieldType in
  if Element.Optional e then
    (if negb (Element.Plural e) && negb (strings.HasPrefix fieldType "*")
     then "*" +:+ fieldType else fieldType,
     ",omitempty")
  else (fieldType, "").

(** The body of the loop of [GoComplexType] over [v.Attributes]. *)
Definition attributeField (attribute : Attribute.t) : M string :=
  ensureNamedType (Attribute.TypeRef attribute) ;;
  ensureNamedType (Attribute.Type_ attribute) ;;
  g ← getGen;
  let '(base, fieldType) :=
    fieldTypeOf g (Attribute.TypeRef attribute)
                (Attribute.Type_ attribute) in
  let '(fieldType, optional) := attributeFieldType attribute fieldType in
  when (String.eqb fieldType "time.Time") (modifyGen (setImportTime true)) ;;
  let '(r, base) :=
    fieldRestriction g (Attribute.Restriction attribute)
      (Attribute.TypeRef attribute) (Attribute.Type_ attribute) base in
  let vtag := buildValidateTag base (Some r) (Attribute.Optional attribute)
                               false in
  let tag := fieldTag (Attribute.Name attribute +:+ ",attr" +:+ optional)
                      vtag in
  fn ← genGoFieldName (Attribute.Name attribute) false;
  mret (TAB +:+ fn +:+ "Attr" +:+ TAB +:+ fieldType +:+ TAB +:+ "`" +:+ tag
        +:+ "`" +:+ NL).

(** The body of the loop of [GoComplexType] over [v.Elements]. *)
Definition elementField (element : Element.t) : M string :=
  ensureNamedType (Element.TypeRef element) ;;
  g ← getGen;
  let '(base, fieldType) :=
    fieldTypeOf g (Element.TypeRef element) (Element.Type_ element) in
  let '(fieldType, optional) := elementFieldType element fieldType in
  when (String.eqb fieldType "time.Time") (modifyGen (setImportTime true)) ;;
  let '(r, base) :=
    fieldRestriction g (Element.Restriction element)
      (Element.TypeRef element) (Element.Type_ element) base in
  let vtag := buildValidateTag base (Some r) (Element.Optional element)
                               (Element.Plural element) in
  let tag := fieldTag (Element.Name element +:+ optional) vtag in
  fn ← genGoFieldName (Element.Name element) false;
  mret (TAB +:+ fn +:+ TAB +:+ fieldType +:+ TAB +:+ "`" +:+ tag +:+ "`"
        +:+ NL).

(** [GoComplexType]: the code of a complex type. *)
Definition GoComplexType (v : ComplexType.t) : M unit :=
  g ← getGen;
  if bool_decide (is_Some (StructAST g !! ComplexType.Name v)) then mret tt
  else
    '(fieldName, content) ← structHead (ComplexType.Name v);
    attrGroups ←
      forEachAcc (ComplexType.AttributeGroup v)
        (fun attrGroup =>
           let fieldType :=
             getBasefromSimpleType
               (trimNSPrefix (AttributeGroup.Ref attrGroup))
               (ProtoTree g) in
           when (String.eqb fieldType "time.Time")
                (modifyGen (setImportTime true)) ;;
           fn ← genGoFieldName (AttributeGroup.Name attrGroup) false;
           mret (TAB +:+ fn +:+ TAB +:+ genGoFieldType fieldType +:+ NL));
    attrs ← forEachAcc (ComplexType.Attributes v) attributeField;
    groups ←
      forEachAcc (ComplexType.Groups v)
        (fun group =>
           ensureNamedType (Group.Ref group) ;;
           let fieldType :=
             genGoFieldType
               (getBasefromSimpleType (trimNSPrefix (Group.Ref group))
                                      (ProtoTree g)) in
           let fieldType := if Group.Plural group then "[]" +:+ fieldType
                            else fieldType in
           fn ← genGoFieldName (Group.Name group) false;
           mret (TAB +:+ fn +:+ TAB +:+ fieldType +:+ NL));
    elems ← forEachAcc (ComplexType.Elements v) elementField;
    base ←
      (if (0 <? String.length (ComplexType.Base v))%nat then
         if isGoBuiltInType (ComplexType.Base v) then
           mret (TAB +:+ "Value" +:+ TAB
                 +:+ genGoFieldType (ComplexType.Base v) +:+ TAB
                 +:+ "`xml:" +:+ DQ +:+ ",chardata" +:+ DQ +:+ "`" +:+ NL)
         else
           ensureNamedType (ComplexType.Base v) ;;
           mret (TAB +:+ genGoFieldType (ComplexType.Base v) +:+ NL)
       else mret "");
    let content := content +:+ attrGroups +:+ attrs +:+ groups +:+ elems
                   +:+ base +:+ "}" +:+ NL in
    putStructAST (ComplexType.Name v) content ;;
    appendField (typeDecl fieldName (ComplexType.Doc v) content) ;;
    generateComplexTypeValidator fieldName v.

(** [GoGroup]: the code of a group. *)
Definition GoGroup (v : Group.t) : M unit :=
  g ← getGen;
  if bool_decide (is_Some (StructAST g !! Group.Name v)) then mret tt
  else
    '(fieldName, content) ← structHead (Group.Name v);
    elems ←
      forEachAcc (Group.Elements v)
        (fun element =>
           ensureNamedType (Element.TypeRef element) ;;
           ensureNamedType (Element.Type_ element) ;;
           let plural := if Element.Plural element then "[]" else "" in
           fn ← genGoFieldName (Element.Name element) false;
           mret (TAB +:+ fn +:+ TAB +:+ plural
                 +:+ genGoFieldType
                       (getBasefromSimpleType
                          (trimNSPrefix (Element.Type_ element))
                          (ProtoTree g))
                 +:+ NL));
    groups ←
      forEachAcc (Group.Groups v)
        (fun group =>
           let plural := if Group.Plural group then "[]" else "" in
           fn ← genGoFieldName (Group.Name group) false;
           mret (TAB +:+ fn +:+ TAB +:+ plural
                 +:+ genGoFieldType
                       (getBasefromSimpleType
                          (trimNSPrefix (Group.Ref group)) (ProtoTree g))
                 +:+ NL));
    let content := content +:+ elems +:+ groups +:+ "}" +:+ NL in
    putStructAST (Group.Name v) content ;;
    appendField (typeDecl fieldName (Group.Doc v) content).

(** [GoAttributeGroup]: the code of an attribute group. *)
Definition GoAttributeGroup (v : AttributeGroup.t) : M unit :=
  g ← getGen;
  if bool_decide (is_Some (StructAST g !! AttributeGroup.Name v))
  then mret tt
  else
    '(fieldName, content) ← structHead (AttributeGroup.Name v);
    attrs ←
      forEachAcc (AttributeGroup.Attributes v)
        (fun attribute =>
           ensureNamedType (Attribute.TypeRef attribute) ;;
           ensureNamedType (Attribute.Type_ attribute) ;;
           let base :=
             getBasefromSimpleType
               (trimNSPrefix (Attribute.Type_ attribute)) (ProtoTree g) in
           let optional :=
             if Attribute.Optional attribute then ",omitempty" else "" in
           let '(r, base) :=
             fieldRestriction g (Attribute.Restriction attribute)
               (Attribute.TypeRef attribute) (Attribute.Type_ attribute)
               base in
           let vtag :=
             buildValidateTag base (Some r) (Attribute.Optional attribute)
                              false in
           let tag :=
             fieldTag (Attribute.Name attribute +:+ ",attr" +:+ optional)
                      vtag in
           fn ← genGoFieldName (Attribute.Name attribute) false;
           mret (TAB +:+ fn +:+ "Attr" +:+ TAB +:+ genGoFieldType base
                 +:+ TAB +:+ "`" +:+ tag +:+ "`" +:+ NL));
    let content := content +:+ attrs +:+ "}" +:+ NL in
    putStructAST (AttributeGroup.Name v) content ;;
    appendField (typeDecl fieldName (AttributeGroup.Doc v) content).

(** [GoElement]: the code of a top-level element. *)
Definition GoElement (v : Element.t) : M unit :=
  g ← getGen;
  if bool_decide (is_Some (StructAST g !! Element.Name v)) then mret tt
  else
    let plural := if Element.Plural v then "[]" else "" in
    let content :=
      TAB +:+ plural
      +:+ genGoFieldType
            (getBasefromSimpleType (trimNSPrefix (Element.Type_ v))
                                   (ProtoTree g))
      +:+ NL in
    putStructAST (Element.Name v) content ;;
    fieldName ← genGoFieldName (Element.Name v) false;
    appendField (typeDecl fieldName (Element.Doc v) content).

(** [GoAttribute]: the code of a top-level attribute. *)
Definition GoAttribute (v : Attribute.t) : M unit :=
  g ← getGen;
  if bool_decide (is_Some (StructAST g !! Attribute.Name v)) then mret tt
  else
    let plural := if Attribute.Plural v then "[]" else "" in
    let content :=
      TAB +:+ plural
      +:+ genGoFieldType
            (getBasefromSimpleType (trimNSPrefix (Attribute.Type_ v))
                                   (ProtoTree g))
      +:+ NL in
    putStructAST (Attribute.Name v) content ;;
    fieldName ← genGoFieldName (Attribute.Name v) true;
    appendField (typeDecl fieldName (Attribute.Doc v) content).

(** *** The safety net *)

(** [sep] of [ensureReferencedTypesDeclared]: every byte that is not a
    letter, a digit or an underscore separates tokens. *)
Definition sep (r : ascii) : bool :=
  let n := nat_of_ascii r in
  negb (Ascii.eqb r "_"
        || ((48 <=? n) && (n <=? 57))%nat
        || ((65 <=? n) && (n <=? 90))%nat
        || ((97 <=? n) && (n <=? 122))%nat).

(** The test on a token: at least two bytes, a [T], then an upper-case
    letter. *)
Definition isCandidate (tok : string) : bool :=
  match tok with
  | String c0 (String c1 _) =>
      Ascii.eqb c0 "T"
      && ((65 <=? nat_of_ascii c1) && (nat_of_ascii c1 <=? 90))%nat
  | _ => false
  end.

(** The key set of the map [candidates]. *)
Definition candidates (field : string) : gset string :=
  list_to_set (filter (fun tok => isCandidate tok = true)
                      (strings.FieldsFunc field sep)).

(** The key set of the map [declared]: the XSD names in [StructAST] and
    their Go names. *)
Definition declaredNames (ast : gmap string string) : gset string :=
  dom ast ∪ set_map upperWords (dom ast).

(** The body of the loop over [candidates]. *)
Definition declareCandidate (declared : gset string) (name : string)
  : M unit :=
  if bool_decide (name ∈ declared)
     || bool_decide
          (strings.ToLower1 (String.substring 0 1 name)
           +:+ String.substring 1 (String.length name - 1) name
           ∈ declared)
  then mret tt
  else if isGoBuiltInType name then mret tt
  else
    let content := " string" +:+ NL in
    putStructAST name content ;;
    fieldName ← genGoFieldName name true;
    appendField (typeDecl fieldName "" content).

(** [ensureReferencedTypesDeclared]: declares as [string] every
    identifier of the emitted text that looks like a type name and is
    not declared in this file.  Go leaves the order in which [range]
    visits the keys of a map unspecified; [order] is the order in which
    this run visits the keys of [candidates]. *)
Definition ensureReferencedTypesDeclared
           (order : gset string -> list string) : M unit :=
  g ← getGen;
  let declared := declaredNames (StructAST g) in
  forEach (order (candidates (Field g))) (declareCandidate declared).

(** An order of visit that [range] can produce: each key once. *)
Definition rangeOrder (order : gset string -> list string) : Prop :=
  forall s : gset string, order s ≡ₚ elements s.

(** *** The entry point *)

(** [FileWithExtension]. *)
Definition FileWithExtension (g : CodeGenerator) (extension : string)
  : string :=
  let extension := if negb (strings.HasPrefix extension ".")
                   then "." +:+ extension else extension in
  if strings.HasSuffix (File g) extension then File g
  else File g +:+ extension.

(** The call [callFuncByName(gen, "Go" + kind, ele)] of the second
    pass: the emitter named after the dynamic type of the entry. *)
Definition emitEntry (ele : ProtoEntry) : M unit :=
  match ele with
  | PNil => mret tt
  | PSimpleType v => GoSimpleType v
  | PComplexType v => GoComplexType v
  | PGroup v => GoGroup v
  | PAttributeGroup v => GoAttributeGroup v
  | PElement v => GoElement v
  | PAttribute v => GoAttribute v
  end.

(** The import block and the package name of the emitted file. *)
Definition importBlock (g : CodeGenerator) : string :=
  let packages :=
    (if ImportTime g then TAB +:+ DQ +:+ "time" +:+ DQ +:+ NL else "")
    +:+ (if ImportEncodingXML g
         then TAB +:+ DQ +:+ "encoding/xml" +:+ DQ +:+ NL else "")
    +:+ (if ImportFmt g then TAB +:+ DQ +:+ "fmt" +:+ DQ +:+ NL else "")
    +:+ (if ImportRegexp g then TAB +:+ DQ +:+ "regexp" +:+ DQ +:+ NL
         else "") in
  if negb (String.eqb packages "")
  then "import (" +:+ NL +:+ packages +:+ ")" else "".

Definition packageNameOf (g : CodeGenerator) : string :=
  if String.eqb (Package g) "" then "schema" else Package g.

(** What a run leaves behind: the file it created, with the bytes
    written to it, and the error it returns. *)
Record Outcome := mkOutcome {
  outFile : option (string * string);
  outErr : option error
}.

(** The four passes of [GenGo] over [ProtoTree], up to [os.Create]. *)
Definition emitAll (order : gset string -> list string) : M unit :=
  (fun w => (tt, mkWorld (gen w) ∅)) ;;
  g ← getGen;
  forEach (ProtoTree g)
    (fun ele => match ele with
                | PSimpleType st =>
                    when (negb (String.eqb (SimpleType.Name st) ""))
                         (GoSimpleType st)
                | _ => mret tt
                end) ;;
  forEach (ProtoTree g) emitEntry ;;
  forEach (ProtoTree g)
    (fun ele => match ele with
                | PSimpleType st =>
                    if negb (String.eqb (SimpleType.Name st) "") then
                      g' ← getGen;
                      when (negb (bool_decide
                                    (is_Some (StructAST g'
                                              !! SimpleType.Name st))))
                           (GoSimpleType st)
                    else mret tt
                | _ => mret tt
                end) ;;
  when (strings.Contains (File g) "commonTypes.go")
       (ensureReferencedTypesDeclared order).

(** [GenGo]: generates the Go source of the schema.  [create] is the
    result of [os.Create] on the output path ([None]: the file is
    created), [order] the order in which maps are ranged over. *)
Definition GenGo (create : string -> option error)
           (order : gset string -> list string) : M Outcome :=
  emitAll order ;;
  g ← getGen;
  match create (FileWithExtension g ".go") with
  | Some err => mret (mkOutcome None (Some err))
  | None =>
      let path := FileWithExtension g ".go" in
      let importPackage := importBlock g in
      let packageName := packageNameOf g in
      match formatSource (copyright +:+ NL +:+ NL +:+ "package "
                          +:+ packageName +:+ NL +:+ importPackage
                          +:+ Field g) with
      | inr err =>
          mret (mkOutcome
                  (Some (path, "package " +:+ packageName +:+ NL
                               +:+ importPackage +:+ Field g))
                  (Some err))
      | inl source => mret (mkOutcome (Some (path, source)) None)
      end
  end.

End Emitter.

(** ** The parser: facet and structural handlers ([xml*.go]) *)

(** [encoding/xml]: names, attributes and element events. *)
Module xml.
Record Name := mkName { Space : string; Local : string }.
Record Attr := mkAttr { AttrName : Name; Value : string }.
Record StartElement := mkStart { StartName : Name; Attr_ : list Attr }.
Record EndElement := mkEnd { EndName : Name }.
End xml.

(** [Options]: the state of a parse.  Each stack is a list with its top
    first; an entry of a stack is a pointer in the source, and the only
    holder of that pointer is the stack, so that a write through [Peek()]
    replaces the head. *)
Module Options.
Record t := mk {
  Lang : string;
  InElement : string;
  CurrentEle : string;
  InUnion : bool;
  SimpleType : list SimpleType.t;
  ComplexType : list ComplexType.t;
  Element : list Element.t;
  Attribute : list Attribute.t;
  ProtoTree : list ProtoEntry
}.
Definition setCurrentEle (c : string) (o : t) : t :=
  mk (Lang o) (InElement o) c (InUnion o) (SimpleType o) (ComplexType o)
     (Element o) (Attribute o) (ProtoTree o).
Definition setSimpleType (s : list SimpleType.t) (o : t) : t :=
  mk (Lang o) (InElement o) (CurrentEle o) (InUnion o) s (ComplexType o)
     (Element o) (Attribute o) (ProtoTree o).
Definition setComplexType (s : list ComplexType.t) (o : t) : t :=
  mk (Lang o) (InElement o) (CurrentEle o) (InUnion o) (SimpleType o) s
     (Element o) (Attribute o) (ProtoTree o).
Definition setElement (s : list Element.t) (o : t) : t :=
  mk (Lang o) (InElement o) (CurrentEle o) (InUnion o) (SimpleType o)
     (ComplexType o) s (Attribute o) (ProtoTree o).
Definition setAttribute (s : list Attribute.t) (o : t) : t :=
  mk (Lang o) (InElement o) (CurrentEle o) (InUnion o) (SimpleType o)
     (ComplexType o) (Element o) s (ProtoTree o).
Definition setProtoTree (p : list ProtoEntry) (o : t) : t :=
  mk (Lang o) (InElement o) (CurrentEle o) (InUnion o) (SimpleType o)
     (ComplexType o) (Element o) (Attribute o) p.
End Options.

(** The type resolver of the parser ([parser.go]), whose definition is not
    among the sources embedded here: the resolved name and the error.  It
    reads the state and leaves it as it is. *)
Class ParserLib := {
  GetValueType : Options.t -> string -> list ProtoEntry
                 -> string * option error
}.

(** A write through the pointer [opt.SimpleType.Peek()] asserted to be a
    simple type: nothing happens when the stack is empty ([Peek] is
    [nil]). *)
Definition onTopSimpleType (f : SimpleType.t -> SimpleType.t)
           (opt : Options.t) : Options.t :=
  match Options.SimpleType opt with
  | [] => opt
  | st :: rest => Options.setSimpleType (f st :: rest) opt
  end.

(** A write through [opt.Attribute.Peek()]. *)
Definition onTopAttribute (f : Attribute.t -> Attribute.t)
           (opt : Options.t) : Options.t :=
  match Options.Attribute opt with
  | [] => opt
  | a :: rest => Options.setAttribute (f a :: rest) opt
  end.

(** A write through [opt.Element.Peek()]. *)
Definition onTopElement (f : Element.t -> Element.t)
           (opt : Options.t) : Options.t :=
  match Options.Element opt with
  | [] => opt
  | e :: rest => Options.setElement (f e :: rest) opt
  end.

(** [Elements[len(Elements)-1] = e]. *)
Definition setLast {A : Type} (x : A) (l : list A) : list A :=
  <[(length l - 1)%nat := x]> l.

Definition updRestriction (f : Restriction -> Restriction)
           (st : SimpleType.t) : SimpleType.t :=
  SimpleType.setRestriction (f (SimpleType.Restriction st)) st.

Definition setMin (v : float64) (r : Restriction) : Restriction :=
  mkRestriction (Enum r) (PatternStr r) (Length r) (MinLength r)
    (MaxLength r) (HasLength r) (HasMinLength r) (HasMaxLength r)
    v (Max r) true (HasMax r) false (MaxExclusive r).

Definition setMax (v : float64) (r : Restriction) : Restriction :=
  mkRestriction (Enum r) (PatternStr r) (Length r) (MinLength r)
    (MaxLength r) (HasLength r) (HasMinLength r) (HasMaxLength r)
    (Min r) v (HasMin r) true (MinExclusive r) false.

Definition setMinLength (v : Z) (r : Restriction) : Restriction :=
  mkRestriction (Enum r) (PatternStr r) (Length r) v
    (MaxLength r) (HasLength r) true (HasMaxLength r)
    (Min r) (Max r) (HasMin r) (HasMax r) (MinExclusive r) (MaxExclusive r).

Definition setMaxLength (v : Z) (r : Restriction) : Restriction :=
  mkRestriction (Enum r) (PatternStr r) (Length r) (MinLength r)
    v (HasLength r) (HasMinLength r) true
    (Min r) (Max r) (HasMin r) (HasMax r) (MinExclusive r) (MaxExclusive r).

Definition setPatternStr (p : string) (r : Restriction) : Restriction :=
  mkRestriction (Enum r) p (Length r) (MinLength r)
    (MaxLength r) (HasLength r) (HasMinLength r) (HasMaxLength r)
    (Min r) (Max r) (HasMin r) (HasMax r) (MinExclusive r) (MaxExclusive r).

Section Parser.
Context `{GoLib} `{ParserLib}.

(** The loop [for _, attr := range ele.Attr] of a facet handler: [step]
    is what the handler does with the value of an attribute whose local
    name is [value]. *)
Definition onValueAttrs (step : string -> Options.t -> Options.t)
           (ele : xml.StartElement) (opt : Options.t) : Options.t :=
  foldl (fun o attr =>
           if String.eqb (xml.Local (xml.AttrName attr)) "value"
           then step (xml.Value attr) o else o)
        opt (xml.Attr_ ele).

(** [OnMinInclusive]. *)
Definition OnMinInclusive (ele : xml.StartElement)
           (protoTree : list ProtoEntry) (opt : Options.t)
  : Options.t * option error :=
  (onValueAttrs
     (fun value o =>
        match ParseFloat value with
        | Some v => onTopSimpleType (updRestriction (setMin v)) o
        | None => o
        end) ele opt,
   None).

(** [OnMaxInclusive]. *)
Definition OnMaxInclusive (ele : xml.StartElement)
           (protoTree : list ProtoEntry) (opt : Options.t)
  : Options.t * option error :=
  (onValueAttrs
     (fun value o =>
        match ParseFloat value with
        | Some v => onTopSimpleType (updRestriction (setMax v)) o
        | None => o
        end) ele opt,
   None).

(** [OnMinLength]. *)
Definition OnMinLength (ele : xml.StartElement)
           (protoTree : list ProtoEntry) (opt : Options.t)
  : Options.t * option error :=
  (onValueAttrs
     (fun value o =>
        match Atoi value with
        | Some v => onTopSimpleType (updRestriction (setMinLength v)) o
        | None => o
        end) ele opt,
   None).

(** [OnMaxLength]. *)
Definition OnMaxLength (ele : xml.StartElement)
           (protoTree : list ProtoEntry) (opt : Options.t)
  : Options.t * option error :=
  (onValueAttrs
     (fun value o =>
        match Atoi value with
        | Some v => onTopSimpleType (updRestriction (setMaxLength v)) o
        | None => o
        end) ele opt,
   None).

(** [OnPattern]. *)
Definition OnPattern (ele : xml.StartElement)
           (protoTree : list ProtoEntry) (opt : Options.t)
  : Options.t * option error :=
  (onValueAttrs
     (fun value o => onTopSimpleType (updRestriction (setPatternStr value)) o)
     ele opt,
   None).

(** [OnSimpleType]: starts a simple type scope. *)
Definition OnSimpleType (ele : xml.StartElement)
           (protoTree : list ProtoEntry) (opt : Options.t)
  : Options.t * option error :=
  let opt := Options.setSimpleType
               (SimpleType.zero :: Options.SimpleType opt) opt in
  (foldl (fun o attr =>
            if String.eqb (xml.Local (xml.AttrName attr)) "name" then
              let o := Options.setCurrentEle (Options.InElement o) o in
              onTopSimpleType (SimpleType.setName (xml.Value attr)) o
            else o)
         opt (xml.Attr_ ele),
   None).

(** [EndSimpleType]: an anonymous simple type met inside an attribute
    or an element gives its base to it; any other one is persisted in
    [ProtoTree], unless a union is being read. *)
Definition EndSimpleType (ele : xml.EndElement)
           (protoTree : list ProtoEntry) (opt : Options.t)
  : Options.t * option error :=
  match Options.SimpleType opt with
  | [] => (opt, None)
  | st :: rest =>
      if (0 <? length (Options.Attribute opt))%nat
         && String.eqb (SimpleType.Name st) "" then
        (Options.setSimpleType rest
           (onTopAttribute (Attribute.setType (SimpleType.Base st)) opt),
         None)
      else if (0 <? length (Options.Element opt))%nat
              && String.eqb (SimpleType.Name st) "" then
        (Options.setSimpleType rest
           (onTopElement (Element.setType (SimpleType.Base st)) opt),
         None)
      else if negb (Options.InUnion opt) then
        (Options.setCurrentEle ""
           (Options.setProtoTree
              (Options.ProtoTree opt ++ [PSimpleType st])
              (Options.setSimpleType rest opt)),
         None)
      else (opt, None)
  end.

(** [OnRestriction]: records the resolved base on the open simple
    type. *)
Definition OnRestriction (ele : xml.StartElement)
           (protoTree : list ProtoEntry) (opt : Options.t)
  : Options.t * option error :=
  let fix go (attrs : list xml.Attr) (opt : Options.t)
    : Options.t * option error :=
    match attrs with
    | [] => (opt, None)
    | attr :: rest =>
        if String.eqb (xml.Local (xml.AttrName attr)) "base" then
          let '(valueType, err) :=
            GetValueType opt (xml.Value attr) protoTree in
          match err with
          | Some e => (opt, Some e)
          | None => go rest (onTopSimpleType (SimpleType.setBase valueType)
                                             opt)
          end
        else go rest opt
    end in
  go (xml.Attr_ ele) opt.

(** [EndRestriction]: inside an attribute or an element the open simple
    type is popped, and its resolved base and its restriction go to that
    attribute or element; elsewhere it stays for [EndSimpleType]. *)
Definition EndRestriction (ele : xml.EndElement)
           (protoTree : list ProtoEntry) (opt : Options.t)
  : Options.t * option error :=
  match Options.SimpleType opt with
  | [] => (opt, None)
  | st :: rest =>
      if (0 <? length (Options.Attribute opt))%nat then
        let opt := Options.setSimpleType rest opt in
        let '(ty, err) :=
          GetValueType opt (SimpleType.Base st) (Options.ProtoTree opt) in
        let opt := onTopAttribute (Attribute.setType ty) opt in
        match err with
        | Some e => (opt, Some e)
        | None =>
            (Options.setCurrentEle ""
               (onTopAttribute
                  (Attribute.setRestriction (SimpleType.Restriction st))
                  opt),
             None)
        end
      else if (0 <? length (Options.Element opt))%nat then
        let opt := Options.setSimpleType rest opt in
        let '(ty, err) :=
          GetValueType opt (SimpleType.Base st) (Options.ProtoTree opt) in
        let opt := onTopElement (Element.setType ty) opt in
        match err with
        | Some e => (opt, Some e)
        | None =>
            let opt :=
              Options.setCurrentEle ""
                (onTopElement
                   (Element.setRestriction (SimpleType.Restriction st))
                   opt) in
            match Options.ComplexType opt, Options.Element opt with
            | ct :: cts, e :: _ =>
                if (0 <? length (ComplexType.Elements ct))%nat then
                  (Options.setComplexType
                     (ComplexType.setElements
                        (setLast e (ComplexType.Elements ct)) ct :: cts)
                     opt,
                   None)
                else (opt, None)
            | _, _ => (opt, None)
            end
        end
      else (opt, None)
  end.

End Parser.

(** ** An executable environment

    The theorems below hold for every [GoLib], [XgenLib] and [ParserLib].
    The examples and the concrete runs need functions that compute: the
    ones of this module. *)

Module Env.

Definition hexDigit (n : nat) : string :=
String.substring n 1 "0123456789abcdef".

(** [%q] on one byte of an ASCII string: the quote and the backslash are
    escaped, the control characters are written as Go escapes. *)
Definition quoteByte (c : ascii) : string :=
let n := nat_of_ascii c in
if (n =? 34)%nat then "\" +:+ DQ
else if (n =? 92)%nat then "\\"
else if ((32 <=? n) && (n <=? 126))%nat then String c ""
else if (n =? 7)%nat then "\a"
else if (n =? 8)%nat then "\b"
else if (n =? 12)%nat then "\f"
else if (n =? 10)%nat then "\n"
else if (n =? 13)%nat then "\r"
else if (n =? 9)%nat then "\t"
else if (n =? 11)%nat then "\v"
else "\x" +:+ hexDigit (n / 16) +:+ hexDigit (n mod 16).

(** [strconv.Quote] on strings of ASCII bytes. *)
Definition quote (s : string) : string :=
DQ +:+ String.concat "" (map quoteByte (list_ascii_of_string s)) +:+ DQ.

Definition isSpace (c : ascii) : bool :=
let n := nat_of_ascii c in
((n =? 32) || ((9 <=? n) && (n <=? 13)))%nat.

Fixpoint trimLeft (s : string) : string :=
match s with
| String c s' => if isSpace c then trimLeft s' else s
| EmptyString => ""
end.

Definition revString (s : string) : string :=
string_of_list_ascii (rev (list_ascii_of_string s)).

(** [strings.TrimSpace] on strings of ASCII bytes. *)
Definition trimSpace (s : string) : string :=
revString (trimLeft (revString (trimLeft s))).

(** [strconv.ParseFloat] on decimal integer numerals, which it reads as the
    nearest binary64 value; every other input is taken as an error here. *)
Definition parseFloat (s : string) : option float64 :=
match Atoi s with
| Some z => Some (binary_normalize 53 1024 z 0 false)
| None => None
end.

(** [%g] on the integral values of magnitude below 10^6, which print as
    plain decimal numerals; the other values are printed as [m*2^e]. *)
Definition formatG (f : float64) : string :=
match f with
| S754_zero s => if s then "-0" else "0"
| S754_infinity s => if s then "-Inf" else "+Inf"
| S754_nan => "NaN"
| S754_finite s m e =>
    let v := Z.pos m * 2 ^ e in
    if (0 <=? e) && (v <? 1000000)
    then (if s then "-" else "") +:+ FormatD v
    else if (e <? 0) && (Z.pos m mod 2 ^ (- e) =? 0)
            && (Z.pos m / 2 ^ (- e) <? 1000000)
    then (if s then "-" else "") +:+ FormatD (Z.pos m / 2 ^ (- e))
    else (if s then "-" else "") +:+ FormatD (Z.pos m) +:+ "*2^" +:+ FormatD e
end.

(** The library with a given formatter. *)
Definition goLib (formatter : string -> string + error) : GoLib :=
{| ParseFloat := parseFloat;
   FormatG := formatG;
   Quote := quote;
   TrimSpace := trimSpace;
   formatSource := formatter |}.

(** A formatter that accepts its input and leaves it as it is. *)
Definition accept (src : string) : string + error := inl src.

(** A formatter that rejects its input. *)
Definition reject (src : string) : string + error :=
inr "source: expected declaration".

(** Modelled from the spec: [trimNSPrefix] is not among the sources; the
    type resolver "strips any namespace prefix ([ns:local] to [local])". *)
Definition trimNSPrefix (str : string) : string :=
(fix go (s : string) : string :=
   match s with
   | EmptyString => str
   | String c s' => if Ascii.eqb c ":" then s' else go s'
   end) str.

(** Modelled from the spec: the built-in type registry is not among the
    sources; it "maps XSD primitive names (per target) to native type
    names".  These are entries of the table for Go. *)
Definition getBuildInTypeByLang (value lang : string) : string * bool :=
if negb (String.eqb lang "Go") then ("", false)
else if bool_decide (value ∈ ["string"; "token"; "normalizedString"])
then ("string", true)
else if bool_decide (value ∈ ["int"; "integer"]) then ("int", true)
else if bool_decide (value ∈ ["decimal"; "double"]) then ("float64", true)
else if String.eqb value "boolean" then ("bool", true)
else ("", false).

Definition lookupSimpleType (name : string) (tree : list ProtoEntry)
  : option SimpleType.t :=
(fix go (tree : list ProtoEntry) : option SimpleType.t :=
   match tree with
   | [] => None
   | PSimpleType st :: rest =>
       if String.eqb (SimpleType.Name st) name then Some st else go rest
   | _ :: rest => go rest
   end) tree.

(** The walk shared by the two resolvers: a primitive is mapped, a name of
    a simple type of the tree is replaced by the base of that type and
    resolved in turn, any other name is left unchanged.  [fuel] bounds the
    length of an alias chain. *)
Fixpoint resolve (fuel : nat) (name : string) (tree : list ProtoEntry)
  : string :=
let local := trimNSPrefix name in
match fuel with
| O => local
| S fuel' =>
    let '(bt, ok) := getBuildInTypeByLang local "Go" in
    if ok then bt
    else match lookupSimpleType local tree with
         | Some st => resolve fuel' (SimpleType.Base st) tree
         | None => local
         end
end.

(** Modelled from the spec: [getBasefromSimpleType] is not among the
    sources; it "walks ProtoTree for a matching SimpleType and returns its
    resolved base", "the primitive base at the leaf, chasing through alias
    chains", and "if not found, returns the local name unchanged". *)
Definition getBasefromSimpleType (name : string) (tree : list ProtoEntry)
  : string :=
resolve (S (length tree)) name tree.

(** Modelled from the spec: [GetValueType] is not among the sources; it
    "strips any namespace prefix", maps an XSD primitive to the target
    primitive, "otherwise searches ProtoTree for a SimpleType with this name
    and returns its resolved base (recursively)", and an unresolved name
    "is used verbatim": it reports no error. *)
Definition GetValueType (opt : Options.t) (value : string)
           (tree : list ProtoEntry) : string * option error :=
(resolve (S (length tree)) value tree, None).

Definition upperByte (c : ascii) : ascii :=
let n := nat_of_ascii c in
if ((97 <=? n) && (n <=? 122))%nat then ascii_of_nat (n - 32) else c.

(** Modelled from the spec: [MakeFirstUpperCase] is not among the sources;
    the Go name of a type is "the canonical capitalization of the XSD name
    (word-splitting on [:._-], each word title-cased)". *)
Definition MakeFirstUpperCase (s : string) : string :=
match s with
| EmptyString => ""
| String c s' => String (upperByte c) s'
end.

(** Modelled from the spec: [genFieldComment] is not among the sources and
    the spec does not give the text of the comment that precedes a
    declaration; this one is a line comment that names the declared
    type. *)
Definition genFieldComment (name doc prefix : string) : string :=
NL +:+ prefix +:+ " " +:+ name +:+ " ..." +:+ NL.

(** Modelled from the spec: the constant [copyright] is not among the
    sources; the output starts with "a boilerplate header comment". *)
Definition copyright : string := "// Code generated by xgen. DO NOT EDIT.".

(** Modelled from the spec: [toSortedPairs] is not among the sources; the
    members of a union are "an ordered map of union member name to type":
    the pairs, sorted by key. *)
Definition toSortedPairs (m : gmap string string) : list (string * string) :=
merge_sort (fun a b => Is_true (String.leb a.1 b.1)) (map_to_list m).

Definition xgenLib : XgenLib :=
Build_XgenLib trimNSPrefix getBasefromSimpleType getBuildInTypeByLang
              MakeFirstUpperCase genFieldComment copyright toSortedPairs.

Definition parserLib : ParserLib := Build_ParserLib GetValueType.

End Env.

(** * The vocabulary of the properties *)

(** The blanks [buildValidateTag] looks for in an enum value. *)
Definition blanks : string :=
  " " +:+ String (ascii_of_nat 9)
            (String (ascii_of_nat 10) (String (ascii_of_nat 13) "")).

(** The rules that make up the tag, [dive] included. *)
Definition emittedRules `{GoLib} (base : string) (r : Restriction)
           (optional isSlice : bool) : list string :=
  if negb (hasRestrictions r) then []
  else
    let rules := tagRules base r optional in
    if (length rules =? 0)%nat then []
    else if isSlice then "dive" :: rules else rules.

(** The pattern with every backslash doubled, as the design document asks
    for in the serialized tag. *)
Fixpoint doubleBackslashes (pattern : string) : string :=
  match pattern with
  | EmptyString => ""
  | String c rest =>
      if Ascii.eqb c "\" then "\\" +:+ doubleBackslashes rest
      else String c (doubleBackslashes rest)
  end.

(** A restriction with one pattern and no other rule. *)
Definition patternOnly (pattern : string) : Restriction :=
  setPatternStr pattern emptyRestriction.

(** A restriction with enum values and no other rule. *)
Definition enumOnly (values : list string) : Restriction :=
  mkRestriction values "" 0 0 0 false false false
                (S754_zero false) (S754_zero false) false false false false.

(** A generator that has emitted nothing yet. *)
Definition freshGen (file : string) (tree : list ProtoEntry)
  : CodeGenerator :=
  mkCodeGenerator "Go" file "" "" false false false false tree ∅ ∅ ∅.

Definition freshWorld (file : string) (tree : list ProtoEntry) : World :=
  mkWorld (freshGen file tree) ∅.

(** A computation that leaves a component [proj] of the generator as it
    found it. *)
Definition keeps {X A : Type} (proj : CodeGenerator -> X) (m : M A) : Prop :=
  forall w, proj (gen (m w).2) = proj (gen w).








Section Dispatch.
Context `{GoLib} `{ParserLib}.



End Dispatch.


Module Scenario.

(** [tStateCode]: a string of length 2 that is [AA] or [BB]. *)
Definition stateCodeRules : Restriction :=
  mkRestriction ["AA"; "BB"] "" 2 0 0 true false false
                (S754_zero false) (S754_zero false) false false false false.

Definition tStateCode : SimpleType.t :=
  SimpleType.mk "" "tStateCode" "string" false false ∅ stateCodeRules.

Definition tree : list ProtoEntry := [PSimpleType tStateCode].

(** An optional element and an optional attribute of type [tStateCode],
    without rules of their own. *)
Definition stateElement : Element.t :=
  Element.mk "" "state" "string" "tStateCode" false true emptyRestriction.

Definition stateAttribute : Attribute.t :=
  Attribute.mk "" "state" "string" "tStateCode" false true emptyRestriction.

(** A complex type whose only restrictions come through [TypeRef]. *)
Definition address : ComplexType.t :=
  ComplexType.mk "" "address" "" [stateElement] [stateAttribute] [] [].

(** A complex type with an optional attribute that has an inline rule,
    [minLength] 1. *)
Definition minLengthOne : Restriction :=
  setMinLength 1 emptyRestriction.

Definition nickname : Attribute.t :=
  Attribute.mk "" "nick" "string" "" false true minLengthOne.

Definition contact : ComplexType.t :=
  ComplexType.mk "" "contact" "" [] [nickname] [] [].

(** Two top-level elements whose types are declared in another file. *)
Definition first : Element.t :=
  Element.mk "" "first" "tAa" "" false false emptyRestriction.

Definition second : Element.t :=
  Element.mk "" "second" "tBb" "" false false emptyRestriction.

Definition shared : list ProtoEntry := [PElement first; PElement second].



End Scenario.

(** Events of the scenarios. *)
Module Events.

Definition valueAttr (v : string) : xml.Attr :=
  xml.mkAttr (xml.mkName "" "value") v.

Definition facet (local v : string) : xml.StartElement :=
  xml.mkStart (xml.mkName "http://www.w3.org/2001/XMLSchema" local)
              [valueAttr v].

Definition closing (local : string) : xml.EndElement :=
  xml.mkEnd (xml.mkName "http://www.w3.org/2001/XMLSchema" local).

(** A parse at its start, and one with an anonymous simple type open. *)
Definition idle : Options.t := Options.mk "Go" "" "" false [] [] [] [] [].

Definition inSimpleType : Options.t :=
  Options.setSimpleType [SimpleType.zero] idle.

End Events.

(** An element with an inline simple type: the states of the parse at the
    end of the restriction, and a named simple type at its end. *)
Module Inline.

Definition zip : Element.t :=
  Element.mk "" "zip" "" "" false false emptyRestriction.

Definition zipType : SimpleType.t :=
  SimpleType.mk "" "" "xs:string" false false ∅ (patternOnly "[0-9]{5}").


Definition tZip : SimpleType.t :=
  SimpleType.mk "" "tZip" "string" false false ∅ (patternOnly "[0-9]{5}").



End Inline.

(** [gen.File = file]. *)
Definition setFile (file : string) (g : CodeGenerator) : CodeGenerator :=
  mkCodeGenerator (Lang g) file (Field g) (Package g) (ImportTime g)
    (ImportEncodingXML g) (ImportFmt g) (ImportRegexp g) (ProtoTree g)
    (StructAST g) (TypeNameMap g) (ValidatedTypes g).

(** What an emission may do to the generator: the configuration and the
    tree stay, the text grows at its end, the declared names stay
    declared, and an import that is asked for stays asked for. *)
Record extends (g g' : CodeGenerator) : Prop := mkExtends {
  ext_Lang : Lang g' = Lang g;
  ext_File : File g' = File g;
  ext_Package : Package g' = Package g;
  ext_ProtoTree : ProtoTree g' = ProtoTree g;
  ext_Field : exists s, Field g' = Field g +:+ s;
  ext_StructAST :
    forall k, is_Some (StructAST g !! k) -> is_Some (StructAST g' !! k);
  ext_ImportTime : ImportTime g = true -> ImportTime g' = true;
  ext_ImportEncodingXML :
    ImportEncodingXML g = true -> ImportEncodingXML g' = true;
  ext_ImportFmt : ImportFmt g = true -> ImportFmt g' = true;
  ext_ImportRegexp : ImportRegexp g = true -> ImportRegexp g' = true
}.

(** A computation that only extends the generator. *)
Definition extending {A : Type} (m : M A) : Prop :=
  forall w, extends (gen w) (gen (m w).2).

(** The key under which the emitter of an entry records its
    declaration. *)
Definition entryName (ele : ProtoEntry) : option string :=
  match ele with
  | PSimpleType v => Some (SimpleType.Name v)
  | PComplexType v => Some (ComplexType.Name v)
  | PGroup v => Some (Group.Name v)
  | PAttributeGroup v => Some (AttributeGroup.Name v)
  | PElement v => Some (Element.Name v)
  | PAttribute v => Some (Attribute.Name v)
  | PNil => None
  end.

(** The name is declared in the generator. *)
Definition declaredIn (g : CodeGenerator) (name : string) : Prop :=
  is_Some (StructAST g !! name).

(** The name a unique request gets when it is the [count]-th for that
    name. *)
Definition numbered (fieldName : string) (count : Z) : string :=
  if count =? 1 then fieldName else fieldName +:+ FormatD count.

(** A computation at the end of which [name] is declared. *)
Definition declares {A : Type} (name : string) (m : M A) : Prop :=
  forall w, declaredIn (gen (m w).2) name.

(** [strings.ToLower(name[:1]) + name[1:]]. *)
Definition lowerFirst (name : string) : string :=
  strings.ToLower1 (String.substring 0 1 name)
  +:+ String.substring 1 (String.length name - 1) name.

(** The facets whose handlers are among the sources. *)
Module Facet.
Inductive t := MinInclusive | MaxInclusive | MinLength | MaxLength | Pattern.
End Facet.

Section FacetVocabulary.
Context `{GoLib} `{ParserLib}.

(** The handler of a facet. *)
Definition onFacet (k : Facet.t)
  : xml.StartElement -> list ProtoEntry -> Options.t
    -> Options.t * option error :=
  match k with
  | Facet.MinInclusive => OnMinInclusive
  | Facet.MaxInclusive => OnMaxInclusive
  | Facet.MinLength => OnMinLength
  | Facet.MaxLength => OnMaxLength
  | Facet.Pattern => OnPattern
  end.

(** A value that the handler of the facet takes: every pattern, and the
    numbers that parse. *)
Definition accepted (k : Facet.t) (value : string) : Prop :=
  match k with
  | Facet.MinInclusive | Facet.MaxInclusive => is_Some (ParseFloat value)
  | Facet.MinLength | Facet.MaxLength => is_Some (Atoi value)
  | Facet.Pattern => True
  end.

(** The restriction after the facet [k] with the value [value]. *)
Definition recordValue (k : Facet.t) (value : string) (r : Restriction)
  : Restriction :=
  match k with
  | Facet.MinInclusive =>
      match ParseFloat value with Some v => setMin v r | None => r end
  | Facet.MaxInclusive =>
      match ParseFloat value with Some v => setMax v r | None => r end
  | Facet.MinLength =>
      match Atoi value with Some v => setMinLength v r | None => r end
  | Facet.MaxLength =>
      match Atoi value with Some v => setMaxLength v r | None => r end
  | Facet.Pattern => setPatternStr value r
  end.

(** The restriction after the attributes of a facet element. *)
Definition recordAll (k : Facet.t) (ele : xml.StartElement) (r : Restriction)
  : Restriction :=
  foldl (fun r attr =>
           if String.eqb (xml.Local (xml.AttrName attr)) "value"
           then recordValue k (xml.Value attr) r else r)
        r (xml.Attr_ ele).

(** The facet elements of a restriction, one handler after the other. *)
Definition onFacets (fs : list (Facet.t * xml.StartElement))
           (protoTree : list ProtoEntry) (opt : Options.t) : Options.t :=
  foldl (fun o f => (onFacet f.1 f.2 protoTree o).1) opt fs.

Definition recordFacets (fs : list (Facet.t * xml.StartElement))
           (r : Restriction) : Restriction :=
  foldl (fun r f => recordAll f.1 f.2 r) r fs.

End FacetVocabulary.

(** An environment for the error paths of the handlers: the sources show
    that the resolver may return an error beside a type, not when it does;
    this resolver returns the name as it is, and an error, for every
    name. *)
Module Refusing.

Definition GetValueType (opt : Options.t) (value : string)
           (tree : list ProtoEntry) : string * option error :=
  (value, Some "unresolved").

Definition parserLib : ParserLib := Build_ParserLib GetValueType.

End Refusing.

(** States of a parse: an attribute open on an inline simple type, an
    element open inside its complex type, and a union with a named member
    open. *)
Module States.

Definition inAttribute : Options.t :=
  Options.mk "Go" "restriction" "" false [Inline.zipType] []
             [] [Scenario.nickname] [].

Definition enclosing : ComplexType.t :=
  ComplexType.setElements [Scenario.stateElement; Inline.zip]
                          Scenario.address.

Definition inElement : Options.t :=
  Options.mk "Go" "restriction" "" false [] [enclosing] [Inline.zip] [] [].

Definition inUnion : Options.t :=
  Options.mk "Go" "simpleType" "" true [Inline.tZip] [] [] [] [].

End States.

(** The start of an element with one attribute. *)
Definition startWith (tag : xml.Name) (space local value : string)
  : xml.StartElement :=
  xml.mkStart tag [xml.mkAttr (xml.mkName space local) value].

(** ** The rules of a tag, facet by facet *)










(** Fields whose restriction comes through a lookup by name: an element
    of the type [tCount], an integer with an enumeration; an element
    without [TypeRef], in a schema with an anonymous simple type in its
    tree; and optional fields whose type is a slice. *)
Module Projection.


Definition count : Element.t :=
  Element.mk "" "count" "int" "tCount" false false emptyRestriction.





End Projection.

(** * Properties *)

(** ** Facts about byte strings *)

Lemma append_cons (c : ascii) (s t : string) :
  String c s +:+ t = String c (s +:+ t).
Proof. reflexivity. Qed.

Lemma append_nil_r (s : string) : s +:+ "" = s.
Proof.
  induction s as [|c s IH]; [reflexivity|].
  by rewrite append_cons, IH.
Qed.

Lemma append_assoc (s1 s2 s3 : string) :
  (s1 +:+ s2) +:+ s3 = s1 +:+ s2 +:+ s3.
Proof.
  induction s1 as [|c s1 IH]; [reflexivity|].
  by rewrite !append_cons, IH.
Qed.

Lemma append_length (s1 s2 : string) :
  String.length (s1 +:+ s2) = (String.length s1 + String.length s2)%nat.
Proof.
  induction s1 as [|c s1 IH]; [reflexivity|].
  rewrite append_cons. simpl. by rewrite IH.
Qed.

(** ** Declarative validator tags *)

Section TagProperties.
Context `{GoLib}.

(** The tag is its rules, joined by commas. *)
Lemma buildValidateTag_rules base r optional isSlice :
  buildValidateTag base (Some r) optional isSlice
  = strings.Join (emittedRules base r optional isSlice) ",".
Proof.
  unfold buildValidateTag, emittedRules.
  destruct (negb (hasRestrictions r)); [reflexivity|].
  destruct (length (tagRules base r optional) =? 0)%nat; reflexivity.
Qed.

(** The loop over the enum values keeps them all, in order, when none has
    a blank. *)
Lemma enumValsLoop_no_blank enum acc :
  Forall (fun ev => strings.ContainsAny ev blanks = false) enum ->
  enumValsLoop enum acc = (true, acc ++ enum).
Proof.
  intros Hall. revert acc.
  induction Hall as [|ev rest Hev _ IH]; intros acc; simpl.
  - by rewrite app_nil_r.
  - fold blanks. rewrite Hev, IH. by rewrite <- app_assoc.
Qed.

(** The loop stops with [ok] cleared as soon as a value has a blank. *)
Lemma enumValsLoop_blank enum acc :
  Exists (fun ev => strings.ContainsAny ev blanks = true) enum ->
  (enumValsLoop enum acc).1 = false.
Proof.
  intros Hex. revert acc.
  induction enum as [|ev rest IH]; intros acc.
  - inversion Hex.
  - simpl. fold blanks.
    destruct (strings.ContainsAny ev blanks) eqn:Hev; [reflexivity|].
    apply IH. inversion Hex; subst; [congruence|assumption].
Qed.

(** Every rule for a string base is a length rule, a pattern rule or an
    enum rule. *)
Lemma stringRules_shape r rule :
  rule ∈ stringRules r ->
  (exists n, rule = "len=" +:+ FormatD n)
  \/ (exists n, rule = "min=" +:+ FormatD n)
  \/ (exists n, rule = "max=" +:+ FormatD n)
  \/ (PatternStr r <> "" /\ rule = "matches=^" +:+ PatternStr r +:+ "$")
  \/ ((enumValsLoop (Enum r) []).1 = true
      /\ rule = "oneof=" +:+ strings.Join (enumValsLoop (Enum r) []).2 " ").
Proof.
  unfold stringRules. intros Hin.
  apply elem_of_app in Hin as [Hlen|Hrest];
    [|apply elem_of_app in Hrest as [Hin|Hin]].
  - rename Hlen into Hin. destruct (HasLength r).
    + apply list_elem_of_singleton in Hin. eauto.
    + apply elem_of_app in Hin as [Hin|Hin].
      * destruct (HasMinLength r); [|by apply elem_of_nil in Hin].
        apply list_elem_of_singleton in Hin. eauto 6.
      * destruct (HasMaxLength r); [|by apply elem_of_nil in Hin].
        apply list_elem_of_singleton in Hin. eauto 6.
  - destruct (String.eqb (PatternStr r) "") eqn:Hp; simpl in Hin;
      [by apply elem_of_nil in Hin|].
    apply String.eqb_neq in Hp.
    destruct (PatternStr r) as [|c p] eqn:Hpat; [congruence|].
    simpl in Hin. apply list_elem_of_singleton in Hin.
    right; right; right; left. split; [congruence|exact Hin].
  - destruct (0 <? length (Enum r))%nat; [|by apply elem_of_nil in Hin].
    destruct (enumValsLoop (Enum r) []) as [ok vals] eqn:Hloop.
    destruct ok; [|by apply elem_of_nil in Hin].
    apply list_elem_of_singleton in Hin. simpl. eauto 10.
Qed.


End TagProperties.

(** The tags of the scenarios of the design document: the state code, the
    percentage above 0 and up to 100, the optional nickname. *)
Example tag_of_state_code :
  @buildValidateTag (Env.goLib Env.accept) "string"
                    (Some Scenario.stateCodeRules) false false
  = "len=2,oneof=AA BB".
Proof. reflexivity. Qed.

Example tag_of_percentage :
  let lib := Env.goLib Env.accept in
  let r := setMax (default (S754_zero false) (Env.parseFloat "100"))
             (mkRestriction [] "" 0 0 0 false false false
                (S754_zero false) (S754_zero false) true false true false) in
  buildValidateTag "int" (Some r) false false = "gt=0,lte=100".
Proof. reflexivity. Qed.

Example tag_of_optional_nickname :
  @buildValidateTag (Env.goLib Env.accept) "string"
                    (Some Scenario.minLengthOne) true false
  = "omitempty,min=1".
Proof. reflexivity. Qed.

(** Unfolds the plumbing of the state threading. *)
Ltac run_m :=
  unfold mbind, mret, M_bind, M_ret, when, modifyGen, appendField,
    putStructAST, getGen in *; simpl in *.

(** C1. The tag of the date pattern of the design document keeps each
    backslash single: the rule is [matches=^], the pattern as the schema
    wrote it, then [$], and the pattern with its backslashes doubled does not
    occur in the tag. *)
Theorem buildValidateTag_backslash_single `{GoLib} :
  let pattern := "[0-9]{2}\.[0-9]{2}\.[0-9]{4}" in
  buildValidateTag "string" (Some (patternOnly pattern)) false false
  = "matches=^[0-9]{2}\.[0-9]{2}\.[0-9]{4}$"
  /\ doubleBackslashes pattern = "[0-9]{2}\\.[0-9]{2}\\.[0-9]{4}"
  /\ strings.Contains
       (buildValidateTag "string" (Some (patternOnly pattern)) false false)
       (doubleBackslashes pattern) = false.
Proof. repeat split; vm_compute; reflexivity. Qed.

(** C2. The [Validate] method of a named simple type and the checks of a
    complex type hand the pattern to [regexp.MustCompile] as the schema
    wrote it: for the pattern [[0-9]+] the compiled literal is ["[0-9]+"],
    with no [^] in front and no [$] behind. *)
Theorem Validate_pattern_unanchored :
  let lib := Env.goLib Env.accept in
  let r := patternOnly "[0-9]+" in
  let literal := DQ +:+ "[0-9]+" +:+ DQ in
  Field (gen (generateSimpleTypeValidator "TCode" "string" (Some r)
                (freshWorld "out" [])).2)
  = NL +:+ "func (v TCode) Validate() error {" +:+ NL
    +:+ TAB +:+ "if ok := regexp.MustCompile(" +:+ literal
    +:+ ").MatchString(string(v)); !ok { return fmt.Errorf(" +:+ DQ
    +:+ "%s does not match pattern: %q" +:+ DQ +:+ ", " +:+ DQ +:+ "TCode"
    +:+ DQ +:+ ", " +:+ literal +:+ ") }" +:+ NL
    +:+ TAB +:+ "return nil" +:+ NL +:+ "}" +:+ NL
  /\ (generateRestrictionChecks "m.Code" "string" "Code" r
        (freshWorld "out" [])).1
     = TAB +:+ "if ok := regexp.MustCompile(" +:+ literal
       +:+ ").MatchString(string(m.Code)); !ok { return fmt.Errorf(" +:+ DQ
       +:+ "Code does not match pattern: %q" +:+ DQ +:+ ", " +:+ literal
       +:+ ") }" +:+ NL
  /\ buildValidateTag "string" (Some r) false false = "matches=^[0-9]+$".
Proof. repeat split; vm_compute; reflexivity. Qed.

Section EnumGuard.
Context `{GoLib}.

(** No rule for a numeric base is an enum rule. *)
Lemma numericRules_no_oneof r rule :
  rule ∈ numericRules r -> strings.HasPrefix rule "oneof=" = false.
Proof.
  unfold numericRules. intros Hin.
  apply elem_of_app in Hin as [Hin|Hin].
  - destruct (HasMin r); [|by apply elem_of_nil in Hin].
    destruct (MinExclusive r); apply list_elem_of_singleton in Hin;
      subst; reflexivity.
  - destruct (HasMax r); [|by apply elem_of_nil in Hin].
    destruct (MaxExclusive r); apply list_elem_of_singleton in Hin;
      subst; reflexivity.
Qed.

(** With a blank in an enum value, no rule for a string base is an enum
    rule. *)
Lemma stringRules_no_oneof r rule :
  Exists (fun ev => strings.ContainsAny ev blanks = true) (Enum r) ->
  rule ∈ stringRules r -> strings.HasPrefix rule "oneof=" = false.
Proof.
  intros Hblank Hin.
  apply stringRules_shape in Hin
    as [[n ->]|[[n ->]|[[n ->]|[[_ ->]|[Hok _]]]]]; try reflexivity.
  rewrite (enumValsLoop_blank _ _ Hblank) in Hok. discriminate.
Qed.

Lemma emittedRules_no_oneof base r optional isSlice :
  Exists (fun ev => strings.ContainsAny ev blanks = true) (Enum r) ->
  Forall (fun rule => strings.HasPrefix rule "oneof=" = false)
         (emittedRules base r optional isSlice).
Proof.
  intros Hblank. apply Forall_forall. intros rule Hin.
  unfold emittedRules in Hin.
  destruct (negb (hasRestrictions r)); [by apply elem_of_nil in Hin|].
  destruct (length (tagRules base r optional) =? 0)%nat;
    [by apply elem_of_nil in Hin|].
  assert (Hcases : rule = "dive" \/ rule ∈ tagRules base r optional).
  { destruct isSlice; [|by right].
    apply elem_of_cons in Hin as [->|Hin]; [by left|by right]. }
  destruct Hcases as [->|Hrule]; [reflexivity|].
  unfold tagRules in Hrule.
  apply elem_of_app in Hrule as [Hrule|Hrule].
  { destruct optional; [|by apply elem_of_nil in Hrule].
    apply list_elem_of_singleton in Hrule. by subst. }
  apply elem_of_app in Hrule as [Hrule|Hrule].
  - destruct (String.eqb base "string"); [|by apply elem_of_nil in Hrule].
    by apply stringRules_no_oneof with r.
  - destruct (isNumericGoType base); [|by apply elem_of_nil in Hrule].
    by apply numericRules_no_oneof with r.
Qed.

(** Without a blank, the enum rule of a string base lists all the values,
    separated by single spaces. *)
Lemma emittedRules_oneof r optional isSlice :
  Enum r <> [] ->
  Forall (fun ev => strings.ContainsAny ev blanks = false) (Enum r) ->
  "oneof=" +:+ strings.Join (Enum r) " "
    ∈ emittedRules "string" r optional isSlice.
Proof.
  intros Hne Hall.
  assert (Hlen : (0 <? length (Enum r))%nat = true).
  { destruct (Enum r); [congruence|reflexivity]. }
  assert (Hin : "oneof=" +:+ strings.Join (Enum r) " "
                  ∈ tagRules "string" r optional).
  { unfold tagRules, stringRules. simpl String.eqb. cbv iota.
    rewrite Hlen, (enumValsLoop_no_blank _ [] Hall). simpl.
    apply elem_of_app. right. apply elem_of_app. left.
    apply elem_of_app. right. apply elem_of_app. right.
    apply list_elem_of_singleton. reflexivity. }
  unfold emittedRules, hasRestrictions. rewrite Hlen. simpl.
  destruct (tagRules "string" r optional) as [|x l] eqn:Hrules.
  - by apply elem_of_nil in Hin.
  - simpl. destruct isSlice; [by apply elem_of_cons; right|done].
Qed.

(** The lines of the set literal, one per enum value. *)
Lemma enumCheck_lines (line : string -> string) (values : list string)
      (acc : string) :
  foldl (fun acc ev => acc +:+ line ev) acc values
  = acc +:+ String.concat "" (map line values).
Proof.
  revert acc. induction values as [|ev rest IH]; intros acc; simpl.
  - by rewrite append_nil_r.
  - rewrite IH. destruct rest as [|ev' rest'].
    + simpl. by rewrite !append_nil_r.
    + by rewrite append_assoc.
Qed.

End EnumGuard.

Section EnumMethod.
Context `{GoLib}.

(** The set literal of the membership check has one entry per enum value,
    in order. *)
Lemma enumCheck_all_values varExpr subject r :
  enumCheck varExpr subject r
  = TAB +:+ "{"
    +:+ NL +:+ TAB +:+ TAB +:+ "allowed := map[string]struct{}{" +:+ NL
    +:+ String.concat ""
          (map (fun ev => TAB +:+ TAB +:+ TAB +:+ Quote ev +:+ ": {},"
                          +:+ NL) (Enum r))
    +:+ TAB +:+ TAB +:+ "}" +:+ NL
    +:+ TAB +:+ TAB +:+ "if _, ok := allowed[string(" +:+ varExpr
    +:+ ")]; !ok { return fmt.Errorf(" +:+ DQ +:+ subject
    +:+ " must be one of enum values" +:+ DQ +:+ ") }" +:+ NL
    +:+ TAB +:+ "}" +:+ NL.
Proof.
  unfold enumCheck.
  rewrite (enumCheck_lines
             (fun ev => TAB +:+ TAB +:+ TAB +:+ Quote ev +:+ ": {}," +:+ NL)).
  reflexivity.
Qed.

(** The text [generateSimpleTypeValidator] appends for a restriction that
    has a rule. *)
Lemma generateSimpleTypeValidator_text typeName base r w :
  hasRestrictions r = true ->
  Field (gen (generateSimpleTypeValidator typeName base (Some r) w).2)
  = Field (gen w)
    +:+ (NL +:+ "func (v " +:+ typeName +:+ ") Validate() error {" +:+ NL
         +:+ simpleValidatorBody typeName base r
         +:+ TAB +:+ "return nil" +:+ NL +:+ "}") +:+ NL.
Proof.
  intros Hhas. unfold generateSimpleTypeValidator. rewrite Hhas. simpl negb.
  cbv iota. run_m.
  destruct (String.eqb base "string" && negb (String.eqb (PatternStr r) ""));
    destruct (simpleNeedsFmt base r); reflexivity.
Qed.

(** A restriction without a rule gets no method. *)
Lemma generateSimpleTypeValidator_none typeName base r w :
  hasRestrictions r = false ->
  generateSimpleTypeValidator typeName base (Some r) w = (tt, w).
Proof.
  intros Hhas. unfold generateSimpleTypeValidator. by rewrite Hhas.
Qed.

(** For a string base with enum values, the body of the method ends with
    the membership check. *)
Lemma simpleValidatorBody_enum typeName r :
  Enum r <> [] ->
  exists pre,
    simpleValidatorBody typeName "string" r
    = pre +:+ enumCheck "v" typeName r.
Proof.
  intros Hne.
  exists (lengthChecks "v" typeName r
          +:+ (if negb (String.eqb (PatternStr r) "")
               then simplePatternCheck typeName r else "")).
  unfold simpleValidatorBody. simpl String.eqb. cbv iota.
  change (isNumericGoType "string") with false. simpl andb. cbv iota.
  destruct (Enum r) as [|ev rest] eqn:Henum; [congruence|].
  change (0 <? length (ev :: rest))%nat with true. cbv iota.
  rewrite append_nil_r, append_assoc. reflexivity.
Qed.

End EnumMethod.

(** C6, as the sources have it.  With a blank in an enum value the tag has
    no [oneof=] rule, whatever the base; for a [string] base the [Validate]
    method of the simple type still ends with the membership check over
    all the enum values: a block that declares the set [allowed] with one
    quoted entry per enum value, in order, and returns an error when the
    value is not in it; and for a [string] base and a non-empty enum list
    without blanks the tag has the rule [oneof=] followed by the values
    separated by single spaces. *)
Theorem enum_whitespace_guard `{GoLib} (base typeName : string)
        (r : Restriction) (optional isSlice : bool) (w : World) :
  buildValidateTag base (Some r) optional isSlice
  = strings.Join (emittedRules base r optional isSlice) ","
  /\ (Exists (fun ev => strings.ContainsAny ev blanks = true) (Enum r) ->
      Forall (fun rule => strings.HasPrefix rule "oneof=" = false)
             (emittedRules base r optional isSlice))
  /\ (base = "string" ->
      Exists (fun ev => strings.ContainsAny ev blanks = true) (Enum r) ->
      exists pre,
        Field (gen (generateSimpleTypeValidator typeName base (Some r) w).2)
        = Field (gen w)
          +:+ (NL +:+ "func (v " +:+ typeName +:+ ") Validate() error {"
               +:+ NL
               +:+ (pre
                    +:+ TAB +:+ "{" +:+ NL
                    +:+ TAB +:+ TAB +:+ "allowed := map[string]struct{}{"
                    +:+ NL
                    +:+ String.concat ""
                          (map (fun ev => TAB +:+ TAB +:+ TAB +:+ Quote ev
                                          +:+ ": {}," +:+ NL) (Enum r))
                    +:+ TAB +:+ TAB +:+ "}" +:+ NL
                    +:+ TAB +:+ TAB +:+ "if _, ok := allowed[string(v)]; "
                    +:+ "!ok { return fmt.Errorf(" +:+ DQ +:+ typeName
                    +:+ " must be one of enum values" +:+ DQ +:+ ") }"
                    +:+ NL
                    +:+ TAB +:+ "}" +:+ NL)
               +:+ TAB +:+ "return nil" +:+ NL +:+ "}") +:+ NL)
  /\ (base = "string" ->
      Enum r <> [] ->
      Forall (fun ev => strings.ContainsAny ev blanks = false) (Enum r) ->
      "oneof=" +:+ strings.Join (Enum r) " "
        ∈ emittedRules base r optional isSlice).
Proof.
  split; [apply buildValidateTag_rules|].
  split; [apply emittedRules_no_oneof|].
  split.
  - intros -> Hblank.
    assert (Hne : Enum r <> []).
    { intros Hnil. rewrite Hnil in Hblank. inversion Hblank. }
    destruct (simpleValidatorBody_enum typeName r Hne) as [pre Hpre].
    exists pre. rewrite generateSimpleTypeValidator_text.
    + rewrite Hpre, enumCheck_all_values. reflexivity.
    + unfold hasRestrictions. destruct (Enum r); [congruence|reflexivity].
  - intros ->. apply emittedRules_oneof.
Qed.

(** The guard at work on the enum [light blue], [red] and on the enum [AA],
    [BB] of the design document: the method of the first has the two
    values in its set, quoted. *)
Lemma enum_whitespace_guard_witness :
  let lib := Env.goLib Env.accept in
  let spaced := enumOnly ["light blue"; "red"] in
  let plain := enumOnly ["AA"; "BB"] in
  Forall (fun rule => strings.HasPrefix rule "oneof=" = false)
         (emittedRules "string" spaced false false)
  /\ (exists pre,
        Field (gen (generateSimpleTypeValidator "TColor" "string"
                      (Some spaced) (freshWorld "out" [])).2)
        = (NL +:+ "func (v TColor) Validate() error {" +:+ NL
          +:+ (pre
               +:+ TAB +:+ "{" +:+ NL
               +:+ TAB +:+ TAB +:+ "allowed := map[string]struct{}{" +:+ NL
               +:+ (TAB +:+ TAB +:+ TAB +:+ DQ +:+ "light blue" +:+ DQ
                    +:+ ": {}," +:+ NL)
               +:+ (TAB +:+ TAB +:+ TAB +:+ DQ +:+ "red" +:+ DQ
                    +:+ ": {}," +:+ NL)
               +:+ TAB +:+ TAB +:+ "}" +:+ NL
               +:+ TAB +:+ TAB +:+ "if _, ok := allowed[string(v)]; "
               +:+ "!ok { return fmt.Errorf(" +:+ DQ +:+ "TColor"
               +:+ " must be one of enum values" +:+ DQ +:+ ") }" +:+ NL
               +:+ TAB +:+ "}" +:+ NL)
          +:+ TAB +:+ "return nil" +:+ NL +:+ "}") +:+ NL)
  /\ "oneof=" +:+ strings.Join (Enum plain) " "
       ∈ emittedRules "string" plain false false.
Proof.
  intros lib spaced plain.
  assert (Hblank : Exists (fun ev => strings.ContainsAny ev blanks = true)
                          (Enum spaced)).
  { apply Exists_cons_hd. reflexivity. }
  assert (Hplain : Forall (fun ev => strings.ContainsAny ev blanks = false)
                          (Enum plain)).
  { repeat constructor. }
  split; [|split].
  - exact (proj1 (proj2 (enum_whitespace_guard "string" "TColor" spaced
                           false false (freshWorld "out" []))) Hblank).
  - destruct (proj1 (proj2 (proj2 (enum_whitespace_guard "string" "TColor"
                                     spaced false false
                                     (freshWorld "out" []))))
                    eq_refl Hblank) as [pre Hpre].
    exists pre. rewrite Hpre. vm_compute. reflexivity.
  - exact (proj2 (proj2 (proj2 (enum_whitespace_guard "string" "TState"
                                  plain false false (freshWorld "out" []))))
                 eq_refl ltac:(discriminate) Hplain).
Defined.

(** C6 as stated fails off the [string] base: for the base [int] and the
    enum value [light blue] the method is emitted with no membership check
    in it; and for the base [int] and the enum [1], [2], without blanks, the
    tag has no rule at all. *)
Lemma enum_check_absent_for_int_base :
  let lib := Env.goLib Env.accept in
  let r := enumOnly ["light blue"] in
  Exists (fun ev => strings.ContainsAny ev blanks = true) (Enum r)
  /\ Field (gen (generateSimpleTypeValidator "TColor" "int" (Some r)
                   (freshWorld "out" [])).2)
     = NL +:+ "func (v TColor) Validate() error {" +:+ NL
       +:+ TAB +:+ "return nil" +:+ NL +:+ "}" +:+ NL
  /\ strings.Contains
       (Field (gen (generateSimpleTypeValidator "TColor" "int" (Some r)
                      (freshWorld "out" [])).2))
       "allowed" = false
  /\ Forall (fun ev => strings.ContainsAny ev blanks = false) ["1"; "2"]
  /\ buildValidateTag "int" (Some (enumOnly ["1"; "2"])) false false = "".
Proof.
  split; [apply Exists_cons_hd; reflexivity|].
  split; [vm_compute; reflexivity|].
  split; [vm_compute; reflexivity|].
  split; [repeat constructor|reflexivity].
Qed.

(** ** What the emitter leaves unchanged *)

Section Preserved.
Context `{GoLib} `{XgenLib}.

Lemma keeps_ret {X A : Type} (proj : CodeGenerator -> X) (x : A) :
  keeps proj (mret x).
Proof. intros w. reflexivity. Qed.

Lemma keeps_bind {X A B : Type} (proj : CodeGenerator -> X) (m : M A)
      (f : A -> M B) :
  keeps proj m -> (forall x, keeps proj (f x)) -> keeps proj (m ≫= f).
Proof.
  intros Hm Hf w. unfold mbind, M_bind.
  destruct (m w) as [x w'] eqn:Hmw.
  rewrite (Hf x w'). specialize (Hm w). by rewrite Hmw in Hm.
Qed.

Lemma keeps_getGen {X : Type} (proj : CodeGenerator -> X) :
  keeps proj getGen.
Proof. intros w. reflexivity. Qed.

Lemma keeps_modifyGen {X : Type} (proj : CodeGenerator -> X) f :
  (forall g, proj (f g) = proj g) -> keeps proj (modifyGen f).
Proof. intros Hf w. simpl. apply Hf. Qed.

Lemma keeps_genGoFieldName {X : Type} (proj : CodeGenerator -> X) name
      unique :
  keeps proj (genGoFieldName name unique).
Proof.
  intros w. unfold genGoFieldName.
  destruct unique; [|reflexivity].
  destruct (negb _); reflexivity.
Qed.

Lemma keeps_when {X : Type} (proj : CodeGenerator -> X) b m :
  keeps proj m -> keeps proj (when b m).
Proof. intros Hm. destruct b; [exact Hm|apply keeps_ret]. Qed.

Lemma keeps_forEach {X A : Type} (proj : CodeGenerator -> X) (xs : list A)
      (body : A -> M unit) :
  (forall x, keeps proj (body x)) -> keeps proj (forEach xs body).
Proof.
  intros Hbody. induction xs as [|x rest IH]; simpl.
  - apply keeps_ret.
  - apply keeps_bind; [apply Hbody|intros _; exact IH].
Qed.


(** Breaks a computation into its steps. *)
Ltac keeps_steps :=
  repeat first
    [ apply keeps_ret
    | apply keeps_getGen
    | apply keeps_genGoFieldName
    | apply keeps_modifyGen; reflexivity
    | apply keeps_when
    | apply keeps_bind; [|intros ?]
    | match goal with
      | |- keeps _ (appendField _) => unfold appendField
      | |- keeps _ (putStructAST _ _) => unfold putStructAST
      | |- keeps _ (if ?b then _ else _) => destruct b
      | |- keeps _ (match ?x with _ => _ end) => destruct x
      | |- keeps _ (let '(_, _) := ?x in _) => destruct x
      end ].

Lemma keeps_tree_generateSimpleTypeValidator typeName base r :
  keeps ProtoTree (generateSimpleTypeValidator typeName base r).
Proof. unfold generateSimpleTypeValidator. keeps_steps. Qed.

Lemma sameTree_ensureNamedType name : keeps ProtoTree (ensureNamedType name).
Proof.
  unfold ensureNamedType. keeps_steps;
    apply keeps_tree_generateSimpleTypeValidator.
Qed.




(** The lookups of the emitter read the generator through its tree
    only. *)
Lemma findSimpleType_tree g g' name :
  ProtoTree g = ProtoTree g' -> findSimpleType g name = findSimpleType g' name.
Proof. intros Heq. unfold findSimpleType. by rewrite Heq. Qed.

Lemma fieldTypeOf_tree g g' typeRef type_ :
  ProtoTree g = ProtoTree g' ->
  fieldTypeOf g typeRef type_ = fieldTypeOf g' typeRef type_.
Proof.
  intros Heq. unfold fieldTypeOf.
  by rewrite (findSimpleType_tree g g' _ Heq), Heq.
Qed.

Lemma fieldRestriction_tree g g' inline typeRef type_ base :
  ProtoTree g = ProtoTree g' ->
  fieldRestriction g inline typeRef type_ base
  = fieldRestriction g' inline typeRef type_ base.
Proof.
  intros Heq. unfold fieldRestriction.
  by rewrite !(findSimpleType_tree g g' _ Heq), Heq.
Qed.

End Preserved.

(** ** Fields of complex types *)

Section Fields.
Context `{GoLib} `{XgenLib}.

Lemma genGoFieldName_false name w :
  genGoFieldName name false w = (upperWords name, w).
Proof. reflexivity. Qed.

(** The line [GoComplexType] writes for an element: the Go name, the type
    chosen by [elementFieldType], and the tag built from the restriction
    chosen by [fieldRestriction], all read off the tree of the generator. *)
Lemma elementField_line (e : Element.t) (w : World) :
  let g := gen w in
  let ft := fieldTypeOf g (Element.TypeRef e) (Element.Type_ e) in
  let ty := elementFieldType e ft.2 in
  let rb := fieldRestriction g (Element.Restriction e) (Element.TypeRef e)
                             (Element.Type_ e) ft.1 in
  (elementField e w).1
  = TAB +:+ upperWords (Element.Name e) +:+ TAB +:+ ty.1 +:+ TAB +:+ "`"
    +:+ fieldTag (Element.Name e +:+ ty.2)
          (buildValidateTag rb.2 (Some rb.1) (Element.Optional e)
                            (Element.Plural e))
    +:+ "`" +:+ NL.
Proof.
  intros g ft ty rb. unfold elementField.
  unfold mbind, M_bind at 1.
  pose proof (sameTree_ensureNamedType (Element.TypeRef e) w) as Htree.
  destruct (ensureNamedType (Element.TypeRef e) w) as [u w1].
  simpl in Htree. unfold mbind, M_bind, getGen.
  rewrite (fieldTypeOf_tree (gen w1) g _ _ Htree). fold ft.
  destruct ft as [base fieldType] eqn:Hft. simpl in ty, rb.
  fold ty. destruct ty as [fieldType' optional] eqn:Hty.
  rewrite (fieldRestriction_tree (gen w1) g _ _ _ _ Htree). fold rb.
  destruct rb as [r base'] eqn:Hrb.
  destruct (when (String.eqb fieldType' "time.Time")
                 (modifyGen (setImportTime true)) w1) as [u' w2].
  rewrite genGoFieldName_false. reflexivity.
Qed.

(** The line [GoComplexType] writes for an attribute. *)
Lemma attributeField_line (a : Attribute.t) (w : World) :
  let g := gen w in
  let ft := fieldTypeOf g (Attribute.TypeRef a) (Attribute.Type_ a) in
  let ty := attributeFieldType a ft.2 in
  let rb := fieldRestriction g (Attribute.Restriction a)
                             (Attribute.TypeRef a) (Attribute.Type_ a)
                             ft.1 in
  (attributeField a w).1
  = TAB +:+ upperWords (Attribute.Name a) +:+ "Attr" +:+ TAB +:+ ty.1
    +:+ TAB +:+ "`"
    +:+ fieldTag (Attribute.Name a +:+ ",attr" +:+ ty.2)
          (buildValidateTag rb.2 (Some rb.1) (Attribute.Optional a) false)
    +:+ "`" +:+ NL.
Proof.
  intros g ft ty rb. unfold attributeField.
  unfold mbind, M_bind at 1.
  pose proof (sameTree_ensureNamedType (Attribute.TypeRef a) w) as Htree1.
  destruct (ensureNamedType (Attribute.TypeRef a) w) as [u w1].
  unfold mbind, M_bind at 1.
  pose proof (sameTree_ensureNamedType (Attribute.Type_ a) w1) as Htree2.
  destruct (ensureNamedType (Attribute.Type_ a) w1) as [u0 w2].
  simpl in Htree1, Htree2. rewrite Htree1 in Htree2.
  unfold mbind, M_bind, getGen.
  rewrite (fieldTypeOf_tree (gen w2) g _ _ Htree2). fold ft.
  destruct ft as [base fieldType] eqn:Hft. simpl in ty, rb.
  fold ty. destruct ty as [fieldType' optional] eqn:Hty.
  rewrite (fieldRestriction_tree (gen w2) g _ _ _ _ Htree2). fold rb.
  destruct rb as [r base'] eqn:Hrb.
  destruct (when (String.eqb fieldType' "time.Time")
                 (modifyGen (setImportTime true)) w2) as [u' w3].
  rewrite genGoFieldName_false. reflexivity.
Qed.

End Fields.

Section Projection.
Context `{GoLib} `{XgenLib}.






















End Projection.

(** ** The schema of the design document's scenarios *)




(** ** Validators of complex types *)

Section ComplexValidator.
Context `{GoLib} `{XgenLib}.




End ComplexValidator.


(** ** The entry point *)

Section EntryPoint.
Context `{GoLib} `{XgenLib}.

(** C8. When the output file is created and the formatter rejects the
    generated text, [GenGo] leaves in the file the text as generated, from
    the [package] clause on, and returns the error of the formatter: the
    file is not empty and the result is a failure. *)
Theorem GenGo_formatter_rejection (create : string -> option error)
        (order : gset string -> list string) (w : World) (err : error) :
  let g := gen (emitAll order w).2 in
  let unformatted :=
    "package " +:+ packageNameOf g +:+ NL +:+ importBlock g +:+ Field g in
  create (FileWithExtension g ".go") = None ->
  formatSource (copyright +:+ NL +:+ NL +:+ unformatted) = inr err ->
  (GenGo create order w).1
  = mkOutcome (Some (FileWithExtension g ".go", unformatted)) (Some err)
  /\ unformatted <> "".
Proof.
  intros g unformatted Hcreate Hformat. split; [|discriminate].
  unfold GenGo. unfold mbind, M_bind.
  subst unformatted g.
  destruct (emitAll order w) as [u w']. cbn [snd] in *.
  unfold getGen. rewrite Hcreate, Hformat. reflexivity.
Qed.

End EntryPoint.

(** A rejected output on the schema of the scenarios. *)
Lemma GenGo_formatter_rejection_witness :
  let lib := Env.goLib Env.reject in
  let xlib := Env.xgenLib in
  let w := freshWorld "out" Scenario.tree in
  (GenGo (fun _ => None) elements w).1
  = mkOutcome
      (Some ("out.go",
             "package schema" +:+ NL +:+ "import (" +:+ NL +:+ TAB +:+ DQ
             +:+ "fmt" +:+ DQ +:+ NL +:+ ")"
             +:+ Field (gen (emitAll elements w).2)))
      (Some "source: expected declaration")
  /\ "package schema" +:+ NL +:+ "import (" +:+ NL +:+ TAB +:+ DQ
     +:+ "fmt" +:+ DQ +:+ NL +:+ ")" +:+ Field (gen (emitAll elements w).2)
     <> "".
Proof.
  intros lib xlib w.
  exact (GenGo_formatter_rejection (fun _ => None) elements w
           "source: expected declaration" eq_refl eq_refl).
Defined.

(** The two orders in which the examples range over a map. *)
Lemma rangeOrder_elements : rangeOrder elements.
Proof. intros s. reflexivity. Qed.

Lemma rangeOrder_reverse : rangeOrder (reverse ∘ elements).
Proof. intros s. simpl. apply reverse_Permutation. Qed.

(** C3. For the shared file [commonTypes.go] and two references to types
    of another file, two runs that range over the map of candidates in
    different orders write different files: the aliases [TAa] and [TBb]
    come in the order of the visit. *)
Theorem GenGo_output_depends_on_map_order :
  let lib := Env.goLib Env.accept in
  let xlib := Env.xgenLib in
  let w := freshWorld "commonTypes.go" Scenario.shared in
  let declared :=
    NL +:+ "// First ..." +:+ NL +:+ "type First" +:+ TAB +:+ "*TAa" +:+ NL
    +:+ NL +:+ "// Second ..." +:+ NL +:+ "type Second" +:+ TAB +:+ "*TBb"
    +:+ NL in
  let aliasAa := NL +:+ "// TAa ..." +:+ NL +:+ "type TAa string" +:+ NL in
  let aliasBb := NL +:+ "// TBb ..." +:+ NL +:+ "type TBb string" +:+ NL in
  rangeOrder elements
  /\ rangeOrder (reverse ∘ elements)
  /\ Field (gen (emitAll elements w).2) = declared +:+ aliasAa +:+ aliasBb
  /\ Field (gen (emitAll (reverse ∘ elements) w).2)
     = declared +:+ aliasBb +:+ aliasAa
  /\ outFile (GenGo (fun _ => None) elements w).1
     <> outFile (GenGo (fun _ => None) (reverse ∘ elements) w).1.
Proof.
  intros lib xlib w declared aliasAa aliasBb.
  split; [exact rangeOrder_elements|].
  split; [exact rangeOrder_reverse|].
  split; [vm_compute; reflexivity|].
  split; [vm_compute; reflexivity|].
  vm_compute. discriminate.
Qed.

(** ** Facet handlers *)

Section Facets.
Context `{GoLib} `{ParserLib}.

(** A loop over the attributes that does nothing at each [value] leaves
    the state as it is. *)
Lemma onValueAttrs_unchanged step ele opt :
  (forall attr, attr ∈ xml.Attr_ ele ->
                xml.Local (xml.AttrName attr) = "value" ->
                step (xml.Value attr) opt = opt) ->
  onValueAttrs step ele opt = opt.
Proof.
  unfold onValueAttrs. induction (xml.Attr_ ele) as [|attr rest IH];
    intros Hstep; simpl; [reflexivity|].
  destruct (String.eqb (xml.Local (xml.AttrName attr)) "value") eqn:Hname.
  - rewrite (Hstep attr); [|by left|by apply String.eqb_eq].
    apply IH. intros attr' Hin. apply Hstep. by right.
  - apply IH. intros attr' Hin. apply Hstep. by right.
Qed.

Lemma onTopSimpleType_empty f opt :
  Options.SimpleType opt = [] -> onTopSimpleType f opt = opt.
Proof. intros Hempty. unfold onTopSimpleType. by rewrite Hempty. Qed.

(** C7. A numeric or length facet whose [value] does not parse leaves the
    whole state of the parse as it is, the restriction of the open simple
    type included, and returns no error; so does any facet met while no
    simple type is open. *)
Theorem facet_ignored_on_parse_failure (ele : xml.StartElement)
        (protoTree : list ProtoEntry) (opt : Options.t) :
  ((forall attr, attr ∈ xml.Attr_ ele ->
                 xml.Local (xml.AttrName attr) = "value" ->
                 ParseFloat (xml.Value attr) = None) ->
   OnMinInclusive ele protoTree opt = (opt, None)
   /\ OnMaxInclusive ele protoTree opt = (opt, None))
  /\ ((forall attr, attr ∈ xml.Attr_ ele ->
                    xml.Local (xml.AttrName attr) = "value" ->
                    Atoi (xml.Value attr) = None) ->
      OnMinLength ele protoTree opt = (opt, None)
      /\ OnMaxLength ele protoTree opt = (opt, None))
  /\ (Options.SimpleType opt = [] ->
      OnMinInclusive ele protoTree opt = (opt, None)
      /\ OnMaxInclusive ele protoTree opt = (opt, None)
      /\ OnMinLength ele protoTree opt = (opt, None)
      /\ OnMaxLength ele protoTree opt = (opt, None)
      /\ OnPattern ele protoTree opt = (opt, None)).
Proof.
  split; [|split].
  - intros Hparse.
    split; [unfold OnMinInclusive|unfold OnMaxInclusive]; f_equal;
      apply onValueAttrs_unchanged; intros attr Hin Hname;
      by rewrite (Hparse attr Hin Hname).
  - intros Hparse.
    split; [unfold OnMinLength|unfold OnMaxLength]; f_equal;
      apply onValueAttrs_unchanged; intros attr Hin Hname;
      by rewrite (Hparse attr Hin Hname).
  - intros Hempty.
    unfold OnMinInclusive, OnMaxInclusive, OnMinLength, OnMaxLength,
      OnPattern.
    repeat split; f_equal; apply onValueAttrs_unchanged;
      intros attr _ _;
      repeat match goal with
             | |- context [match ?x with _ => _ end] => destruct x
             end;
      try reflexivity; by apply onTopSimpleType_empty.
Qed.

End Facets.

(** The facets [minInclusive] and [maxLength] with the value [abc], inside
    a simple type, and the facet [minInclusive] with the value [5] outside
    any. *)
Lemma facet_ignored_on_parse_failure_witness :
  let lib := Env.goLib Env.accept in
  let plib := Env.parserLib in
  (OnMinInclusive (Events.facet "minInclusive" "abc") []
                  Events.inSimpleType
   = (Events.inSimpleType, None)
   /\ OnMaxInclusive (Events.facet "minInclusive" "abc") []
                     Events.inSimpleType
      = (Events.inSimpleType, None))
  /\ (OnMinLength (Events.facet "maxLength" "abc") [] Events.inSimpleType
      = (Events.inSimpleType, None)
      /\ OnMaxLength (Events.facet "maxLength" "abc") [] Events.inSimpleType
         = (Events.inSimpleType, None))
  /\ OnMinInclusive (Events.facet "minInclusive" "5") [] Events.idle
     = (Events.idle, None).
Proof.
  intros lib plib.
  assert (Hvalue : forall (P : string -> Prop) attr,
             P "abc" -> attr ∈ [Events.valueAttr "abc"] ->
             P (xml.Value attr)).
  { intros P attr HP Hin. apply list_elem_of_singleton in Hin. by subst. }
  split; [|split].
  - apply (proj1 (facet_ignored_on_parse_failure
                    (Events.facet "minInclusive" "abc") []
                    Events.inSimpleType)).
    intros attr Hin _.
    by apply (Hvalue (fun v => ParseFloat v = None)).
  - apply (proj1 (proj2 (facet_ignored_on_parse_failure
                           (Events.facet "maxLength" "abc") []
                           Events.inSimpleType))).
    intros attr Hin _.
    by apply (Hvalue (fun v => Atoi v = None)).
  - apply (proj2 (proj2 (facet_ignored_on_parse_failure
                           (Events.facet "minInclusive" "5") []
                           Events.idle))).
    reflexivity.
Defined.

(** ** Simple types on the way to [ProtoTree] *)

Section Persist.
Context `{GoLib} `{ParserLib}.






















End Persist.

Section Closing.
Context `{GoLib} `{ParserLib}.





End Closing.


(** * Further properties of the emitter *)

(** ** An emission only extends the generator *)

Section Extending.
Context `{GoLib} `{XgenLib}.

Lemma extends_refl g : extends g g.
Proof.
  constructor; try done. exists "". by rewrite append_nil_r.
Qed.

Lemma extends_trans g1 g2 g3 :
  extends g1 g2 -> extends g2 g3 -> extends g1 g3.
Proof.
  intros [L1 F1 P1 T1 [s1 S1] A1 I1 X1 M1 R1] [L2 F2 P2 T2 [s2 S2] A2 I2 X2 M2 R2].
  constructor; try congruence; try (intros; auto).
  exists (s1 +:+ s2). by rewrite S2, S1, append_assoc.
Qed.

Lemma extending_ret {A : Type} (x : A) : extending (mret x).
Proof. intros w. apply extends_refl. Qed.

Lemma extending_bind {A B : Type} (m : M A) (f : A -> M B) :
  extending m -> (forall x, extending (f x)) -> extending (m ≫= f).
Proof.
  intros Hm Hf w. unfold mbind, M_bind.
  specialize (Hm w). destruct (m w) as [x w'].
  exact (extends_trans _ _ _ Hm (Hf x w')).
Qed.

Lemma extending_getGen : extending getGen.
Proof. intros w. apply extends_refl. Qed.

Lemma extending_genGoFieldName name unique :
  extending (genGoFieldName name unique).
Proof.
  intros w. unfold genGoFieldName.
  destruct unique; [|apply extends_refl].
  destruct (negb _); apply extends_refl.
Qed.

Lemma extending_appendField s : extending (appendField s).
Proof.
  intros w. constructor; try done. by exists s.
Qed.

Lemma extending_putStructAST key content :
  extending (putStructAST key content).
Proof.
  intros w. constructor; try done.
  - exists "". simpl. by rewrite append_nil_r.
  - intros k Hk. simpl. destruct (decide (key = k)) as [->|Hne].
    + rewrite lookup_insert_eq. by eexists.
    + by rewrite lookup_insert_ne.
Qed.

Lemma extending_setImportTime : extending (modifyGen (setImportTime true)).
Proof.
  intros w. constructor; try done.
  exists "". simpl. by rewrite append_nil_r.
Qed.

Lemma extending_setImportEncodingXML :
  extending (modifyGen (setImportEncodingXML true)).
Proof.
  intros w. constructor; try done.
  exists "". simpl. by rewrite append_nil_r.
Qed.

Lemma extending_setImportFmt : extending (modifyGen (setImportFmt true)).
Proof.
  intros w. constructor; try done.
  exists "". simpl. by rewrite append_nil_r.
Qed.

Lemma extending_setImportRegexp :
  extending (modifyGen (setImportRegexp true)).
Proof.
  intros w. constructor; try done.
  exists "". simpl. by rewrite append_nil_r.
Qed.

Lemma extending_when b m : extending m -> extending (when b m).
Proof. intros Hm. destruct b; [exact Hm|apply extending_ret]. Qed.

Lemma extending_forEach {A : Type} (xs : list A) (body : A -> M unit) :
  (forall x, extending (body x)) -> extending (forEach xs body).
Proof.
  intros Hbody. induction xs as [|x rest IH]; simpl.
  - apply extending_ret.
  - apply extending_bind; [apply Hbody|intros _; exact IH].
Qed.

Lemma extending_forEachAcc {A : Type} (xs : list A) (body : A -> M string) :
  (forall x, extending (body x)) -> extending (forEachAcc xs body).
Proof.
  intros Hbody. induction xs as [|x rest IH]; simpl.
  - apply extending_ret.
  - apply extending_bind; [apply Hbody|intros s].
    apply extending_bind; [exact IH|intros t; apply extending_ret].
Qed.

(** Breaks an emission into its steps. *)
Ltac extending_steps :=
  repeat first
    [ apply extending_ret
    | apply extending_getGen
    | apply extending_genGoFieldName
    | apply extending_appendField
    | apply extending_putStructAST
    | apply extending_setImportTime
    | apply extending_setImportEncodingXML
    | apply extending_setImportFmt
    | apply extending_setImportRegexp
    | apply extending_when
    | apply extending_forEach; intros ?
    | apply extending_forEachAcc; intros ?
    | apply extending_bind; [|intros ?]
    | match goal with
      | |- extending (if ?b then _ else _) => destruct b
      | |- extending (match ?x with _ => _ end) => destruct x
      | |- extending (let '(_, _) := ?x in _) => destruct x
      end ].

Lemma extending_generateSimpleTypeValidator typeName base r :
  extending (generateSimpleTypeValidator typeName base r).
Proof. unfold generateSimpleTypeValidator. extending_steps. Qed.

Lemma extending_generateRestrictionChecks varExpr base subject r :
  extending (generateRestrictionChecks varExpr base subject r).
Proof. unfold generateRestrictionChecks. extending_steps. Qed.

Lemma extending_generateComplexTypeValidator typeName v :
  extending (generateComplexTypeValidator typeName v).
Proof.
  unfold generateComplexTypeValidator, attributeChecks, elementChecks.
  extending_steps; apply extending_generateRestrictionChecks.
Qed.

Lemma extending_ensureNamedType name : extending (ensureNamedType name).
Proof.
  unfold ensureNamedType. extending_steps;
    apply extending_generateSimpleTypeValidator.
Qed.

Lemma extending_structHead name : extending (structHead name).
Proof. unfold structHead. extending_steps. Qed.

Lemma extending_GoSimpleType v : extending (GoSimpleType v).
Proof.
  unfold GoSimpleType. extending_steps;
    first [ apply extending_structHead
          | apply extending_ensureNamedType
          | apply extending_generateSimpleTypeValidator ].
Qed.

Lemma extending_attributeField a : extending (attributeField a).
Proof.
  unfold attributeField. extending_steps; apply extending_ensureNamedType.
Qed.

Lemma extending_elementField e : extending (elementField e).
Proof.
  unfold elementField. extending_steps; apply extending_ensureNamedType.
Qed.

Lemma extending_GoComplexType v : extending (GoComplexType v).
Proof.
  unfold GoComplexType. extending_steps;
    first [ apply extending_structHead
          | apply extending_ensureNamedType
          | apply extending_attributeField
          | apply extending_elementField
          | apply extending_generateComplexTypeValidator ].
Qed.

Lemma extending_GoGroup v : extending (GoGroup v).
Proof.
  unfold GoGroup. extending_steps;
    first [apply extending_structHead|apply extending_ensureNamedType].
Qed.

Lemma extending_GoAttributeGroup v : extending (GoAttributeGroup v).
Proof.
  unfold GoAttributeGroup. extending_steps;
    first [apply extending_structHead|apply extending_ensureNamedType].
Qed.

Lemma extending_GoElement v : extending (GoElement v).
Proof. unfold GoElement. extending_steps. Qed.

Lemma extending_GoAttribute v : extending (GoAttribute v).
Proof. unfold GoAttribute. extending_steps. Qed.

Lemma extending_emitEntry ele : extending (emitEntry ele).
Proof.
  destruct ele; simpl;
    first [ apply extending_GoSimpleType | apply extending_GoComplexType
          | apply extending_GoGroup | apply extending_GoAttributeGroup
          | apply extending_GoElement | apply extending_GoAttribute
          | apply extending_ret ].
Qed.

Lemma extending_ensureReferencedTypesDeclared order :
  extending (ensureReferencedTypesDeclared order).
Proof.
  unfold ensureReferencedTypesDeclared, declareCandidate. extending_steps.
Qed.

Lemma extending_emitAll order : extending (emitAll order).
Proof.
  unfold emitAll.
  apply extending_bind; [intros w; apply extends_refl|intros _].
  repeat first
    [ apply extending_GoSimpleType
    | apply extending_emitEntry
    | apply extending_ensureReferencedTypesDeclared
    | apply extending_ret
    | apply extending_getGen
    | apply extending_when
    | apply extending_forEach; intros ?
    | apply extending_bind; [|intros ?]
    | match goal with
      | |- extending (if ?b then _ else _) => destruct b
      | |- extending (match ?x with _ => _ end) => destruct x
      end ].
Qed.

(** Every run of the four passes only extends the generator: the
    configuration and the tree are as before, the text that was there is
    a prefix of the text that is there, no declared name is forgotten and
    no import is withdrawn. *)
Theorem emitAll_extends (order : gset string -> list string) (w : World) :
  extends (gen w) (gen (emitAll order w).2).
Proof. exact (extending_emitAll order w). Qed.

End Extending.

(** ** Each name is emitted once *)

(** Shows that an emission only extends the generator. *)
Ltac extending_tac :=
  repeat first
    [ apply extending_GoSimpleType
    | apply extending_GoComplexType
    | apply extending_GoGroup
    | apply extending_GoAttributeGroup
    | apply extending_GoElement
    | apply extending_GoAttribute
    | apply extending_emitEntry
    | apply extending_ensureReferencedTypesDeclared
    | apply extending_ensureNamedType
    | apply extending_structHead
    | apply extending_attributeField
    | apply extending_elementField
    | apply extending_generateSimpleTypeValidator
    | apply extending_generateComplexTypeValidator
    | apply extending_generateRestrictionChecks
    | apply extending_ret
    | apply extending_getGen
    | apply extending_genGoFieldName
    | apply extending_appendField
    | apply extending_putStructAST
    | apply extending_setImportTime
    | apply extending_setImportEncodingXML
    | apply extending_setImportFmt
    | apply extending_setImportRegexp
    | apply extending_when
    | apply extending_forEach; intros ?
    | apply extending_forEachAcc; intros ?
    | apply extending_bind; [|intros ?]
    | match goal with
      | |- extending (if ?b then _ else _) => destruct b
      | |- extending (match ?x with _ => _ end) => destruct x
      | |- extending (let '(_, _) := ?x in _) => destruct x
      end ].

Section Once.
Context `{GoLib} `{XgenLib}.

Lemma declares_bind_r {A B : Type} name (m : M A) (f : A -> M B) :
  (forall x, declares name (f x)) -> declares name (m ≫= f).
Proof.
  intros Hf w. unfold mbind, M_bind. destruct (m w) as [x w']. apply Hf.
Qed.

Lemma declares_put {B : Type} name content (f : unit -> M B) :
  (forall x, extending (f x)) ->
  declares name (putStructAST name content ≫= f).
Proof.
  intros Hf w. unfold mbind, M_bind.
  destruct (putStructAST name content w) as [u w'] eqn:Hput.
  apply (ext_StructAST _ _ (Hf u w')).
  unfold putStructAST, modifyGen in Hput. inversion Hput; subst. simpl.
  unfold declaredIn. rewrite lookup_insert_eq. by eexists.
Qed.

(** Looks for the write of the declaration. *)
Ltac declares_tac :=
  repeat first
    [ apply declares_put; intros ?; extending_tac
    | apply declares_bind_r; intros ?
    | match goal with
      | |- declares _ (if ?b then _ else _) => destruct b
      | |- declares _ (match ?x with _ => _ end) => destruct x
      | |- declares _ (let '(_, _) := ?x in _) => destruct x
      end ].

(** An entry whose name is declared is skipped. *)
Lemma emitEntry_declared_skip ele name w :
  entryName ele = Some name ->
  declaredIn (gen w) name ->
  emitEntry ele w = (tt, w).
Proof.
  intros Hname Hdecl.
  destruct ele as [v|v|v|v|v|v|]; simpl in Hname; inversion Hname; subst;
    simpl;
    [unfold GoSimpleType|unfold GoComplexType|unfold GoGroup
    |unfold GoAttributeGroup|unfold GoElement|unfold GoAttribute];
    unfold mbind, M_bind, getGen; cbv zeta;
    rewrite (bool_decide_eq_true_2 _ Hdecl); try reflexivity.
  simpl negb. rewrite andb_false_r. cbv iota.
  destruct (SimpleType.Union v && _); reflexivity.
Qed.

(** The emitter of an entry leaves the name of the entry declared. *)
Lemma emitEntry_declares ele name w :
  entryName ele = Some name ->
  declaredIn (gen (emitEntry ele w).2) name.
Proof.
  intros Hname.
  destruct (decide (declaredIn (gen w) name)) as [Hdecl|Hnot].
  { by rewrite (emitEntry_declared_skip ele name w Hname Hdecl). }
  destruct ele as [v|v|v|v|v|v|]; simpl in Hname; inversion Hname; subst;
    simpl;
    [unfold GoSimpleType|unfold GoComplexType|unfold GoGroup
    |unfold GoAttributeGroup|unfold GoElement|unfold GoAttribute];
    match goal with
    | |- declaredIn (gen ((getGen ≫= ?f) w).2) ?n =>
        assert (Hf : forall g, ~ declaredIn g n -> declares n (f g));
        [ intros g Hg; cbv beta zeta;
          rewrite (bool_decide_eq_false_2 _ Hg); simpl negb;
          rewrite ?andb_true_r; cbv iota; declares_tac
        | exact (Hf (gen w) Hnot w) ]
    end.
Qed.

(** An entry is emitted once: a second call of its emitter changes
    nothing. *)
Theorem emitEntry_idempotent (ele : ProtoEntry) (w : World) :
  emitEntry ele (emitEntry ele w).2 = (tt, (emitEntry ele w).2).
Proof.
  destruct (entryName ele) as [name|] eqn:Hname.
  - apply (emitEntry_declared_skip ele name); [exact Hname|].
    by apply emitEntry_declares.
  - destruct ele; try discriminate. reflexivity.
Qed.

End Once.

Section Rerun.
Context `{GoLib} `{XgenLib}.

Lemma forEach_skip {A : Type} (xs : list A) (body : A -> M unit) w :
  (forall x, x ∈ xs -> body x w = (tt, w)) -> forEach xs body w = (tt, w).
Proof.
  induction xs as [|x rest IH]; intros Hskip; simpl; [reflexivity|].
  unfold mbind, M_bind. rewrite (Hskip x); [|by left].
  apply IH. intros y Hy. apply Hskip. by right.
Qed.

(** After a loop of emitters over the entries, the name of every entry
    of the loop is declared. *)
Lemma forEach_emitEntry_declares (xs : list ProtoEntry) w ele name :
  ele ∈ xs -> entryName ele = Some name ->
  declaredIn (gen (forEach xs emitEntry w).2) name.
Proof.
  revert w. induction xs as [|x rest IH]; intros w Hin Hname.
  - by apply elem_of_nil in Hin.
  - simpl. unfold mbind, M_bind.
    destruct (emitEntry x w) as [u w'] eqn:Hx.
    apply elem_of_cons in Hin as [->|Hin]; [|by apply IH].
    apply (ext_StructAST _ _
             (extending_forEach rest emitEntry extending_emitEntry w')).
    pose proof (emitEntry_declares x name w Hname) as Hd.
    by rewrite Hx in Hd.
Qed.

(** After the four passes the name of every entry of the tree is
    declared. *)
Lemma emitAll_declares order w ele name :
  ele ∈ ProtoTree (gen w) -> entryName ele = Some name ->
  declaredIn (gen (emitAll order w).2) name.
Proof.
  intros Hin Hname. unfold emitAll.
  unfold mbind at 1. unfold M_bind at 1. cbv beta iota.
  unfold mbind at 1. unfold M_bind at 1. unfold getGen at 1. cbv beta iota.
  cbn [gen].
  unfold mbind at 1. unfold M_bind at 1.
  destruct (forEach (ProtoTree (gen w)) _ _) as [u1 w1].
  unfold mbind at 1. unfold M_bind at 1.
  pose proof (forEach_emitEntry_declares (ProtoTree (gen w)) w1 ele name
                Hin Hname) as Hd.
  destruct (forEach (ProtoTree (gen w)) emitEntry w1) as [u2 w2].
  simpl in Hd.
  match goal with
  | |- declaredIn (gen (?m w2).2) name =>
      assert (Hext : extending m)
  end.
  { repeat first
      [ apply extending_GoSimpleType
      | apply extending_ensureReferencedTypesDeclared
      | apply extending_ret
      | apply extending_getGen
      | apply extending_when
      | apply extending_forEach; intros ?
      | apply extending_bind; [|intros ?]
      | match goal with
        | |- extending (if ?b then _ else _) => destruct b
        | |- extending (match ?x with _ => _ end) => destruct x
        end ]. }
  exact (ext_StructAST _ _ (Hext w2) name Hd).
Qed.

(** On a generator in which the name of every entry of the tree is
    declared, and outside the shared file, the four passes emit nothing:
    they only reset the counter of names. *)
Lemma emitAll_all_declared order w :
  strings.Contains (File (gen w)) "commonTypes.go" = false ->
  (forall ele name, ele ∈ ProtoTree (gen w) -> entryName ele = Some name ->
                    declaredIn (gen w) name) ->
  emitAll order w = (tt, mkWorld (gen w) ∅).
Proof.
  intros Hfile Hall. unfold emitAll.
  unfold mbind at 1. unfold M_bind at 1. cbv beta iota.
  unfold mbind at 1. unfold M_bind at 1. unfold getGen at 1. cbv beta iota.
  cbn [gen]. rewrite Hfile.
  set (w0 := mkWorld (gen w) ∅).
  assert (Hall0 : forall ele name,
             ele ∈ ProtoTree (gen w) -> entryName ele = Some name ->
             declaredIn (gen w0) name) by exact Hall.
  unfold mbind at 1. unfold M_bind at 1.
  rewrite forEach_skip.
  2:{ intros ele Hin. destruct ele; try reflexivity.
      destruct (negb _); [|reflexivity]. simpl.
      apply (emitEntry_declared_skip (PSimpleType v) (SimpleType.Name v));
        [reflexivity|]. by apply (Hall0 (PSimpleType v)). }
  unfold mbind at 1. unfold M_bind at 1.
  rewrite forEach_skip.
  2:{ intros ele Hin. destruct (entryName ele) as [name|] eqn:Hname.
      - apply (emitEntry_declared_skip ele name _ Hname).
        by apply (Hall0 ele).
      - destruct ele; try discriminate. reflexivity. }
  unfold mbind at 1. unfold M_bind at 1.
  rewrite forEach_skip; [reflexivity|].
  intros ele Hin. destruct ele; try reflexivity.
  destruct (negb (String.eqb _ _)); [|reflexivity].
  unfold mbind, M_bind, getGen.
  rewrite bool_decide_eq_true_2; [reflexivity|].
  by apply (Hall0 (PSimpleType v)).
Qed.

(** Outside the shared file, a second run of the four passes on the
    generator of a first run leaves that generator as it is: nothing is
    emitted twice. *)
Theorem emitAll_rerun_unchanged (order order' : gset string -> list string)
        (w : World) :
  strings.Contains (File (gen w)) "commonTypes.go" = false ->
  gen (emitAll order' (emitAll order w).2).2 = gen (emitAll order w).2.
Proof.
  intros Hfile.
  pose proof (extending_emitAll order w) as Hext.
  rewrite emitAll_all_declared; [reflexivity| |].
  - by rewrite (ext_File _ _ Hext).
  - intros ele name Hin Hname. rewrite (ext_ProtoTree _ _ Hext) in Hin.
    by apply emitAll_declares with ele.
Qed.

End Rerun.

(** A first and a second run on the schema of the scenarios. *)
Lemma emitAll_rerun_unchanged_witness :
  let lib := Env.goLib Env.accept in
  let xlib := Env.xgenLib in
  let w := freshWorld "out"
             (Scenario.tree ++ [PComplexType Scenario.address]) in
  gen (emitAll elements (emitAll elements w).2).2
  = gen (emitAll elements w).2.
Proof.
  intros lib xlib w.
  exact (emitAll_rerun_unchanged elements elements w eq_refl).
Defined.

(** ** Names *)

Lemma to_int_not_nil z :
  Z.to_int z <> Decimal.Pos Decimal.Nil
  /\ Z.to_int z <> Decimal.Neg Decimal.Nil.
Proof.
  destruct z; simpl; split; try discriminate; intros Heq;
    inversion Heq as [Hn]; by apply Unsigned.to_uint_nonnil in Hn.
Qed.

(** [%d] prints different numbers differently, and never prints
    nothing. *)
Lemma FormatD_inj a b : FormatD a = FormatD b -> a = b.
Proof.
  unfold FormatD. intros Heq. apply DecimalZ.to_int_inj.
  assert (Some (Z.to_int a) = Some (Z.to_int b)) as [= ->]; [|reflexivity].
  destruct (to_int_not_nil a), (to_int_not_nil b).
  rewrite <- (NilZero.isi (Z.to_int a)), <- (NilZero.isi (Z.to_int b))
    by assumption.
  by rewrite Heq.
Qed.

Lemma FormatD_not_empty a : FormatD a <> "".
Proof.
  unfold FormatD. intros Heq. destruct (to_int_not_nil a) as [Hp Hn].
  pose proof (NilZero.isi (Z.to_int a) Hp Hn) as Hisi.
  rewrite Heq in Hisi. discriminate.
Qed.

Lemma append_same_l (s t : string) : s = s +:+ t -> t = "".
Proof.
  induction s as [|c s IH]; [intros Heq; exact (eq_sym Heq)|].
  rewrite append_cons. intros [= Heq]. by apply IH.
Qed.

Lemma append_inj_l (s t u : string) : s +:+ t = s +:+ u -> t = u.
Proof.
  induction s as [|c s IH]; [done|].
  rewrite !append_cons. intros [= Heq]. by apply IH.
Qed.

(** The numbered names of one name are all different. *)
Lemma numbered_inj fieldName c1 c2 :
  numbered fieldName c1 = numbered fieldName c2 -> c1 = c2.
Proof.
  unfold numbered.
  destruct (c1 =? 1) eqn:H1; destruct (c2 =? 1) eqn:H2; intros Heq.
  - apply Z.eqb_eq in H1, H2. congruence.
  - apply append_same_l in Heq. by apply FormatD_not_empty in Heq.
  - symmetry in Heq. apply append_same_l in Heq.
    by apply FormatD_not_empty in Heq.
  - apply append_inj_l in Heq. by apply FormatD_inj.
Qed.

Section NamesProperties.
Context `{GoLib} `{XgenLib}.

(** A unique request for a name counts the request and returns the name
    numbered by the count: the name itself for the first request, the name
    followed by the count from the second on; the counts of the other names
    and the generator are left alone.  The numbered names of one name are
    all different, so that two requests in a row never get the same name;
    and a request that is not unique changes nothing. *)
Theorem genGoFieldName_numbers (name : string) (w : World) :
  let fieldName := upperWords name in
  let count := default 0 (fieldNameCount w !! fieldName) + 1 in
  genGoFieldName name true w
  = (numbered fieldName count,
     mkWorld (gen w) (<[fieldName := count]> (fieldNameCount w)))
  /\ (genGoFieldName name true w).1
     <> (genGoFieldName name true (genGoFieldName name true w).2).1
  /\ genGoFieldName name false w = (fieldName, w).
Proof.
  intros fieldName count.
  assert (Hfirst : forall w',
    genGoFieldName name true w'
    = (numbered fieldName (default 0 (fieldNameCount w' !! fieldName) + 1),
       mkWorld (gen w')
         (<[fieldName := default 0 (fieldNameCount w' !! fieldName) + 1]>
            (fieldNameCount w')))).
  { intros w'. unfold genGoFieldName, numbered. fold fieldName.
    by destruct (_ =? 1). }
  split; [apply Hfirst|]. split; [|reflexivity].
  rewrite (Hfirst w). cbn [fst snd]. rewrite Hfirst. cbn [fst fieldNameCount].
  rewrite lookup_insert_eq. cbn [default].
  intros Heq. apply numbered_inj in Heq. simpl in Heq. lia.
Qed.

End NamesProperties.

(** ** The output path *)

Lemma substring_all (e : string) :
  String.substring 0 (String.length e) e = e.
Proof. induction e as [|d e IHe]; [reflexivity|]. simpl. by rewrite IHe. Qed.

Lemma substring_append_r (s e : string) :
  String.substring (String.length s) (String.length e) (s +:+ e) = e.
Proof.
  induction s as [|c s IH].
  - change ("" +:+ e) with e. apply substring_all.
  - rewrite append_cons. simpl. exact IH.
Qed.

Lemma HasSuffix_append (s e : string) : strings.HasSuffix (s +:+ e) e = true.
Proof.
  unfold strings.HasSuffix. rewrite append_length.
  replace (String.length e <=? String.length s + String.length e)%nat
    with true by (symmetry; apply Nat.leb_le; lia).
  replace (String.length s + String.length e - String.length e)%nat
    with (String.length s) by lia.
  rewrite substring_append_r. apply String.eqb_refl.
Qed.

(** [FileWithExtension] returns a path that ends with the extension, with
    its dot, and applying it to its own result changes nothing: the
    extension is never added twice. *)
Theorem FileWithExtension_idempotent (g : CodeGenerator)
        (extension : string) :
  let dotted := if strings.HasPrefix extension "." then extension
                else "." +:+ extension in
  strings.HasSuffix (FileWithExtension g extension) dotted = true
  /\ FileWithExtension (setFile (FileWithExtension g extension) g) extension
     = FileWithExtension g extension.
Proof.
  intros dotted.
  assert (Hsuffix :
    strings.HasSuffix (FileWithExtension g extension) dotted = true).
  { unfold FileWithExtension. subst dotted.
    destruct (strings.HasPrefix extension "."); simpl negb; cbv iota.
    - destruct (strings.HasSuffix (File g) extension) eqn:Hs; [exact Hs|].
      apply HasSuffix_append.
    - destruct (strings.HasSuffix (File g) ("." +:+ extension)) eqn:Hs;
        [exact Hs|].
      apply HasSuffix_append. }
  split; [exact Hsuffix|].
  unfold FileWithExtension at 1. cbn [File setFile].
  subst dotted. destruct (strings.HasPrefix extension "."); simpl negb;
    cbv iota; by rewrite Hsuffix.
Qed.

(** ** Rules, bases and imports *)

Section RulesAndBases.
Context `{GoLib} `{XgenLib}.

(** For a base that is neither [string] nor one of the numeric types, a
    restriction with rules gives a tag without any of them: the tag is
    empty for a required field, and is [omitempty] alone, after [dive] for a
    slice, for an optional one. *)
Theorem tag_of_unsupported_base (base : string) (r : Restriction)
        (optional isSlice : bool) :
  base <> "string" ->
  isNumericGoType base = false ->
  hasRestrictions r = true ->
  buildValidateTag base (Some r) optional isSlice
  = if optional then (if isSlice then "dive,omitempty" else "omitempty")
    else "".
Proof.
  intros Hstring Hnumeric Hhas. apply String.eqb_neq in Hstring.
  unfold buildValidateTag, tagRules.
  rewrite Hhas, Hstring, Hnumeric.
  destruct optional, isSlice; reflexivity.
Qed.

(** For the same bases the [Validate] method of a simple type is emitted
    and checks nothing: its body is [return nil], and no import is asked
    for. *)
Theorem validator_of_unsupported_base (typeName base : string)
        (r : Restriction) (w : World) :
  base <> "string" ->
  isNumericGoType base = false ->
  hasRestrictions r = true ->
  generateSimpleTypeValidator typeName base (Some r) w
  = (tt,
     mkWorld
       (setField
          (Field (gen w)
           +:+ (NL +:+ "func (v " +:+ typeName +:+ ") Validate() error {"
                +:+ NL +:+ TAB +:+ "return nil" +:+ NL +:+ "}")
           +:+ NL)
          (gen w))
       (fieldNameCount w)).
Proof.
  intros Hstring Hnumeric Hhas. apply String.eqb_neq in Hstring.
  unfold generateSimpleTypeValidator, simpleValidatorBody, simpleNeedsFmt.
  rewrite Hhas, Hstring, Hnumeric. reflexivity.
Qed.

(** An exact length takes the place of the bounds on the length: with
    [HasLength] the tag of a [string] base has the rule [len=] and no rule
    [min=] or [max=], and the method compares the length with [!=]
    only. *)
Theorem exact_length_replaces_bounds (r : Restriction)
        (optional isSlice : bool) (varExpr subject : string) :
  HasLength r = true ->
  "len=" +:+ FormatD (Length r) ∈ emittedRules "string" r optional isSlice
  /\ Forall (fun rule => strings.HasPrefix rule "min=" = false
                         /\ strings.HasPrefix rule "max=" = false)
            (emittedRules "string" r optional isSlice)
  /\ lengthChecks varExpr subject r
     = TAB +:+ "if len(string(" +:+ varExpr +:+ ")) != "
       +:+ FormatD (Length r) +:+ " { return fmt.Errorf(" +:+ DQ +:+ subject
       +:+ " length must be exactly " +:+ FormatD (Length r) +:+ DQ +:+ ") }"
       +:+ NL.
Proof.
  intros Hlen.
  assert (Hhas : hasRestrictions r = true).
  { unfold hasRestrictions. rewrite Hlen. by rewrite !orb_true_r. }
  split; [|split].
  - unfold emittedRules. rewrite Hhas. simpl negb. cbv iota.
    assert (Hin : "len=" +:+ FormatD (Length r)
                    ∈ tagRules "string" r optional).
    { unfold tagRules, stringRules. rewrite Hlen. simpl String.eqb.
      cbv iota. apply elem_of_app. right. apply elem_of_app. left.
      apply elem_of_app. left. by apply list_elem_of_singleton. }
    destruct (tagRules "string" r optional) as [|x l] eqn:Hrules.
    + by apply elem_of_nil in Hin.
    + simpl. destruct isSlice; [by apply elem_of_cons; right|done].
  - apply Forall_forall. intros rule Hin. unfold emittedRules in Hin.
    rewrite Hhas in Hin. simpl negb in Hin. cbv iota in Hin.
    destruct (length (tagRules "string" r optional) =? 0)%nat;
      [by apply elem_of_nil in Hin|].
    assert (Hcases : rule = "dive" \/ rule ∈ tagRules "string" r optional).
    { destruct isSlice; [|by right].
      apply elem_of_cons in Hin as [->|Hin']; [by left|by right]. }
    destruct Hcases as [->|Hrule]; [by split|].
    unfold tagRules in Hrule.
    apply elem_of_app in Hrule as [Hopt|Hrule].
    { destruct optional; [|by apply elem_of_nil in Hopt].
      apply list_elem_of_singleton in Hopt. by subst. }
    apply elem_of_app in Hrule as [Hstr|Hnum].
    + simpl String.eqb in Hstr. cbv iota in Hstr.
      unfold stringRules in Hstr. rewrite Hlen in Hstr.
      apply elem_of_app in Hstr as [Hl|Hstr].
      { apply list_elem_of_singleton in Hl. by subst. }
      apply elem_of_app in Hstr as [Hp|He].
      * destruct (negb (String.eqb (PatternStr r) ""));
          [|by apply elem_of_nil in Hp].
        apply list_elem_of_singleton in Hp. by subst.
      * destruct (0 <? length (Enum r))%nat; [|by apply elem_of_nil in He].
        destruct (enumValsLoop (Enum r) []) as [[] vals];
          [|by apply elem_of_nil in He].
        apply list_elem_of_singleton in He. by subst.
    + change (isNumericGoType "string") with false in Hnum.
      by apply elem_of_nil in Hnum.
  - unfold lengthChecks. by rewrite Hlen.
Qed.

End RulesAndBases.

Section NoRule.
Context `{GoLib} `{XgenLib}.

(** A restriction without any rule leaves no trace in the output: no
    tag, so that the field has its [xml] key alone, no [Validate] method
    for a simple type, and no check in the method of a complex type. *)
Theorem no_rule_no_output (base typeName varExpr xmlPart : string)
        (r : Restriction) (optional isSlice : bool) (w : World) :
  hasRestrictions r = false ->
  buildValidateTag base (Some r) optional isSlice = ""
  /\ fieldTag xmlPart (buildValidateTag base (Some r) optional isSlice)
     = "xml:" +:+ DQ +:+ xmlPart +:+ DQ
  /\ generateSimpleTypeValidator typeName base (Some r) w = (tt, w)
  /\ generateRestrictionChecks varExpr base typeName r w = ("", w).
Proof.
  intros Hhas.
  assert (Htag : buildValidateTag base (Some r) optional isSlice = "").
  { unfold buildValidateTag. by rewrite Hhas. }
  split; [exact Htag|]. split; [by rewrite Htag|].
  split; [by apply generateSimpleTypeValidator_none|].
  unfold hasRestrictions in Hhas.
  repeat (apply orb_false_elim in Hhas as [Hhas ?]).
  unfold generateRestrictionChecks, lengthChecks.
  repeat match goal with
         | Hb : _ = false |- _ => rewrite Hb; clear Hb
         end.
  rewrite andb_false_r.
  destruct (String.eqb base "string"), (isNumericGoType base); reflexivity.
Qed.

(** A method that refers to [fmt] or to [regexp] asks for the import: the
    method of a simple type with a check in it sets [ImportFmt], with a
    pattern check it sets [ImportRegexp] too; the method of a complex type
    sets [ImportFmt]. *)
Theorem validators_ask_for_imports (typeName base : string)
        (r : Restriction) (v : ComplexType.t) (w : World) :
  let ws := (generateSimpleTypeValidator typeName base (Some r) w).2 in
  let wc := (generateComplexTypeValidator typeName v w).2 in
  (hasRestrictions r = true ->
   simpleValidatorBody typeName base r <> "" ->
   ImportFmt (gen ws) = true)
  /\ (base = "string" -> PatternStr r <> "" ->
      ImportRegexp (gen ws) = true /\ ImportFmt (gen ws) = true)
  /\ (anyInlineRestriction v = true -> ImportFmt (gen wc) = true).
Proof.
  intros ws wc.
  assert (Hbody : simpleNeedsFmt base r = false ->
                  simpleValidatorBody typeName base r = "").
  { unfold simpleNeedsFmt, simpleValidatorBody, lengthChecks.
    destruct (String.eqb base "string"), (isNumericGoType base),
      (HasLength r), (HasMinLength r), (HasMaxLength r),
      (negb (String.eqb (PatternStr r) "")), (0 <? length (Enum r))%nat,
      (HasMin r), (HasMax r); simpl; intros Hneeds;
      first [discriminate Hneeds|reflexivity]. }
  assert (Hfmt : hasRestrictions r = true ->
                 simpleNeedsFmt base r = true -> ImportFmt (gen ws) = true).
  { intros Hhas Hneeds. subst ws.
    unfold generateSimpleTypeValidator. rewrite Hhas, Hneeds.
    unfold mbind, M_bind. change (negb true) with false. cbv beta iota.
    match goal with
    | |- context [when ?b ?m w] => destruct (when b m w) as [u w1]
    end.
    reflexivity. }
  split; [|split].
  - intros Hhas Hne. apply Hfmt; [exact Hhas|].
    destruct (simpleNeedsFmt base r); [reflexivity|].
    destruct Hne. by apply Hbody.
  - intros -> Hp. apply String.eqb_neq in Hp.
    assert (Hhas : hasRestrictions r = true).
    { unfold hasRestrictions. rewrite Hp. simpl.
      by rewrite orb_true_r. }
    split.
    + subst ws. unfold generateSimpleTypeValidator. rewrite Hhas, Hp.
      simpl. by destruct (simpleNeedsFmt "string" r).
    + apply Hfmt; [exact Hhas|].
      unfold simpleNeedsFmt. rewrite Hp. simpl.
      by destruct (HasLength r), (HasMinLength r), (HasMaxLength r).
  - intros Hany. subst wc. unfold generateComplexTypeValidator.
    rewrite Hany. change (negb true) with false. cbv iota.
    unfold mbind at 1. unfold M_bind at 1. cbv beta.
    change (modifyGen (setImportFmt true) w)
      with (tt, mkWorld (setImportFmt true (gen w)) (fieldNameCount w)).
    cbv beta iota.
    match goal with
    | |- ImportFmt (gen (?m ?w1).2) = true =>
        assert (Hext : extending m); [|exact (ext_ImportFmt _ _ (Hext w1)
                                                eq_refl)]
    end.
    unfold attributeChecks, elementChecks. extending_tac.
Qed.

End NoRule.

(** The base [time.Time], which is neither [string] nor numeric, with a
    pattern; and the exact length of the state code. *)
Lemma tag_of_unsupported_base_witness :
  let lib := Env.goLib Env.accept in
  buildValidateTag "time.Time" (Some (patternOnly "[0-9]+")) true true
  = "dive,omitempty".
Proof.
  intros lib.
  exact (tag_of_unsupported_base "time.Time" (patternOnly "[0-9]+") true true
           ltac:(discriminate) eq_refl eq_refl).
Defined.

Lemma validator_of_unsupported_base_witness :
  let lib := Env.goLib Env.accept in
  generateSimpleTypeValidator "TStamp" "time.Time"
    (Some (patternOnly "[0-9]+")) (freshWorld "out" [])
  = (tt,
     mkWorld
       (setField
          (Field (freshGen "out" [])
           +:+ (NL +:+ "func (v " +:+ "TStamp" +:+ ") Validate() error {"
                +:+ NL +:+ TAB +:+ "return nil" +:+ NL +:+ "}")
           +:+ NL)
          (freshGen "out" []))
       ∅).
Proof.
  intros lib.
  exact (validator_of_unsupported_base "TStamp" "time.Time"
           (patternOnly "[0-9]+") (freshWorld "out" [])
           ltac:(discriminate) eq_refl eq_refl).
Defined.

Lemma exact_length_replaces_bounds_witness :
  let lib := Env.goLib Env.accept in
  "len=" +:+ FormatD 2
    ∈ emittedRules "string" Scenario.stateCodeRules false false
  /\ Forall (fun rule => strings.HasPrefix rule "min=" = false
                         /\ strings.HasPrefix rule "max=" = false)
            (emittedRules "string" Scenario.stateCodeRules false false).
Proof.
  intros lib.
  destruct (exact_length_replaces_bounds Scenario.stateCodeRules false false
              "v" "TStateCode" eq_refl) as (Hin & Hall & _).
  split; [exact Hin|exact Hall].
Defined.

Lemma no_rule_no_output_witness :
  let lib := Env.goLib Env.accept in
  buildValidateTag "string" (Some emptyRestriction) true false = ""
  /\ generateSimpleTypeValidator "TName" "string" (Some emptyRestriction)
       (freshWorld "out" [])
     = (tt, freshWorld "out" []).
Proof.
  intros lib.
  destruct (no_rule_no_output "string" "TName" "v" "name" emptyRestriction
              true false (freshWorld "out" []) eq_refl)
    as (Htag & _ & Hnone & _).
  split; [exact Htag|exact Hnone].
Defined.

Lemma validators_ask_for_imports_witness :
  let lib := Env.goLib Env.accept in
  let xlib := Env.xgenLib in
  let w := freshWorld "out" [] in
  ImportFmt
    (gen (generateSimpleTypeValidator "TStateCode" "string"
            (Some Scenario.stateCodeRules) w).2) = true
  /\ ImportRegexp
       (gen (generateSimpleTypeValidator "TZip" "string"
               (Some (patternOnly "[0-9]{5}")) w).2) = true
  /\ ImportFmt
       (gen (generateComplexTypeValidator "Contact" Scenario.contact w).2)
     = true.
Proof.
  intros lib xlib w.
  destruct (validators_ask_for_imports "TStateCode" "string"
              Scenario.stateCodeRules Scenario.contact w)
    as (Hfmt & _ & Hcomplex).
  destruct (validators_ask_for_imports "TZip" "string"
              (patternOnly "[0-9]{5}") Scenario.contact w)
    as (_ & Hregexp & _).
  split; [apply Hfmt; [reflexivity|vm_compute; discriminate]|].
  split; [exact (proj1 (Hregexp eq_refl ltac:(discriminate)))|].
  exact (Hcomplex eq_refl).
Defined.

(** * Further properties of the parser *)

(** ** Facets *)

Section FacetProperties.
Context `{GoLib} `{ParserLib}.

Lemma onTopSimpleType_id f opt :
  (forall r, f r = r) -> onTopSimpleType (updRestriction f) opt = opt.
Proof.
  intros Hf. unfold onTopSimpleType.
  destruct opt as [lang inEle cur union sts cts es attrs tree]. simpl.
  destruct sts as [|st rest]; [reflexivity|].
  unfold updRestriction. rewrite Hf. by destruct st.
Qed.

Lemma onTopSimpleType_ext f g opt :
  (forall r, f r = g r) ->
  onTopSimpleType (updRestriction f) opt
  = onTopSimpleType (updRestriction g) opt.
Proof.
  intros Hfg. unfold onTopSimpleType, updRestriction.
  destruct (Options.SimpleType opt) as [|st rest]; [reflexivity|].
  by rewrite Hfg.
Qed.

Lemma onTopSimpleType_compose f g opt :
  onTopSimpleType (updRestriction g) (onTopSimpleType (updRestriction f) opt)
  = onTopSimpleType (updRestriction (fun r => g (f r))) opt.
Proof.
  unfold onTopSimpleType.
  destruct (Options.SimpleType opt) as [|st rest] eqn:Hstack; simpl.
  - by rewrite Hstack.
  - reflexivity.
Qed.

(** A loop over the attributes whose step writes the restriction of the
    open simple type writes it once, with the steps composed. *)
Lemma onValueAttrs_recordAll k step ele opt :
  (forall v o,
      step v o = onTopSimpleType (updRestriction (recordValue k v)) o) ->
  onValueAttrs step ele opt
  = onTopSimpleType (updRestriction (recordAll k ele)) opt.
Proof.
  intros Hstep. unfold onValueAttrs, recordAll.
  rewrite <- (onTopSimpleType_id (fun r => r) opt) at 1 by done.
  assert (Hloop : forall attrs f0,
             foldl (fun o attr =>
                      if String.eqb (xml.Local (xml.AttrName attr)) "value"
                      then step (xml.Value attr) o else o)
                   (onTopSimpleType (updRestriction f0) opt) attrs
             = onTopSimpleType
                 (updRestriction
                    (fun r =>
                       foldl (fun r attr =>
                                if String.eqb (xml.Local (xml.AttrName attr))
                                              "value"
                                then recordValue k (xml.Value attr) r
                                else r)
                             (f0 r) attrs))
                 opt).
  { induction attrs as [|attr rest IH]; intros f0; simpl.
    - reflexivity.
    - destruct (String.eqb (xml.Local (xml.AttrName attr)) "value").
      + rewrite Hstep, onTopSimpleType_compose. apply IH.
      + apply IH. }
  apply Hloop.
Qed.

Lemma onFacet_recordAll k ele protoTree opt :
  onFacet k ele protoTree opt
  = (onTopSimpleType (updRestriction (recordAll k ele)) opt, None).
Proof.
  destruct k; simpl.
  - unfold OnMinInclusive. f_equal.
    apply (onValueAttrs_recordAll Facet.MinInclusive).
    intros v o. destruct (ParseFloat v) eqn:Hparse.
    + apply onTopSimpleType_ext. intros r. simpl. by rewrite Hparse.
    + symmetry. apply onTopSimpleType_id. intros r. simpl.
      by rewrite Hparse.
  - unfold OnMaxInclusive. f_equal.
    apply (onValueAttrs_recordAll Facet.MaxInclusive).
    intros v o. destruct (ParseFloat v) eqn:Hparse.
    + apply onTopSimpleType_ext. intros r. simpl. by rewrite Hparse.
    + symmetry. apply onTopSimpleType_id. intros r. simpl.
      by rewrite Hparse.
  - unfold OnMinLength. f_equal.
    apply (onValueAttrs_recordAll Facet.MinLength).
    intros v o. destruct (Atoi v) eqn:Hparse.
    + apply onTopSimpleType_ext. intros r. simpl. by rewrite Hparse.
    + symmetry. apply onTopSimpleType_id. intros r. simpl.
      by rewrite Hparse.
  - unfold OnMaxLength. f_equal.
    apply (onValueAttrs_recordAll Facet.MaxLength).
    intros v o. destruct (Atoi v) eqn:Hparse.
    + apply onTopSimpleType_ext. intros r. simpl. by rewrite Hparse.
    + symmetry. apply onTopSimpleType_id. intros r. simpl.
      by rewrite Hparse.
  - unfold OnPattern. f_equal.
    apply (onValueAttrs_recordAll Facet.Pattern).
    intros v o. reflexivity.
Qed.

Lemma recordValue_commute k1 k2 v1 v2 r :
  k1 <> k2 ->
  recordValue k1 v1 (recordValue k2 v2 r)
  = recordValue k2 v2 (recordValue k1 v1 r).
Proof.
  intros Hk.
  destruct k1, k2; try (by destruct Hk); simpl;
    repeat match goal with
           | |- context [match ?x with _ => _ end] => destruct x
           end;
    reflexivity.
Qed.

Lemma recordAll_recordValue_commute k1 k2 ele v r :
  k1 <> k2 ->
  recordAll k1 ele (recordValue k2 v r)
  = recordValue k2 v (recordAll k1 ele r).
Proof.
  intros Hk. unfold recordAll. revert r.
  induction (xml.Attr_ ele) as [|attr rest IH]; intros r; simpl.
  - reflexivity.
  - destruct (String.eqb (xml.Local (xml.AttrName attr)) "value").
    + by rewrite (recordValue_commute k1 k2), IH.
    + apply IH.
Qed.

Lemma recordAll_commute k1 k2 e1 e2 r :
  k1 <> k2 ->
  recordAll k2 e2 (recordAll k1 e1 r) = recordAll k1 e1 (recordAll k2 e2 r).
Proof.
  intros Hk. unfold recordAll at 1 4. revert r.
  induction (xml.Attr_ e2) as [|attr rest IH]; intros r; simpl.
  - reflexivity.
  - destruct (String.eqb (xml.Local (xml.AttrName attr)) "value").
    + by rewrite <- IH, (recordAll_recordValue_commute k1 k2).
    + apply IH.
Qed.

Lemma recordValue_again k v v' r :
  accepted k v ->
  recordValue k v (recordValue k v' r) = recordValue k v r.
Proof.
  destruct k; simpl; intros Hv;
    try match type of Hv with
        | is_Some _ => destruct Hv as [x Hx]; rewrite Hx
        end;
    repeat match goal with
           | |- context [match ?x with _ => _ end] => destruct x
           end;
    reflexivity.
Qed.

Lemma recordValue_refused k v r :
  ~ accepted k v -> recordValue k v r = r.
Proof.
  destruct k; simpl; intros Hv;
    repeat match goal with
           | |- context [match ?x with _ => _ end] =>
               destruct x eqn:?
           end;
    first [reflexivity|by destruct Hv].
Qed.

Lemma accepted_dec k v : accepted k v \/ ~ accepted k v.
Proof.
  destruct k; simpl;
    first [by left
          |destruct (ParseFloat v); [left; by eexists|right; by intros [? ?]]
          |destruct (Atoi v); [left; by eexists|right; by intros [? ?]]].
Qed.

Lemma recordAll_again_value k ele v' r :
  (exists attr, attr ∈ xml.Attr_ ele
                /\ xml.Local (xml.AttrName attr) = "value"
                /\ accepted k (xml.Value attr)) ->
  recordAll k ele (recordValue k v' r) = recordAll k ele r.
Proof.
  unfold recordAll. revert r.
  induction (xml.Attr_ ele) as [|attr rest IH]; intros r Hex.
  - destruct Hex as (attr & Hin & _). by apply elem_of_nil in Hin.
  - simpl.
    destruct (String.eqb (xml.Local (xml.AttrName attr)) "value") eqn:Hname.
    + destruct (accepted_dec k (xml.Value attr)) as [Hacc|Hacc].
      * by rewrite recordValue_again.
      * rewrite !(recordValue_refused k (xml.Value attr)) by done.
        apply IH. destruct Hex as (a & Hin & Hn & Ha).
        apply elem_of_cons in Hin as [->|Hin]; [done|by exists a].
    + apply IH. destruct Hex as (a & Hin & Hn & Ha).
      apply elem_of_cons in Hin as [->|Hin]; [|by exists a].
      rewrite Hn in Hname. discriminate.
Qed.

Lemma recordAll_again k e1 e2 r :
  (exists attr, attr ∈ xml.Attr_ e2
                /\ xml.Local (xml.AttrName attr) = "value"
                /\ accepted k (xml.Value attr)) ->
  recordAll k e2 (recordAll k e1 r) = recordAll k e2 r.
Proof.
  intros Hex. unfold recordAll at 2. revert r.
  induction (xml.Attr_ e1) as [|attr rest IH]; intros r; simpl.
  - reflexivity.
  - rewrite IH.
    destruct (String.eqb (xml.Local (xml.AttrName attr)) "value");
      [by apply recordAll_again_value|reflexivity].
Qed.

(** A facet handler returns no error and writes nothing but the
    restriction of the open simple type: the name and the base of that
    simple type, the simple types below it, the other stacks, the tree and
    the flags of the parse are as before. *)
Theorem facet_changes_restriction_only (k : Facet.t)
        (ele : xml.StartElement) (protoTree : list ProtoEntry)
        (opt : Options.t) :
  let opt' := (onFacet k ele protoTree opt).1 in
  (onFacet k ele protoTree opt).2 = None
  /\ Options.setSimpleType (Options.SimpleType opt) opt' = opt
  /\ match Options.SimpleType opt with
     | [] => Options.SimpleType opt' = []
     | st :: rest =>
         Options.SimpleType opt'
         = SimpleType.setRestriction
             (recordAll k ele (SimpleType.Restriction st)) st :: rest
     end.
Proof.
  rewrite onFacet_recordAll. simpl. split; [reflexivity|].
  unfold onTopSimpleType.
  destruct opt as [lang inEle cur union sts cts es attrs tree]. simpl.
  by destruct sts as [|st rest].
Qed.

(** Facets of different kinds commute: the state after two of them does
    not depend on the order in which the two elements are met. *)
Theorem facets_commute (k1 k2 : Facet.t) (e1 e2 : xml.StartElement)
        (p1 p2 : list ProtoEntry) (opt : Options.t) :
  k1 <> k2 ->
  onFacet k2 e2 p2 (onFacet k1 e1 p1 opt).1
  = onFacet k1 e1 p1 (onFacet k2 e2 p2 opt).1.
Proof.
  intros Hk. rewrite !onFacet_recordAll. simpl.
  rewrite !onTopSimpleType_compose. f_equal.
  apply onTopSimpleType_ext. intros r. by apply recordAll_commute.
Qed.

(** A facet met a second time replaces the first: when the second
    element has a value that its handler takes, the state is the one the
    second element alone leaves.  Two [pattern] facets are not both kept. *)
Theorem facet_met_again_replaces (k : Facet.t) (e1 e2 : xml.StartElement)
        (p1 p2 : list ProtoEntry) (opt : Options.t) :
  (exists attr, attr ∈ xml.Attr_ e2
                /\ xml.Local (xml.AttrName attr) = "value"
                /\ accepted k (xml.Value attr)) ->
  onFacet k e2 p2 (onFacet k e1 p1 opt).1 = onFacet k e2 p2 opt.
Proof.
  intros Hex. rewrite !onFacet_recordAll. simpl.
  rewrite onTopSimpleType_compose. f_equal.
  apply onTopSimpleType_ext. intros r. by apply recordAll_again.
Qed.

End FacetProperties.

(** [minLength] and [pattern] in the two orders, and two patterns in a
    row. *)
Lemma facets_commute_witness :
  let lib := Env.goLib Env.accept in
  let plib := Env.parserLib in
  onFacet Facet.Pattern (Events.facet "pattern" "[A-Z]+") []
    (onFacet Facet.MinLength (Events.facet "minLength" "2") []
       Events.inSimpleType).1
  = onFacet Facet.MinLength (Events.facet "minLength" "2") []
      (onFacet Facet.Pattern (Events.facet "pattern" "[A-Z]+") []
         Events.inSimpleType).1.
Proof.
  intros lib plib.
  exact (facets_commute Facet.MinLength Facet.Pattern
           (Events.facet "minLength" "2") (Events.facet "pattern" "[A-Z]+")
           [] [] Events.inSimpleType ltac:(discriminate)).
Defined.

Lemma facet_met_again_replaces_witness :
  let lib := Env.goLib Env.accept in
  let plib := Env.parserLib in
  onFacet Facet.Pattern (Events.facet "pattern" "[0-9]+") []
    (onFacet Facet.Pattern (Events.facet "pattern" "[A-Z]+") []
       Events.inSimpleType).1
  = onFacet Facet.Pattern (Events.facet "pattern" "[0-9]+") []
      Events.inSimpleType.
Proof.
  intros lib plib.
  apply (facet_met_again_replaces Facet.Pattern
           (Events.facet "pattern" "[A-Z]+")
           (Events.facet "pattern" "[0-9]+") [] [] Events.inSimpleType).
  exists (Events.valueAttr "[0-9]+").
  split; [apply list_elem_of_singleton; reflexivity|].
  split; [reflexivity|exact I].
Defined.

(** ** A simple type from its start to its end *)

Section RoundTrip.
Context `{GoLib} `{ParserLib}.

Lemma onFacets_recordFacets fs protoTree opt :
  onFacets fs protoTree opt
  = onTopSimpleType (updRestriction (recordFacets fs)) opt.
Proof.
  unfold onFacets, recordFacets.
  rewrite <- (onTopSimpleType_id (fun r => r) opt) at 1 by done.
  assert (Hloop : forall fs f0,
             foldl (fun o f => (onFacet f.1 f.2 protoTree o).1)
                   (onTopSimpleType (updRestriction f0) opt) fs
             = onTopSimpleType
                 (updRestriction
                    (fun r => foldl (fun r f => recordAll f.1 f.2 r)
                                    (f0 r) fs))
                 opt).
  { clear fs. induction fs as [|f rest IH]; intros f0; simpl.
    - reflexivity.
    - rewrite onFacet_recordAll. simpl.
      rewrite onTopSimpleType_compose. apply IH. }
  apply Hloop.
Qed.

(** A simple type met outside any attribute, element and union, from
    [<simpleType name=..>] over [<restriction base=..>] and its facets to
    the two closing tags: the tree gets one more entry, the simple type
    with that name, the resolved base and the restriction the facets
    leave on an empty one; the stack of simple types is as it was before,
    and [CurrentEle] is empty. *)
Theorem named_simpleType_round_trip
        (tagS tagR : xml.Name) (spaceN spaceB n b ty : string)
        (closeR closeS : xml.EndElement)
        (fs : list (Facet.t * xml.StartElement))
        (protoTree : list ProtoEntry) (opt : Options.t) :
  Options.Attribute opt = [] ->
  Options.Element opt = [] ->
  Options.InUnion opt = false ->
  let o1 := (OnSimpleType (startWith tagS spaceN "name" n) protoTree opt).1 in
  GetValueType o1 b protoTree = (ty, None) ->
  let o2 := (OnRestriction (startWith tagR spaceB "base" b) protoTree o1).1 in
  let o3 := onFacets fs protoTree o2 in
  let o4 := (EndRestriction closeR protoTree o3).1 in
  EndSimpleType closeS protoTree o4
  = (Options.setCurrentEle ""
       (Options.setProtoTree
          (Options.ProtoTree opt
           ++ [PSimpleType
                 (SimpleType.mk "" n ty false false ∅
                    (recordFacets fs emptyRestriction))])
          opt),
     None).
Proof.
  destruct opt as [lang inEle cur union sts cts es attrs tree].
  intros Hattrs Hels Hunion o1 Hresolve o2 o3 o4.
  simpl in Hattrs, Hels, Hunion. subst attrs es union.
  subst o4 o3 o2. rewrite onFacets_recordFacets.
  assert (Ho1 : o1 = Options.mk lang inEle inEle false
                       (SimpleType.setName n SimpleType.zero :: sts)
                       cts [] [] tree) by reflexivity.
  rewrite Ho1 in Hresolve |- *. clear Ho1 o1.
  unfold OnRestriction, startWith. cbn [xml.Attr_ xml.Local xml.AttrName
                                         xml.Value].
  change (String.eqb "base" "base") with true. cbv iota.
  rewrite Hresolve. reflexivity.
Qed.

(** An element with an inline simple type, while no other simple type
    is open: at the end of the restriction the element has the type that
    the resolver gives for the resolved base (the base is resolved
    twice) and the restriction the facets leave on an empty one, its
    copy at the end of the enclosing complex type is replaced, nothing
    is left on the stack of simple types and the tree is as before; the
    closing [</simpleType>] then finds nothing to do. *)
Theorem inline_simpleType_round_trip
        (tagS tagR : xml.Name) (spaceB b ty ty' : string)
        (closeR closeS : xml.EndElement)
        (fs : list (Facet.t * xml.StartElement))
        (protoTree : list ProtoEntry) (opt : Options.t)
        (e : Element.t) (es : list Element.t) :
  Options.SimpleType opt = [] ->
  Options.Attribute opt = [] ->
  Options.Element opt = e :: es ->
  let o1 := (OnSimpleType (xml.mkStart tagS []) protoTree opt).1 in
  GetValueType o1 b protoTree = (ty, None) ->
  GetValueType opt ty (Options.ProtoTree opt) = (ty', None) ->
  let o2 := (OnRestriction (startWith tagR spaceB "base" b) protoTree o1).1 in
  let o3 := onFacets fs protoTree o2 in
  let o4 := (EndRestriction closeR protoTree o3).1 in
  let e' := Element.setRestriction (recordFacets fs emptyRestriction)
              (Element.setType ty' e) in
  let enclosing :=
    match Options.ComplexType opt with
    | ct :: cts =>
        if (0 <? length (ComplexType.Elements ct))%nat
        then ComplexType.setElements (setLast e' (ComplexType.Elements ct)) ct
             :: cts
        else ct :: cts
    | [] => []
    end in
  o4 = Options.setCurrentEle ""
         (Options.setComplexType enclosing
            (Options.setElement (e' :: es) opt))
  /\ EndSimpleType closeS protoTree o4 = (o4, None).
Proof.
  destruct opt as [lang inEle cur union sts cts els attrs tree].
  intros Hstack Hattrs Hels o1 Hresolve Hresolve' o2 o3 o4 e' enclosing.
  simpl in Hstack, Hattrs, Hels, Hresolve'. subst sts attrs els.
  subst o4 o3 o2. rewrite onFacets_recordFacets.
  assert (Ho1 : o1 = Options.mk lang inEle cur union [SimpleType.zero]
                       cts (e :: es) [] tree) by reflexivity.
  rewrite Ho1 in Hresolve |- *. clear Ho1 o1.
  unfold OnRestriction, startWith. cbn [xml.Attr_ xml.Local xml.AttrName
                                         xml.Value].
  change (String.eqb "base" "base") with true. cbv iota.
  rewrite Hresolve.
  unfold EndRestriction, onTopSimpleType. cbn -[recordFacets setLast].
  unfold Options.setSimpleType. cbn -[recordFacets setLast].
  rewrite Hresolve'.
  subst enclosing e'.
  unfold EndSimpleType, onTopElement, Options.setCurrentEle,
    Options.setComplexType, Options.setElement.
  destruct cts as [|ct cts']; cbn -[recordFacets setLast];
    [done|].
  destruct (ComplexType.Elements ct) as [|x xs]; cbn -[recordFacets setLast];
    done.
Qed.

(** [OnRestriction] stops at the first [base] that the resolver refuses:
    it returns the error of the resolver and leaves the state as it
    is. *)
Theorem OnRestriction_resolver_error (tag : xml.Name)
        (pre post : list xml.Attr) (attr : xml.Attr)
        (protoTree : list ProtoEntry) (opt : Options.t)
        (ty : string) (e : error) :
  Forall (fun a => xml.Local (xml.AttrName a) <> "base") pre ->
  xml.Local (xml.AttrName attr) = "base" ->
  GetValueType opt (xml.Value attr) protoTree = (ty, Some e) ->
  OnRestriction (xml.mkStart tag (pre ++ attr :: post)) protoTree opt
  = (opt, Some e).
Proof.
  intros Hpre Hname Hresolve. unfold OnRestriction. simpl.
  induction Hpre as [|a pre Ha Hpre IH]; simpl.
  - by rewrite Hname, Hresolve.
  - apply String.eqb_neq in Ha. by rewrite Ha.
Qed.

(** [EndRestriction] with a base that the resolver refuses: the simple
    type is popped and the open attribute, or else the open element, has
    its type overwritten with what the resolver returned beside the
    error; its restriction and [CurrentEle] are as before, and the error
    is returned. *)
Theorem EndRestriction_resolver_error (ele : xml.EndElement)
        (protoTree : list ProtoEntry) (opt : Options.t)
        (st : SimpleType.t) (rest : list SimpleType.t)
        (ty : string) (e : error) :
  Options.SimpleType opt = st :: rest ->
  GetValueType (Options.setSimpleType rest opt) (SimpleType.Base st)
               (Options.ProtoTree opt) = (ty, Some e) ->
  (forall a attrs,
      Options.Attribute opt = a :: attrs ->
      EndRestriction ele protoTree opt
      = (Options.setAttribute (Attribute.setType ty a :: attrs)
           (Options.setSimpleType rest opt),
         Some e))
  /\ (forall el els,
        Options.Attribute opt = [] ->
        Options.Element opt = el :: els ->
        EndRestriction ele protoTree opt
        = (Options.setElement (Element.setType ty el :: els)
             (Options.setSimpleType rest opt),
           Some e)).
Proof.
  intros Hstack Hresolve. unfold EndRestriction. rewrite Hstack.
  split.
  - intros a attrs Hattrs. rewrite Hattrs. simpl.
    simpl in Hresolve. rewrite Hresolve.
    unfold onTopAttribute. simpl. by rewrite Hattrs.
  - intros el els Hattrs Hels. rewrite Hattrs, Hels. simpl.
    simpl in Hresolve. rewrite Hresolve.
    unfold onTopElement. simpl. by rewrite Hels.
Qed.

(** While a union is read, the end of a simple type that is named, or
    that is met outside any attribute and element, leaves the whole state
    as it is: the simple type stays on the stack. *)
Theorem EndSimpleType_in_union (ele : xml.EndElement)
        (protoTree : list ProtoEntry) (opt : Options.t)
        (st : SimpleType.t) (rest : list SimpleType.t) :
  Options.SimpleType opt = st :: rest ->
  Options.InUnion opt = true ->
  SimpleType.Name st <> ""
  \/ (Options.Attribute opt = [] /\ Options.Element opt = []) ->
  EndSimpleType ele protoTree opt = (opt, None).
Proof.
  intros Hstack Hunion Hcase. unfold EndSimpleType.
  rewrite Hstack, Hunion.
  destruct Hcase as [Hname|[Hattrs Hels]].
  - apply String.eqb_neq in Hname. by rewrite Hname, !andb_false_r.
  - by rewrite Hattrs, Hels.
Qed.

End RoundTrip.

(** The simple type [tZip] at the top of a schema, and the element [zip]
    with the same rules inline, inside the complex type [address]. *)
Lemma named_simpleType_round_trip_witness :
  let lib := Env.goLib Env.accept in
  let plib := Env.parserLib in
  let tag := xml.mkName "" "simpleType" in
  let fs := [(Facet.Pattern, Events.facet "pattern" "[0-9]{5}")] in
  EndSimpleType (Events.closing "simpleType") []
    (EndRestriction (Events.closing "restriction") []
       (onFacets fs []
          (OnRestriction (startWith tag "" "base" "xs:string") []
             (OnSimpleType (startWith tag "" "name" "tZip") []
                           Events.idle).1).1)).1
  = (Options.setCurrentEle ""
       (Options.setProtoTree [PSimpleType Inline.tZip] Events.idle),
     None).
Proof.
  intros lib plib tag fs.
  exact (named_simpleType_round_trip tag tag "" "" "tZip" "xs:string"
           "string" (Events.closing "restriction")
           (Events.closing "simpleType") fs [] Events.idle
           eq_refl eq_refl eq_refl eq_refl).
Defined.

Lemma inline_simpleType_round_trip_witness :
  let lib := Env.goLib Env.accept in
  let plib := Env.parserLib in
  let tag := xml.mkName "" "simpleType" in
  let fs := [(Facet.Pattern, Events.facet "pattern" "[0-9]{5}")] in
  let zip' := Element.setRestriction (patternOnly "[0-9]{5}")
                (Element.setType "string" Inline.zip) in
  (EndRestriction (Events.closing "restriction") []
     (onFacets fs []
        (OnRestriction (startWith tag "" "base" "xs:string") []
           (OnSimpleType (xml.mkStart tag []) [] States.inElement).1).1)).1
  = Options.setCurrentEle ""
      (Options.setComplexType
         [ComplexType.setElements [Scenario.stateElement; zip']
                                  Scenario.address]
         (Options.setElement [zip'] States.inElement)).
Proof.
  intros lib plib tag fs zip'.
  exact (proj1 (inline_simpleType_round_trip tag tag "" "xs:string"
                  "string" "string" (Events.closing "restriction")
                  (Events.closing "simpleType") fs [] States.inElement
                  Inline.zip [] eq_refl eq_refl eq_refl eq_refl eq_refl)).
Defined.

(** A restriction whose base the resolver refuses, at its start and at
    its end. *)
Lemma OnRestriction_resolver_error_witness :
  let lib := Env.goLib Env.accept in
  let plib := Refusing.parserLib in
  OnRestriction
    (xml.mkStart (xml.mkName "" "restriction")
       [xml.mkAttr (xml.mkName "" "id") "r1";
        xml.mkAttr (xml.mkName "" "base") "tns:tZip"])
    [] Events.inSimpleType
  = (Events.inSimpleType, Some "unresolved").
Proof.
  intros lib plib.
  apply (OnRestriction_resolver_error (xml.mkName "" "restriction")
           [xml.mkAttr (xml.mkName "" "id") "r1"] []
           (xml.mkAttr (xml.mkName "" "base") "tns:tZip") []
           Events.inSimpleType "tns:tZip" "unresolved").
  - constructor; [discriminate|constructor].
  - reflexivity.
  - reflexivity.
Defined.

Lemma EndRestriction_resolver_error_witness :
  let lib := Env.goLib Env.accept in
  let plib := Refusing.parserLib in
  EndRestriction (Events.closing "restriction") [] States.inAttribute
  = (Options.setAttribute [Attribute.setType "xs:string" Scenario.nickname]
       (Options.setSimpleType [] States.inAttribute),
     Some "unresolved").
Proof.
  intros lib plib.
  exact (proj1 (EndRestriction_resolver_error
                  (Events.closing "restriction") [] States.inAttribute
                  Inline.zipType [] "xs:string" "unresolved"
                  eq_refl eq_refl)
           Scenario.nickname [] eq_refl).
Defined.

(** The end of the named member of a union. *)
Lemma EndSimpleType_in_union_witness :
  let lib := Env.goLib Env.accept in
  let plib := Env.parserLib in
  EndSimpleType (Events.closing "simpleType") [] States.inUnion
  = (States.inUnion, None).
Proof.
  intros lib plib.
  apply (EndSimpleType_in_union (Events.closing "simpleType") []
           States.inUnion Inline.tZip [] eq_refl eq_refl).
  left. discriminate.
Defined.

(** * Further properties of the emitter, continued *)

(** ** The safety net *)

Section SafetyNet.
Context `{GoLib} `{XgenLib}.

(** No token that passes the test of the scan is a key of
    [goBuildinType]: the test on built-in types in the loop never
    succeeds. *)
Lemma isCandidate_not_builtin tok :
  isCandidate tok = true -> isGoBuiltInType tok = false.
Proof.
  destruct tok as [|c0 [|c1 tok]]; simpl; try discriminate.
  intros Hc. apply andb_true_iff in Hc as [Hc _].
  apply Ascii.eqb_eq in Hc. subst c0.
  unfold isGoBuiltInType. apply bool_decide_eq_false. intros Hin.
  unfold goBuildinType in Hin.
  repeat (apply elem_of_cons in Hin as [Heq|Hin]; [discriminate Heq|]).
  by apply elem_of_nil in Hin.
Qed.

Lemma candidates_isCandidate tok field :
  tok ∈ candidates field -> isCandidate tok = true.
Proof.
  unfold candidates. rewrite elem_of_list_to_set, list_elem_of_filter.
  by intros [Hc _].
Qed.

Lemma forEach_keeps {A : Type} (Q : World -> Prop) (body : A -> M unit) xs :
  (forall y w, Q w -> Q (body y w).2) ->
  forall w, Q w -> Q (forEach xs body w).2.
Proof.
  intros Hkeep. induction xs as [|y rest IH]; intros w HQ; simpl.
  - exact HQ.
  - unfold mbind, M_bind. specialize (Hkeep y w HQ).
    destruct (body y w) as [u w']. by apply IH.
Qed.

Lemma forEach_reaches {A : Type} (Q : World -> Prop) (body : A -> M unit)
      xs x :
  (forall w, Q (body x w).2) ->
  (forall y w, Q w -> Q (body y w).2) ->
  x ∈ xs -> forall w, Q (forEach xs body w).2.
Proof.
  intros Hreach Hkeep. induction xs as [|y rest IH]; intros Hin w.
  - by apply elem_of_nil in Hin.
  - simpl. unfold mbind, M_bind.
    apply elem_of_cons in Hin as [<-|Hin].
    + specialize (Hreach w). destruct (body x w) as [u w'].
      by apply forEach_keeps.
    + destruct (body y w) as [u w']. by apply IH.
Qed.

(** After the safety net every identifier of the emitted text that looks
    like a type name is accounted for, in whatever order the map of
    candidates is ranged over: it was declared before, itself or with its
    first letter in lower case, under its XSD name or its Go name, or it
    is declared now, as [string]. *)
Theorem safety_net_declares_every_candidate
        (order : gset string -> list string) (w : World) (tok : string) :
  rangeOrder order ->
  tok ∈ candidates (Field (gen w)) ->
  let declared := declaredNames (StructAST (gen w)) in
  let g' := gen (ensureReferencedTypesDeclared order w).2 in
  tok ∈ declared \/ lowerFirst tok ∈ declared
  \/ StructAST g' !! tok = Some (" string" +:+ NL).
Proof.
  intros Horder Htok declared g'. subst g'.
  unfold ensureReferencedTypesDeclared, mbind, M_bind, getGen.
  fold declared.
  set (Q := fun w' : World =>
              tok ∈ declared \/ lowerFirst tok ∈ declared
              \/ StructAST (gen w') !! tok = Some (" string" +:+ NL)).
  change (Q (forEach (order (candidates (Field (gen w))))
                     (declareCandidate declared) w).2).
  apply forEach_reaches with tok.
  - intros w0. unfold Q, declareCandidate.
    fold (lowerFirst tok).
    destruct (bool_decide (tok ∈ declared)) eqn:Hd.
    { left. by apply bool_decide_eq_true in Hd. }
    destruct (bool_decide (lowerFirst tok ∈ declared)) eqn:Hl.
    { right; left. by apply bool_decide_eq_true in Hl. }
    rewrite (isCandidate_not_builtin tok)
      by (by apply candidates_isCandidate in Htok).
    right; right. simpl. unfold mbind, M_bind. simpl.
    destruct (negb _); simpl; apply lookup_insert_eq.
  - intros y w0 [Hd|[Hl|Hnow]]; [by left|by right; left|].
    right; right. unfold declareCandidate.
    destruct (_ || _); [exact Hnow|].
    destruct (isGoBuiltInType y); [exact Hnow|].
    simpl. unfold mbind, M_bind. simpl.
    assert (Hkeep : <[y := " string" +:+ NL]> (StructAST (gen w0)) !! tok
                    = Some (" string" +:+ NL)).
    { destruct (decide (y = tok)) as [->|Hne].
      - apply lookup_insert_eq.
      - by rewrite lookup_insert_ne. }
    destruct (negb _); simpl; exact Hkeep.
  - rewrite (Horder (candidates (Field (gen w)))).
    by apply elem_of_elements.
Qed.

End SafetyNet.

Lemma safety_net_declares_every_candidate_witness :
  let lib := Env.goLib Env.accept in
  let xlib := Env.xgenLib in
  let w := mkWorld
             (setField (TAB +:+ "First" +:+ TAB +:+ "*TAa" +:+ NL)
                       (freshGen "commonTypes.go" []))
             ∅ in
  "TAa" ∈ declaredNames (StructAST (gen w))
  \/ lowerFirst "TAa" ∈ declaredNames (StructAST (gen w))
  \/ StructAST (gen (ensureReferencedTypesDeclared elements w).2) !! "TAa"
     = Some (" string" +:+ NL).
Proof.
  intros lib xlib w.
  apply (safety_net_declares_every_candidate elements w "TAa").
  - intros s. reflexivity.
  - apply elem_of_list_to_set, list_elem_of_filter.
    split; [reflexivity|].
    vm_compute. apply list_elem_of_further, list_elem_of_here.
Defined.

(** ** Named types on demand, the entry point and the imports *)

Section OnDemand.
Context `{GoLib} `{XgenLib}.

Lemma findSimpleType_no_simple_type g name :
  Forall (fun ele => match ele with PSimpleType _ => False | _ => True end)
         (ProtoTree g) ->
  findSimpleType g name = None /\ findSimpleTypeByGoName g name = None.
Proof.
  unfold findSimpleType, findSimpleTypeByGoName.
  induction 1 as [|ele rest Hele Hrest IH]; [done|].
  destruct ele; try done.
Qed.

(** A reference to a type that is not a simple type of the tree, in an
    output file other than the two the emitter knows by name, emits
    nothing and declares nothing: the state of the emission is as
    before. *)
Theorem ensureNamedType_outside_known_files (xsdOrGoName : string)
        (w : World) :
  strings.Contains (File (gen w)) "commonTypes.go" = false ->
  strings.Contains (File (gen w)) "trainOperation.go" = false ->
  Forall (fun ele => match ele with PSimpleType _ => False | _ => True end)
         (ProtoTree (gen w)) ->
  ensureNamedType xsdOrGoName w = (tt, w).
Proof.
  intros Hcommon Htrain Htree. unfold ensureNamedType.
  destruct (String.eqb (trimNSPrefix xsdOrGoName) ""); [reflexivity|].
  destruct (getBuildInTypeByLang (trimNSPrefix xsdOrGoName) "Go")
    as [bt ok].
  destruct (ok && negb (String.eqb bt "")); [reflexivity|].
  unfold mbind, M_bind, getGen.
  pose proof (fun n => findSimpleType_no_simple_type (gen w) n Htree)
    as Hfind.
  rewrite (proj1 (Hfind _)), (proj2 (Hfind _)).
  destruct (0 <? String.length (trimNSPrefix xsdOrGoName))%nat;
    rewrite ?(proj1 (Hfind _)), Hcommon, Htrain; reflexivity.
Qed.

(** [GenGo] returns an error exactly when the file cannot be created or
    the formatter rejects the text, and leaves a file exactly when the
    file was created; an error of the creation is returned as it is.  In
    each case the four passes have run: the emission is in the state they
    leave. *)
Theorem GenGo_outcome (create : string -> option error)
        (order : gset string -> list string) (w : World) :
  let g := gen (emitAll order w).2 in
  let path := FileWithExtension g ".go" in
  let text := copyright +:+ NL +:+ NL +:+ "package " +:+ packageNameOf g
              +:+ NL +:+ importBlock g +:+ Field g in
  let out := (GenGo create order w).1 in
  (GenGo create order w).2 = (emitAll order w).2
  /\ (outErr out = None
      <-> create path = None
          /\ exists source, formatSource text = inl source
                            /\ outFile out = Some (path, source))
  /\ (outFile out = None <-> create path <> None)
  /\ (forall err, create path = Some err ->
                  out = mkOutcome None (Some err)).
Proof.
  intros g path text out. subst out text path g.
  unfold GenGo. unfold mbind, M_bind, getGen.
  destruct (emitAll order w) as [u w']. cbn [fst snd].
  destruct (create (FileWithExtension (gen w') ".go")) as [err|] eqn:Hcreate.
  - cbn. split; [reflexivity|]. split; [|split].
    + split; [discriminate|]. by intros [Hc _].
    + split; [discriminate|done].
    + by intros err' [= ->].
  - destruct (formatSource _) as [source|err] eqn:Hformat; cbn.
    + split; [reflexivity|]. split; [|split].
      * split; [|done]. intros _. split; [reflexivity|]. by exists source.
      * split; [discriminate|]. by intros Hne.
      * discriminate.
    + split; [reflexivity|]. split; [|split].
      * split; [discriminate|]. by intros [_ (source & Hs & _)].
      * split; [discriminate|]. by intros Hne.
      * discriminate.
Qed.

(** The import block is empty exactly when no import is asked for: an
    empty pair of parentheses is never written. *)
Theorem importBlock_empty_iff (g : CodeGenerator) :
  importBlock g = ""
  <-> ImportTime g = false /\ ImportEncodingXML g = false
      /\ ImportFmt g = false /\ ImportRegexp g = false.
Proof.
  unfold importBlock.
  destruct (ImportTime g), (ImportEncodingXML g), (ImportFmt g),
    (ImportRegexp g); cbn;
    (split; [intros Heq; first [discriminate Heq|done]
            |intros (H1 & H2 & H3 & H4); first [discriminate|done]]).
Qed.

End OnDemand.

(** A reference to a type of another schema, in the output [out]. *)
Lemma ensureNamedType_outside_known_files_witness :
  let lib := Env.goLib Env.accept in
  let xlib := Env.xgenLib in
  ensureNamedType "tns:tAa" (freshWorld "out" Scenario.shared)
  = (tt, freshWorld "out" Scenario.shared).
Proof.
  intros lib xlib.
  apply (ensureNamedType_outside_known_files "tns:tAa"
           (freshWorld "out" Scenario.shared) eq_refl eq_refl).
  repeat constructor.
Defined.

(** ** The fields of a complex type: [omitempty] and the import of
    [time] *)

(** Shows that a computation leaves a component of the generator as it
    is. *)
Ltac keeps_tac :=
  repeat first
    [ apply keeps_ret
    | apply keeps_getGen
    | apply keeps_genGoFieldName
    | apply keeps_modifyGen; reflexivity
    | apply keeps_when
    | apply keeps_bind; [|intros ?]
    | match goal with
      | |- keeps _ (appendField _) => unfold appendField
      | |- keeps _ (putStructAST _ _) => unfold putStructAST
      | |- keeps _ (if ?b then _ else _) => destruct b
      | |- keeps _ (match ?x with _ => _ end) => destruct x
      | |- keeps _ (let '(_, _) := ?x in _) => destruct x
      end ].

Section FieldsOfComplexTypes.
Context `{GoLib} `{XgenLib}.

Lemma keeps_time_generateSimpleTypeValidator typeName base r :
  keeps ImportTime (generateSimpleTypeValidator typeName base r).
Proof. unfold generateSimpleTypeValidator. keeps_tac. Qed.

Lemma keeps_time_ensureNamedType name :
  keeps ImportTime (ensureNamedType name).
Proof.
  unfold ensureNamedType. keeps_tac;
    apply keeps_time_generateSimpleTypeValidator.
Qed.

Lemma pointer_is_not_time (s : string) :
  strings.HasPrefix s "*" = true -> String.eqb s "time.Time" = false.
Proof.
  destruct s as [|c s]; [discriminate|].
  unfold strings.HasPrefix. simpl. intros Hprefix.
  destruct (Ascii.eqb c "t") eqn:Hc; [|reflexivity].
  apply Ascii.eqb_eq in Hc. subst c. discriminate Hprefix.
Qed.

Lemma elementFieldType_time e fieldType :
  String.eqb (elementFieldType e fieldType).1 "time.Time"
  = negb (Element.Plural e) && negb (Element.Optional e)
    && String.eqb fieldType "time.Time".
Proof.
  unfold elementFieldType.
  destruct (Element.Plural e), (Element.Optional e); simpl;
    try reflexivity.
  destruct (strings.HasPrefix fieldType "*") eqn:Hp; simpl;
    [by apply pointer_is_not_time|reflexivity].
Qed.

Lemma attributeFieldType_time a fieldType :
  String.eqb (attributeFieldType a fieldType).1 "time.Time"
  = negb (Attribute.Optional a) && String.eqb fieldType "time.Time".
Proof.
  unfold attributeFieldType.
  destruct (Attribute.Optional a); simpl; [|reflexivity].
  destruct (strings.HasPrefix fieldType "*") eqn:Hp; simpl;
    [by apply pointer_is_not_time|reflexivity].
Qed.

(** The fields of a complex type ask for the import of [time] only when
    the type written is [time.Time] itself: a required element that is
    not plural, or a required attribute.  An optional or plural field of
    that type, written [*time.Time] or [[]time.Time], leaves the import
    as it is. *)
Theorem time_import_of_fields (e : Element.t) (a : Attribute.t)
        (w : World) :
  let g := gen w in
  let fte := (fieldTypeOf g (Element.TypeRef e) (Element.Type_ e)).2 in
  let fta := (fieldTypeOf g (Attribute.TypeRef a) (Attribute.Type_ a)).2 in
  ImportTime (gen (elementField e w).2)
  = ImportTime g
    || (negb (Element.Plural e) && negb (Element.Optional e)
        && String.eqb fte "time.Time")
  /\ ImportTime (gen (attributeField a w).2)
     = ImportTime g
       || (negb (Attribute.Optional a) && String.eqb fta "time.Time").
Proof.
  intros g fte fta. split.
  - clear fta. unfold elementField. unfold mbind, M_bind at 1.
    pose proof (sameTree_ensureNamedType (Element.TypeRef e) w) as Htree.
    pose proof (keeps_time_ensureNamedType (Element.TypeRef e) w) as Htime.
    destruct (ensureNamedType (Element.TypeRef e) w) as [u w1].
    simpl in Htree, Htime. unfold mbind, M_bind, getGen.
    rewrite (fieldTypeOf_tree (gen w1) g _ _ Htree).
    subst fte. destruct (fieldTypeOf g _ _) as [base fieldType].
    cbn [snd]. rewrite <- elementFieldType_time.
    destruct (elementFieldType e fieldType) as [ty opt]. cbn [fst].
    destruct (fieldRestriction (gen w1) _ _ _ _) as [r base'].
    destruct (when (String.eqb ty "time.Time")
                   (modifyGen (setImportTime true)) w1)
      as [u' w'] eqn:Hwhen.
    rewrite genGoFieldName_false. unfold mret, M_ret. cbn [snd].
    destruct (String.eqb ty "time.Time"); unfold when in Hwhen;
      inversion Hwhen; subst w'; cbn [gen ImportTime setImportTime].
    + by rewrite orb_true_r.
    + by rewrite orb_false_r.
  - clear fte. unfold attributeField. unfold mbind, M_bind at 1.
    pose proof (sameTree_ensureNamedType (Attribute.TypeRef a) w) as Htree1.
    pose proof (keeps_time_ensureNamedType (Attribute.TypeRef a) w)
      as Htime1.
    destruct (ensureNamedType (Attribute.TypeRef a) w) as [u w1].
    unfold mbind, M_bind at 1.
    pose proof (sameTree_ensureNamedType (Attribute.Type_ a) w1) as Htree2.
    pose proof (keeps_time_ensureNamedType (Attribute.Type_ a) w1)
      as Htime2.
    destruct (ensureNamedType (Attribute.Type_ a) w1) as [u0 w2].
    simpl in Htree1, Htree2, Htime1, Htime2.
    rewrite Htree1 in Htree2. rewrite Htime1 in Htime2.
    unfold mbind, M_bind, getGen.
    rewrite (fieldTypeOf_tree (gen w2) g _ _ Htree2).
    subst fta. destruct (fieldTypeOf g _ _) as [base fieldType].
    cbn [snd]. rewrite <- attributeFieldType_time.
    destruct (attributeFieldType a fieldType) as [ty opt]. cbn [fst].
    destruct (fieldRestriction (gen w2) _ _ _ _) as [r base'].
    destruct (when (String.eqb ty "time.Time")
                   (modifyGen (setImportTime true)) w2)
      as [u' w'] eqn:Hwhen.
    rewrite genGoFieldName_false. unfold mret, M_ret. cbn [snd].
    destruct (String.eqb ty "time.Time"); unfold when in Hwhen;
      inversion Hwhen; subst w'; cbn [gen ImportTime setImportTime].
    + by rewrite orb_true_r.
    + by rewrite orb_false_r.
Qed.

(** The [xml] key of a field of a complex type: that of an element has
    [,omitempty] exactly when the element is optional; that of an
    attribute has it only when the attribute is optional and its type was
    a pointer already, so that an optional attribute whose type is made a
    pointer has none. *)
Theorem xml_key_omitempty (e : Element.t) (a : Attribute.t) (w : World) :
  let g := gen w in
  let fta := (fieldTypeOf g (Attribute.TypeRef a) (Attribute.Type_ a)).2 in
  (exists ty vtag,
      (elementField e w).1
      = TAB +:+ upperWords (Element.Name e) +:+ TAB +:+ ty +:+ TAB +:+ "`"
        +:+ fieldTag
              (Element.Name e
               +:+ (if Element.Optional e then ",omitempty" else ""))
              vtag
        +:+ "`" +:+ NL)
  /\ (exists ty vtag,
         (attributeField a w).1
         = TAB +:+ upperWords (Attribute.Name a) +:+ "Attr" +:+ TAB +:+ ty
           +:+ TAB +:+ "`"
           +:+ fieldTag
                 (Attribute.Name a +:+ ",attr"
                  +:+ (if Attribute.Optional a
                          && strings.HasPrefix fta "*"
                       then ",omitempty" else ""))
                 vtag
           +:+ "`" +:+ NL).
Proof.
  intros g fta.
  assert (Hkey : forall ft,
             (elementFieldType e ft).2
             = if Element.Optional e then ",omitempty" else "").
  { intros ft. unfold elementFieldType.
    by destruct (Element.Optional e). }
  assert (Hkey' : forall ft,
             (attributeFieldType a ft).2
             = if Attribute.Optional a && strings.HasPrefix ft "*"
               then ",omitempty" else "").
  { intros ft. unfold attributeFieldType.
    destruct (Attribute.Optional a); [|reflexivity].
    by destruct (strings.HasPrefix ft "*"). }
  split.
  - eexists _, _. rewrite elementField_line, Hkey. reflexivity.
  - eexists _, _. rewrite attributeField_line, Hkey'. reflexivity.
Qed.

End FieldsOfComplexTypes.
